(** * Riwaz ML training utilities: pitch binning, evaluation metrics, TFLite conversion

    A shallow embedding of

    - [ml_training/pitch_detection/train_pitch_model.py]
      ([pitch_to_bin], [bin_to_pitch], [load_dataset]),
    - [ml_training/swar_classification/train_swar_classifier.py]
      ([load_dataset]),
    - [ml_training/utils/evaluation.py]
      ([evaluate_pitch_model], [evaluate_swar_classifier]),
    - [ml_training/utils/tflite_converter.py]
      ([convert_to_tflite], [test_tflite_model], [main]),
    - [ml_training/utils/create_placeholder_models.py]
      ([create_minimal_tflite_model], [main]).

    Conventions.  The pitch codec computes bin indices from floats, and a bin
    index is an observable integer: there a NumPy float is an IEEE 754
    binary64 value ([spec_float] with the operations of the Standard
    Library's [SpecFloat], precision 53), with its NaN, infinities and
    rounding, and the two functions of the C library the codec calls, [log2]
    and [pow(2, .)], are parameters.  The metrics of [evaluation.py] are
    means and percentages; there a float is modelled by the real number it
    stands for (type [R]) and a NaN result by [None].  A Python [int] is a
    [Z], an array index or class index a [nat].  Calls into TensorFlow,
    scikit-learn, pandas and the file system are modelled by explicit
    parameters or by the documented behaviour of the library function, as
    said at each definition. *)

From stdpp Require Import base option list sorting strings gmap.
From Stdlib Require Import ZArith Reals Lra Lia.
From Stdlib Require PrimFloat SpecFloat FloatOps.

(** ** Numeric helpers *)

Module Numeric.
Local Open Scope R_scope.

(** The base-2 logarithm of a positive real number. *)
Definition log2 (x : R) : R := ln x / ln 2.

End Numeric.

(** ** Python exceptions *)

Module Python.

Inductive Exn :=
  | FileNotFoundError | FileExistsError | IsADirectoryError
  | OSError | ValueError | IndexError | ZeroDivisionError
  | ConverterError | RuntimeError | OverflowError | TypeError.

(** What a call comes back with: a value, or the exception it raised. *)
Inductive Outcome (A : Type) :=
  | Ok (a : A)
  | Raise (e : Exn).
Arguments Ok {A}.
Arguments Raise {A}.

End Python.

(** ** IEEE 754 binary64, the type of [np.float64] and of Python's [float] *)

Module Binary64.
Import Python SpecFloat.
Local Open Scope Z_scope.

Definition float64 : Type := spec_float.

Definition prec : Z := 53.
Definition emax : Z := 1024.

(** The four operations, rounded to nearest, ties to even. *)
Definition fadd : float64 -> float64 -> float64 := SFadd prec emax.
Definition fsub : float64 -> float64 -> float64 := SFsub prec emax.
Definition fmul : float64 -> float64 -> float64 := SFmul prec emax.
Definition fdiv : float64 -> float64 -> float64 := SFdiv prec emax.

(** [x < y]; false as soon as one side is NaN. *)
Definition flt (x y : float64) : bool := SFltb x y.

(** The float of a Python [int] (exact below 2^53 in magnitude). *)
Definition of_int (n : Z) : float64 := binary_normalize prec emax n 0 false.

(** Python's [int(x)] on a float: truncation towards zero; NaN raises
    [ValueError] ("cannot convert float NaN to integer") and an infinity
    raises [OverflowError]. *)
Definition py_int (x : float64) : Outcome Z :=
  match x with
  | S754_nan => Raise ValueError
  | S754_infinity _ => Raise OverflowError
  | S754_zero _ => Ok 0
  | S754_finite s m e => Ok (cond_Zopp s (Z.shiftl (Zpos m) e))
  end.


(** The same float, bit for bit (unlike [==], which tells [0.0] and [-0.0]
    equal and NaN different from itself). *)
Definition same (x y : float64) : bool :=
  match x, y with
  | S754_zero s, S754_zero s' => Bool.eqb s s'
  | S754_infinity s, S754_infinity s' => Bool.eqb s s'
  | S754_nan, S754_nan => true
  | S754_finite s m e, S754_finite s' m' e' =>
      Bool.eqb s s' && Pos.eqb m m' && Z.eqb e e'
  | _, _ => false
  end.



End Binary64.

(** ** PitchBinCodec: [pitch_to_bin] and [bin_to_pitch] *)

Module PitchBinCodec.
Import PrimFloat.
Import Numeric Python Binary64.
Local Open Scope Z_scope.

(** The two functions of the C mathematical library behind [np.log2(x)] and
    [2 ** x]; they fix no value here.  Neither raises: outside its domain
    [np.log2] returns NaN or an infinity (with a warning). *)
Record Libm := {
  np_log2 : float64 -> float64;
  power2 : float64 -> float64
}.

(** The default arguments of both functions. *)
Definition min_pitch_default : float64 :=
  Eval vm_compute in FloatOps.Prim2SF 50%float.
Definition max_pitch_default : float64 :=
  Eval vm_compute in FloatOps.Prim2SF 500%float.
Definition num_bins_default : Z := 360.

Section WithLibm.
Context (libm : Libm).

(** Lines 70-74 of [pitch_to_bin]: the three logarithms and the position
    [(log_pitch - log_min) / (log_max - log_min) * num_bins] on the bin axis,
    where [num_bins] enters the product as the float of the same value ... *)
Definition bin_position (pitch_hz min_pitch max_pitch : float64) (num_bins : Z)
  : float64 :=
  let log_min := np_log2 libm min_pitch in
  let log_max := np_log2 libm max_pitch in
  let log_pitch := np_log2 libm pitch_hz in
  fmul (fdiv (fsub log_pitch log_min) (fsub log_max log_min)) (of_int num_bins).

(** ... and [bin_idx = int(...)] of that position. *)
Definition bin_index (pitch_hz min_pitch max_pitch : float64) (num_bins : Z)
  : Outcome Z :=
  py_int (bin_position pitch_hz min_pitch max_pitch num_bins).

(** [pitch_to_bin(pitch_hz, min_pitch, max_pitch, num_bins)]: the range guard
    returns [-1]; past it the index is computed and clamped. *)
Definition pitch_to_bin (pitch_hz min_pitch max_pitch : float64) (num_bins : Z)
  : Outcome Z :=
  if flt pitch_hz min_pitch || flt max_pitch pitch_hz then Ok (-1)
  else
    match bin_index pitch_hz min_pitch max_pitch num_bins with
    | Ok bin_idx => Ok (Z.min bin_idx (num_bins - 1))
    | Raise e => Raise e
    end.

(** [bin_to_pitch(bin_idx, min_pitch, max_pitch, num_bins)].  No range check
    on [bin_idx].  [bin_idx / num_bins] is Python's true division of two
    [int]s: it raises [ZeroDivisionError] for [num_bins = 0] and is otherwise
    the correctly rounded quotient, which for operands below 2^53 in magnitude
    is the quotient of their floats. *)
Definition bin_to_pitch (bin_idx : Z) (min_pitch max_pitch : float64)
    (num_bins : Z) : Outcome float64 :=
  let log_min := np_log2 libm min_pitch in
  let log_max := np_log2 libm max_pitch in
  if decide (num_bins = 0) then Raise ZeroDivisionError
  else
    let log_pitch :=
      fadd log_min (fmul (fdiv (of_int bin_idx) (of_int num_bins))
                         (fsub log_max log_min)) in
    Ok (power2 libm log_pitch).

Definition encode (hz : float64) : Outcome Z :=
  pitch_to_bin hz min_pitch_default max_pitch_default num_bins_default.

Definition decode (b : Z) : Outcome float64 :=
  bin_to_pitch b min_pitch_default max_pitch_default num_bins_default.

(** Hz -> bin -> Hz, as [bin_to_pitch(pitch_to_bin(hz))]. *)
Definition roundtrip (hz : float64) : Outcome float64 :=
  match encode hz with
  | Ok b => decode b
  | Raise e => Raise e
  end.


End WithLibm.

(** The sentinel the source returns for an out-of-range pitch. *)
Definition OUT_OF_RANGE : Z := -1.


End PitchBinCodec.

(** ** MetricsEngine: the metric computations of [evaluation.py] *)

Module Evaluation.
Import Numeric.
Local Open Scope R_scope.

Definition sumR (l : list R) : R := foldr Rplus 0 l.

(** [np.mean] of a float array; the mean of an empty array is NaN. *)
Definition np_mean (l : list R) : option R :=
  match l with
  | [] => None
  | _ => Some (sumR l / INR (length l))
  end.

(** A boolean array enters [np.mean] as zeros and ones. *)
Definition indicator (P : Prop) (d : {P} + {¬ P}) : R := if d then 1 else 0.

(** *** Pitch mode *)

Record PitchResults := {
  test_samples : nat;
  rpa_50_cents : R;
  gross_pitch_error : R;
  mae_cents : R
}.

(** [cents_diff = np.abs(predictions - ground_truth)]: the predictions are
    the [argmax] integers, the ground truth is in Hz. *)
Definition cents_diff (predictions : list Z) (ground_truth : list R) : list R :=
  zip_with (λ p t, Rabs (IZR p - t)) predictions ground_truth.

(** Lines 64-81 of [evaluate_pitch_model].  The loop appends to both lists
    together, so they have one length; arrays of different lengths (NumPy
    broadcasting or its error) are not modelled and give [None], as does the
    NaN mean of no sample at all. *)
Definition pitch_metrics (n_samples : nat)
    (predictions : list Z) (ground_truth : list R) : option PitchResults :=
  if decide (length predictions = length ground_truth) then
    let cents := cents_diff predictions ground_truth in
    rpa ← np_mean (map (λ c, indicator (c < 50) (Rlt_dec c 50)) cents);
    gpe ← np_mean (map (λ c, indicator (c > 100) (Rgt_dec c 100)) cents);
    mae ← np_mean cents;
    Some {| test_samples := n_samples;
            rpa_50_cents := rpa * 100;
            gross_pitch_error := gpe * 100;
            mae_cents := mae |}
  else None.

(** [evaluate_pitch_model]: [test_samples = 100] placeholder samples.  The
    loaded model applied to the i-th random audio window is [predict i]
    (its [argmax]), the i-th random true pitch is [true_pitch i]. *)
Definition evaluate_pitch_model (predict : nat → Z) (true_pitch : nat → R)
  : option PitchResults :=
  let n_samples := 100%nat in
  let predictions := map predict (seq 0 n_samples) in
  let ground_truth := map true_pitch (seq 0 n_samples) in
  pitch_metrics n_samples predictions ground_truth.

(** The cents error as the specification words it:
    the magnitude of [1200 * log2 (pred_hz / true_hz)]. *)
Definition cents_error_spec (pred_hz true_hz : R) : R :=
  Rabs (1200 * log2 (pred_hz / true_hz)).

(** The aggregation as the specification words it: a sample with a
    non-positive predicted or true frequency is left out, and the metrics are
    those of the samples that remain. *)
Definition valid_sample (s : Z * R) : Prop := (0 < s.1)%Z ∧ 0 < s.2.

#[export] Instance valid_sample_dec (s : Z * R) : Decision (valid_sample s).
Proof.
  unfold valid_sample. destruct (decide (0 < s.1)%Z); [|right; tauto].
  destruct (Rlt_dec 0 s.2); [left; tauto | right; tauto].
Defined.

Definition pitch_metrics_valid_only
    (predictions : list Z) (ground_truth : list R) : option PitchResults :=
  let valid := filter valid_sample (zip predictions ground_truth) in
  pitch_metrics (length valid) valid.*1 valid.*2.

(** *** Classification mode *)

Definition swar_classes : list string :=
  ["Sa"; "Re(k)"; "Re"; "Ga(k)"; "Ga"; "Ma";
   "Ma(t)"; "Pa"; "Dha(k)"; "Dha"; "Ni(k)"; "Ni"].

(** [sklearn.utils.multiclass.unique_labels(y_true, y_pred)]: the distinct
    labels that occur in either array, in increasing order. *)
Definition unique_labels (y_true y_pred : list nat) : list nat :=
  merge_sort Nat.le (remove_dups (y_true ++ y_pred)).

(** Number of samples with true label [t] and predicted label [p]. *)
Definition count_pair (y_true y_pred : list nat) (t p : nat) : nat :=
  length (filter (λ tp, tp = (t, p)) (zip y_true y_pred)).

(** [sklearn.metrics.confusion_matrix(y_true, y_pred)] with no [labels]
    argument, as the source calls it: rows and columns range over
    [unique_labels y_true y_pred], entry [i][j] counts the samples whose true
    label is the i-th and whose predicted label is the j-th of them. *)
Definition confusion_matrix (y_true y_pred : list nat) : list (list nat) :=
  let labels := unique_labels y_true y_pred in
  (λ t, (λ p, count_pair y_true y_pred t p) <$> labels) <$> labels.

Record ClassReport := {
  precision : R;
  recall : R;
  f1_score : R;
  support : nat
}.

(** A quotient of counts with [zero_division=0]. *)
Definition prf_divide (num den : nat) : R :=
  if decide (den = 0%nat) then 0 else INR num / INR den.

Definition count_eq (c : nat) (l : list nat) : nat :=
  length (filter (λ x, x = c) l).

(** One row of [precision_recall_fscore_support(..., average=None,
    zero_division=0)] for label [c]. *)
Definition class_report (y_true y_pred : list nat) (c : nat) : ClassReport :=
  let tp := count_pair y_true y_pred c c in
  let p := prf_divide tp (count_eq c y_pred) in
  let r := prf_divide tp (count_eq c y_true) in
  {| precision := p;
     recall := r;
     f1_score := if Req_dec_T (p + r) 0 then 0 else 2 * p * r / (p + r);
     support := count_eq c y_true |}.

(** [sklearn.metrics.classification_report(y_true, y_pred,
    target_names=..., output_dict=True, zero_division=0)] with no [labels]
    argument.  The labels are [unique_labels y_true y_pred]; when their
    number differs from the number of target names the function raises
    [ValueError] ("Number of classes, n, does not match size of
    target_names, m. Try specifying the labels parameter"), which is [None].
    The result pairs each target name with the row of the label at the same
    position.  The ['accuracy'], ['macro avg'] and ['weighted avg'] entries
    of the dictionary are left out: nothing in the source reads them. *)
Definition classification_report (y_true y_pred : list nat)
    (target_names : list string) : option (list (string * ClassReport)) :=
  let labels := unique_labels y_true y_pred in
  if decide (length labels = length target_names)
  then Some (zip target_names (class_report y_true y_pred <$> labels))
  else None.

Record SwarResults := {
  swar_test_samples : nat;
  top1_accuracy : R;
  report : list (string * ClassReport);
  confusion : list (list nat)
}.

(** Lines 143-166 of [evaluate_swar_classifier]. *)
Definition swar_metrics (n_samples : nat)
    (predictions ground_truth : list nat) : option SwarResults :=
  if decide (length predictions = length ground_truth) then
    acc ← np_mean (zip_with (λ p t, indicator (p = t) (decide (p = t)))
                            predictions ground_truth);
    let top1_acc := acc * 100 in
    rep ← classification_report ground_truth predictions swar_classes;
    let cm := confusion_matrix ground_truth predictions in
    Some {| swar_test_samples := n_samples;
            top1_accuracy := top1_acc;
            report := rep;
            confusion := cm |}
  else None.

(** [evaluate_swar_classifier]: [test_samples = 120] placeholder samples,
    the i-th with true class [i % 12]; [predict i] is the [argmax] of the
    loaded model on the i-th random spectrogram. *)
Definition evaluate_swar_classifier (predict : nat → nat) : option SwarResults :=
  let n_samples := 120%nat in
  let predictions := map predict (seq 0 n_samples) in
  let ground_truth := map (λ i, i mod 12)%nat (seq 0 n_samples) in
  swar_metrics n_samples predictions ground_truth.

(** The per-class row stored under the display name of class [c]. *)
Definition f1_of (rep : list (string * ClassReport)) (c : nat) : option R :=
  name ← swar_classes !! c;
  row ← (list_to_map rep : gmap string ClassReport) !! name;
  Some (f1_score row).

(** [np.trace]: the sum of the diagonal of a grid. *)
Definition trace (cm : list (list nat)) : nat :=
  sum_list ((λ i, default 0%nat (cm !! i ≫= (.!! i))) <$> seq 0 (length cm)).

End Evaluation.

(** ** ArtifactConverter: [tflite_converter.py] *)

Module TFLiteConverter.
Export Python.
Local Open Scope R_scope.

(** A path is the list of its components ([pathlib]'s [parts]); the empty
    list is the working directory.  File contents are byte strings. *)
Abbreviation path := (list string).
Abbreviation bytes := (list Byte.byte).

Inductive DType := float32 | float16 | int8 | uint8 | int32.
Inductive Optimize := DEFAULT.
Inductive OpsSet := TFLITE_BUILTINS | SELECT_TF_OPS | TFLITE_BUILTINS_INT8.

#[export] Instance OpsSet_eq_dec : EqDecision OpsSet.
Proof. solve_decision. Defined.

#[export] Instance DType_eq_dec : EqDecision DType.
Proof. solve_decision. Defined.

(** A NumPy array: shape, element type, flat data. *)
Record NDArray := {
  arr_shape : list nat;
  arr_dtype : DType;
  arr_data : list R
}.

(** The attributes of [tf.lite.TFLiteConverter] that the source assigns,
    next to the Keras model the converter was made from and to
    [representative_dataset], the calibration samples of integer
    quantisation, which the source never assigns. *)
Record Converter (Model : Type) := {
  keras_model : Model;
  optimizations : list Optimize;
  supported_ops : list OpsSet;
  supported_types : list DType;
  inference_input_type : DType;
  inference_output_type : DType;
  representative_dataset : option (list NDArray)
}.
Arguments keras_model {Model}.
Arguments optimizations {Model}.
Arguments supported_ops {Model}.
Arguments supported_types {Model}.
Arguments inference_input_type {Model}.
Arguments inference_output_type {Model}.
Arguments representative_dataset {Model}.

Definition set_optimizations {Model} (v : list Optimize) (c : Converter Model) :=
  {| keras_model := keras_model c; optimizations := v;
     supported_ops := supported_ops c; supported_types := supported_types c;
     inference_input_type := inference_input_type c;
     inference_output_type := inference_output_type c;
     representative_dataset := representative_dataset c |}.
Definition set_supported_ops {Model} (v : list OpsSet) (c : Converter Model) :=
  {| keras_model := keras_model c; optimizations := optimizations c;
     supported_ops := v; supported_types := supported_types c;
     inference_input_type := inference_input_type c;
     inference_output_type := inference_output_type c;
     representative_dataset := representative_dataset c |}.
Definition set_supported_types {Model} (v : list DType) (c : Converter Model) :=
  {| keras_model := keras_model c; optimizations := optimizations c;
     supported_ops := supported_ops c; supported_types := v;
     inference_input_type := inference_input_type c;
     inference_output_type := inference_output_type c;
     representative_dataset := representative_dataset c |}.
Definition set_inference_input_type {Model} (v : DType) (c : Converter Model) :=
  {| keras_model := keras_model c; optimizations := optimizations c;
     supported_ops := supported_ops c; supported_types := supported_types c;
     inference_input_type := v;
     inference_output_type := inference_output_type c;
     representative_dataset := representative_dataset c |}.
Definition set_inference_output_type {Model} (v : DType) (c : Converter Model) :=
  {| keras_model := keras_model c; optimizations := optimizations c;
     supported_ops := supported_ops c; supported_types := supported_types c;
     inference_input_type := inference_input_type c;
     inference_output_type := v;
     representative_dataset := representative_dataset c |}.

(** One entry of [get_input_details()] / [get_output_details()]. *)
Record TensorDetails := {
  shape : list nat;
  dtype : DType
}.

(** A loaded [tf.lite.Interpreter]: the declared tensors and what one
    [invoke] computes from the input tensor ([None]: it raises). *)
Record Interp := {
  input_details : list TensorDetails;
  output_details : list TensorDetails;
  run : NDArray → option NDArray
}.

(** The library calls the module makes, as parameters: TensorFlow's model
    loader, converter and interpreter ([None] where the call raises) and
    NumPy's random normal generator. *)
Record Libraries (Model : Type) := {
  load_model : bytes → option Model;
  from_keras_model : Model → Converter Model;
  convert : Converter Model → option bytes;
  Interpreter : bytes → option Interp;
  randn : list nat → list R
}.
Arguments load_model {Model}.
Arguments from_keras_model {Model}.
Arguments convert {Model}.
Arguments Interpreter {Model}.
Arguments randn {Model}.

(** What [print] writes: a fixed text, or a text with a formatted value. *)
Inductive Output :=
  | Line (s : string)
  | LinePath (s : string) (p : path)
  | LineNum (s : string) (x : R)
  | LineShape (s : string) (sh : list nat)
  | LineDType (s : string) (d : DType)
  | LineData (s : string) (xs : list R).

(** The state the module acts on: regular files, directories, standard
    output, and a log of the [interpreter.invoke()] calls made so far (the
    artifact run and the tensor it was given). *)
Record World := {
  files : gmap path bytes;
  dirs : gset path;
  stdout : list Output;
  invocations : list (bytes * NDArray)
}.

(** State and exceptions: a computation maps a world to the world it leaves
    and either a value or the exception raised. *)
Definition M (A : Type) : Type := World → World * Outcome A.

#[export] Instance M_ret : MRet M := λ A a w, (w, Ok a).
#[export] Instance M_bind : MBind M := λ A B f m w,
  match m w with
  | (w', Ok a) => f a w'
  | (w', Raise e) => (w', Raise e)
  end.

Definition raise {A} (e : Exn) : M A := λ w, (w, Raise e).

Definition lift {A} (e : Exn) (o : option A) : M A :=
  match o with Some a => mret a | None => raise e end.

Definition print (o : Output) : M unit := λ w,
  ({| files := files w; dirs := dirs w; stdout := stdout w ++ [o];
      invocations := invocations w |}, Ok ()).

Definition log_invoke (art : bytes) (x : NDArray) : M unit := λ w,
  ({| files := files w; dirs := dirs w; stdout := stdout w;
      invocations := invocations w ++ [(art, x)] |}, Ok ()).

(** Reading a regular file. *)
Definition read_bytes (p : path) : M bytes := λ w,
  match files w !! p with
  | Some b => (w, Ok b)
  | None => (w, Raise (if decide (p ∈ dirs w) then IsADirectoryError
                       else FileNotFoundError))
  end.

(** [Path(p).stat().st_size] of a regular file. *)
Definition stat_size (p : path) : M Z := λ w,
  match files w !! p with
  | Some b => (w, Ok (Z.of_nat (length b)))
  | None => (w, Raise FileNotFoundError)
  end.

(** [Path.parent]. *)
Definition parent (p : path) : path := take (length p - 1) p.

(** The path itself and all its ancestors. *)
Definition prefixes (p : path) : list path :=
  map (λ n, take n p) (seq 0 (S (length p))).

(** [d.mkdir(parents=True, exist_ok=True)]: fails when [d] or an ancestor is
    a regular file, otherwise [d] and its ancestors are directories. *)
Definition mkdir_parents (d : path) : M unit := λ w,
  if decide (Exists (λ q, is_Some (files w !! q)) (prefixes d))
  then (w, Raise FileExistsError)
  else ({| files := files w; dirs := dirs w ∪ list_to_set (prefixes d);
           stdout := stdout w; invocations := invocations w |}, Ok ()).

(** [with open(p, 'wb') as f: f.write(b)]. *)
Definition write_bytes (p : path) (b : bytes) : M unit := λ w,
  if decide (p = [] ∨ p ∈ dirs w) then (w, Raise IsADirectoryError)
  else if decide (parent p ∈ dirs w) then
    ({| files := <[p := b]> (files w); dirs := dirs w;
        stdout := stdout w; invocations := invocations w |}, Ok ())
  else (w, Raise FileNotFoundError).

(** Lines 57-59 of [convert_to_tflite]: both sizes in MB and the figure the
    source names [compression_ratio].  Python raises [ZeroDivisionError] on a
    float division by zero, which is [None]. *)
Definition compression_ratio (original_bytes tflite_bytes : Z) : option R :=
  let original_size := IZR original_bytes / (1024 * 1024) in
  let tflite_size := IZR tflite_bytes / (1024 * 1024) in
  if Req_dec_T original_size 0 then None
  else Some ((1 - tflite_size / original_size) * 100).

Section WithLibraries.
Context {Model : Type} (tf : Libraries Model).

(** Lines 30-43: the optimisation and quantisation settings. *)
Definition configure (optimize : bool) (quantize : option string)
    (converter : Converter Model) : M (Converter Model) :=
  converter ← (if optimize then
                 print (Line "Optimization enabled");;
                 mret (set_optimizations [DEFAULT] converter)
               else mret converter);
  if decide (quantize = Some "int8") then
    let converter := set_supported_ops [TFLITE_BUILTINS_INT8] converter in
    let converter := set_inference_input_type int8 converter in
    let converter := set_inference_output_type int8 converter in
    print (Line "INT8 quantization enabled");;
    mret converter
  else if decide (quantize = Some "float16") then
    let converter := set_supported_types [float16] converter in
    print (Line "Float16 quantization enabled");;
    mret converter
  else mret converter.

(** [convert_to_tflite(model_path, output_path, optimize, quantize)]. *)
Definition convert_to_tflite (model_path output_path : path)
    (optimize : bool) (quantize : option string) : M bytes :=
  print (LinePath "Loading model from: " model_path);;
  h5 ← read_bytes model_path;
  model ← lift OSError (load_model tf h5);
  let converter := from_keras_model tf model in
  converter ← configure optimize quantize converter;
  print (Line "Converting model...");;
  tflite_model ← lift ConverterError (convert tf converter);
  mkdir_parents (parent output_path);;
  write_bytes output_path tflite_model;;
  st_size ← stat_size model_path;
  let tflite_len := Z.of_nat (length tflite_model) in
  ratio ← lift ZeroDivisionError (compression_ratio st_size tflite_len);
  print (Line "Conversion complete!");;
  print (LineNum "  Original model size (MB): " (IZR st_size / (1024 * 1024)));;
  print (LineNum "  TFLite model size (MB): " (IZR tflite_len / (1024 * 1024)));;
  print (LineNum "  Compression (%): " ratio);;
  print (LinePath "  Output saved to: " output_path);;
  mret tflite_model.

(** [xs[0]] on a Python list. *)
Definition index0 {A} (xs : list A) : M A := lift IndexError (head xs).

(** [interpreter.set_tensor]: TensorFlow refuses a value whose element type
    or dimensions differ from the declared input tensor. *)
Definition set_tensor (d : TensorDetails) (x : NDArray) : M unit :=
  if decide (arr_dtype x = dtype d ∧ arr_shape x = shape d)
  then mret () else raise ValueError.

(** [test_tflite_model(tflite_path, test_input)]. *)
Definition test_tflite_model (tflite_path : path) (test_input : option NDArray)
  : M NDArray :=
  print (LinePath "Testing TFLite model: " tflite_path);;
  art ← read_bytes tflite_path;
  interpreter ← lift ValueError (Interpreter tf art);
  print (Line "Model Details:");;
  in0 ← index0 (input_details interpreter);
  print (LineShape "  Input shape: " (shape in0));;
  print (LineDType "  Input type: " (dtype in0));;
  out0 ← index0 (output_details interpreter);
  print (LineShape "  Output shape: " (shape out0));;
  print (LineDType "  Output type: " (dtype out0));;
  let test_input :=
    match test_input with
    | Some x => x
    | None => {| arr_shape := shape in0; arr_dtype := float32;
                 arr_data := randn tf (shape in0) |}
    end in
  set_tensor in0 test_input;;
  log_invoke art test_input;;
  output ← lift RuntimeError (run interpreter test_input);
  print (Line "Inference test successful!");;
  print (LineShape "  Output shape: " (arr_shape output));;
  (* [output[0][:5]] needs a first row to slice *)
  match arr_shape output with
  | S _ :: n :: _ =>
      print (LineData "  Output sample: " (take (Nat.min 5 n) (arr_data output)));;
      mret output
  | _ => raise IndexError
  end.

(** The command-line arguments. *)
Record Args := {
  model : path;
  output : path;
  optimize : bool;
  quantize : option string;
  test : bool
}.

(** [main()], after argument parsing. *)
Definition main (args : Args) : M unit :=
  convert_to_tflite (model args) (output args) (optimize args) (quantize args);;
  (if test args then test_tflite_model (output args) None;; mret ()
   else mret ());;
  print (Line "Next steps:");;
  print (LinePath "1. Test on Android: cp " (output args));;
  print (Line "2. Verify in app logs: 'TFLite model loaded successfully'");;
  print (Line "3. Benchmark performance on device").

End WithLibraries.

(** A computation that leaves the files, the directories and the log of
    inferences as they are, whatever its outcome. *)
Definition read_only {A} (m : M A) : Prop :=
  forall w w' r, m w = (w', r) ->
    files w' = files w /\ dirs w' = dirs w /\ invocations w' = invocations w.

(** A computation that runs no inference, whatever its outcome. *)
Definition no_inference {A} (m : M A) : Prop :=
  forall w w' r, m w = (w', r) -> invocations w' = invocations w.

(** A computation that logs at most [k] inferences, whatever its outcome. *)
Definition logs_at_most {A} (k : nat) (m : M A) : Prop :=
  forall w w' r, m w = (w', r) ->
    exists extra, invocations w' = invocations w ++ extra /\ (length extra <= k)%nat.

(** A computation that leaves files and directories as they are, whatever its
    outcome. *)
Definition keeps_files {A} (m : M A) : Prop :=
  forall w w' r, m w = (w', r) -> files w' = files w /\ dirs w' = dirs w.

End TFLiteConverter.

(** ** A concrete library instance and world

    A converter that always produces the same four-byte artifact, and an
    interpreter that declares an output of shape [[1; 12]] but computes one
    of shape [[1; 11]]. *)

Module ConverterExample.
Import TFLiteConverter.
Local Open Scope R_scope.

Definition default_converter : Converter unit :=
  {| keras_model := (); optimizations := [];
     supported_ops := [TFLITE_BUILTINS]; supported_types := [];
     inference_input_type := float32; inference_output_type := float32;
     representative_dataset := None |}.

Definition artifact : bytes := [Byte.x54; Byte.x46; Byte.x4c; Byte.x33].

Definition mismatching : Interp :=
  {| input_details := [{| shape := [1; 4]%nat; dtype := float32 |}];
     output_details := [{| shape := [1; 12]%nat; dtype := float32 |}];
     run := λ _, Some {| arr_shape := [1; 11]%nat; arr_dtype := float32;
                         arr_data := [] |} |}.

Definition tf0 : Libraries unit :=
  {| load_model := λ _, Some ();
     from_keras_model := λ _, default_converter;
     convert := λ _, Some artifact;
     Interpreter := λ _, Some mismatching;
     randn := λ _, [] |}.

Definition h5_file : bytes :=
  [Byte.x89; Byte.x48; Byte.x44; Byte.x46; Byte.x0d; Byte.x0a; Byte.x1a; Byte.x0a].

Definition w0 : World :=
  {| files := {[ ["model.h5"%string] := h5_file ]};
     dirs := {[ [] ]};
     stdout := [];
     invocations := [] |}.

Definition args0 (run_test : bool) : Args :=
  {| model := ["model.h5"%string];
     output := ["out"%string; "model.tflite"%string];
     optimize := true;
     quantize := None;
     test := run_test |}.




(** A library whose model holds an operation outside the int8 builtins: the
    converter raises when only those are allowed. *)
Definition tf_unsupported : Libraries unit :=
  {| load_model := λ _, Some ();
     from_keras_model := λ _, default_converter;
     convert := λ c,
       match supported_ops c with
       | [TFLITE_BUILTINS_INT8] => None
       | _ => Some artifact
       end;
     Interpreter := λ _, Some mismatching;
     randn := λ _, [] |}.

(** A library that, like TensorFlow, quantises a float model to integers
    only with calibration samples: without a representative dataset its
    converter raises as soon as the int8 builtins are the target. *)
Definition tf_calibrating : Libraries unit :=
  {| load_model := λ _, Some ();
     from_keras_model := λ _, default_converter;
     convert := λ c,
       match representative_dataset c with
       | None => if bool_decide (TFLITE_BUILTINS_INT8 ∈ supported_ops c)
                 then None else Some artifact
       | Some _ => Some artifact
       end;
     Interpreter := λ _, Some mismatching;
     randn := λ _, [] |}.


(** The synthetic input [test_tflite_model] builds for [mismatching]. *)
Definition input0 : NDArray :=
  {| arr_shape := [1; 4]%nat; arr_dtype := float32; arr_data := [] |}.

End ConverterExample.

(** ** Dataset loading of [train_pitch_model.py] *)

Module TrainPitchModel.
Import Numeric Binary64 PitchBinCodec TFLiteConverter.
Local Open Scope R_scope.

(** A cell of the [pitch_hz] column as pandas hands it to the loop: a float
    (a blank cell is NaN, a cell of an integer column enters the arithmetic
    as the float of the same value), or, in a column that holds text, the
    text. *)
Inductive Cell :=
  | Number (x : float64)
  | Text (s : string).

(** One row of [labels.csv]; the [confidence] column is never read.  The file
    name is kept as the list of its path components. *)
Record LabelRow := {
  filename : path;
  pitch_hz : Cell
}.

(** [Path.exists]. *)
Definition path_exists (w : World) (p : path) : bool :=
  bool_decide (is_Some (files w !! p) ∨ p ∈ dirs w).

Section WithLibm.
Context (libm : Libm).

(** [pitch_to_bin(row['pitch_hz'])]: on a [str] the first comparison of the
    range guard raises [TypeError]. *)
Definition pitch_to_bin_of_cell (c : Cell) : Outcome Z :=
  match c with
  | Number x => encode libm x
  | Text _ => Raise TypeError
  end.

(** The loop of [load_dataset] over the rows that are left, with the two
    lists built so far.  [noise i] is the window [np.random.randn] draws for
    the row at position [i].  A row whose audio file is missing is skipped
    before anything is drawn or encoded; a row whose pitch encodes to a
    negative bin is dropped; an exception out of [pitch_to_bin] ends the
    loop. *)
Fixpoint load_rows (w : World) (audio_dir : path) (noise : nat → list R)
    (i : nat) (rows : list LabelRow) (X : list (list R)) (y : list Z)
  : Outcome (list (list R) * list Z) :=
  match rows with
  | [] => Ok (X, y)
  | row :: rest =>
      let audio_path := audio_dir ++ filename row in
      if negb (path_exists w audio_path) then
        load_rows w audio_dir noise (S i) rest X y
      else
        let audio := noise i in
        match pitch_to_bin_of_cell (pitch_hz row) with
        | Raise e => Raise e
        | Ok pitch_bin =>
            if (0 <=? pitch_bin)%Z
            then load_rows w audio_dir noise (S i) rest (X ++ [audio]) (y ++ [pitch_bin])
            else load_rows w audio_dir noise (S i) rest X y
        end
  end.



(** The whole loop, in the world it runs in. *)
Definition iterrows (audio_dir : path) (noise : nat → list R)
    (labels_df : list LabelRow) : M (list (list R) * list Z) := λ w,
  (w, load_rows w audio_dir noise 0 labels_df [] []).

(** [load_dataset(data_dir)].  [read_csv] is pandas' parser applied to the
    bytes of [labels.csv] ([None]: it raises). *)
Definition load_dataset (read_csv : bytes → option (list LabelRow))
    (noise : nat → list R) (data_dir : path)
  : M (list (list R) * list Z) :=
  let audio_dir := data_dir ++ ["audio"%string] in
  let labels_file := data_dir ++ ["labels.csv"%string] in
  csv ← read_bytes labels_file;
  labels_df ← lift ValueError (read_csv csv);
  iterrows audio_dir noise labels_df.

End WithLibm.

End TrainPitchModel.

(** ** Dataset loading of [train_swar_classifier.py] *)

Module TrainSwarClassifier.
Import TFLiteConverter.
Local Open Scope R_scope.

(** The directory names of the 12 classes, in class order. *)
Definition swar_classes : list string :=
  ["Sa"; "Re_komal"; "Re"; "Ga_komal"; "Ga"; "Ma";
   "Ma_tivra"; "Pa"; "Dha_komal"; "Dha"; "Ni_komal"; "Ni"].

(** A loaded mel spectrogram: its shape and its values. *)
Record MelSpec := {
  spec_shape : list nat;
  spec_data : list R
}.

(** A [for] loop over a list that threads an accumulator. *)
Fixpoint for_each {A S} (body : S → A → M S) (l : list A) (s : S) : M S :=
  match l with
  | [] => mret s
  | a :: rest => s' ← body s a; for_each body rest s'
  end.

Section WithLibraries.
(** [glob_npy d] is [d.glob('*.npy')], [np_load] is NumPy's loader on the
    bytes of a file ([None]: it raises), [randn i] the values of the i-th
    dummy spectrogram. *)
Context (glob_npy : World → path → list path)
        (np_load : bytes → option MelSpec)
        (randn : nat → list R).

(** The body of the inner loop: any exception while loading is caught,
    reported and the file skipped; a spectrogram of another shape than
    (128, 128) is skipped silently. *)
Definition load_file (class_idx : nat) (acc : list MelSpec * list nat)
    (spec_file : path) : M (list MelSpec * list nat) := λ w,
  match files w !! spec_file ≫= np_load with
  | Some mel_spec =>
      if decide (spec_shape mel_spec = [128; 128]%nat)
      then (w, Ok (acc.1 ++ [mel_spec], acc.2 ++ [class_idx]))
      else (w, Ok acc)
  | None => (print (LinePath "Error loading " spec_file);; mret acc) w
  end.

(** The body of the outer loop. *)
Definition load_class (data_path : path) (acc : list MelSpec * list nat)
    (entry : nat * string) : M (list MelSpec * list nat) := λ w,
  let class_dir := data_path ++ [entry.2] in
  if TrainPitchModel.path_exists w class_dir then
    for_each (load_file entry.1) (glob_npy w class_dir) acc w
  else
    (print (Line ("Warning: " +:+ entry.2 +:+ " directory not found"));;
     mret acc) w.

(** The 1000 dummy samples made when nothing was loaded. *)
Definition dummy_dataset : list MelSpec * list nat :=
  ((λ i, {| spec_shape := [128; 128]%nat; spec_data := randn i |}) <$> seq 0 1000,
   (λ i, i mod 12)%nat <$> seq 0 1000).

(** [load_dataset(data_dir)]. *)
Definition load_dataset (data_dir : path) : M (list MelSpec * list nat) :=
  Xy ← for_each (load_class data_dir) (imap pair swar_classes) ([], []);
  if decide (length Xy.1 = 0%nat) then
    print (Line "No data found, creating dummy dataset for testing...");;
    mret (Xy.1 ++ dummy_dataset.1, Xy.2 ++ dummy_dataset.2)
  else mret Xy.

End WithLibraries.

(** What the loading loops keep true of the two lists built so far, while
    the class with index [bound] is being read. *)
Definition well_formed (bound : nat) (acc : list MelSpec * list nat) : Prop :=
  length acc.1 = length acc.2 ∧
  Forall (λ s, spec_shape s = [128; 128]%nat) acc.1 ∧
  StronglySorted Nat.le acc.2 ∧
  Forall (λ c, c ≤ bound)%nat acc.2.

(** Two worlds with the same files and directories. *)
Definition same_files (w w' : World) : Prop :=
  files w' = files w ∧ dirs w' = dirs w.

End TrainSwarClassifier.

(** ** [create_placeholder_models.py] *)

Module PlaceholderModels.
Import TFLiteConverter.
Local Open Scope R_scope.

(** [os.makedirs(d, exist_ok=True)]: as [mkdir_parents], but the empty path
    (the [dirname] of a bare file name) raises [FileNotFoundError]. *)
Definition makedirs (d : path) : M unit :=
  if decide (d = []) then raise FileNotFoundError else mkdir_parents d.

(** [b'TFL3'] followed by 1024 zero bytes. *)
Definition header : bytes := [Byte.x54; Byte.x46; Byte.x4c; Byte.x33].

(** [create_minimal_tflite_model(output_path, input_shape, output_shape,
    model_name)]; the [metadata] dictionary it builds is never used. *)
Definition create_minimal_tflite_model (output_path : path)
    (input_shape output_shape : list nat) (model_name : string) : M Z :=
  let model_data := header ++ replicate 1024 Byte.x00 in
  makedirs (parent output_path);;
  write_bytes output_path model_data;;
  let file_size := Z.of_nat (length model_data) in
  print (LinePath ("Created " +:+ model_name +:+ ": ") output_path);;
  mret file_size.

Definition assets_dir : path :=
  [".."; "app"; "src"; "main"; "assets"]%string.

(** [main()]: the two placeholder models and the total size in KB. *)
Definition main : M unit :=
  print (Line "Creating Placeholder TFLite Models");;
  pitch_size ← create_minimal_tflite_model
                  (assets_dir ++ ["pitch_model.tflite"%string])
                  [1; 1024; 1]%nat [1; 360]%nat "pitch_detection";
  swar_size ← create_minimal_tflite_model
                 (assets_dir ++ ["swar_classifier.tflite"%string])
                 [1; 128; 128; 1]%nat [1; 12]%nat "swar_classification";
  print (Line "Placeholder models created successfully!");;
  print (LineNum "Total size (KB): " (IZR (pitch_size + swar_size) / 1024)).

End PlaceholderModels.

(** ** Values of the C library, and a concrete pitch dataset

    The doubles [log2] and [pow(2, .)] return at the arguments the examples
    below use (glibc on x86-64, where both are within one unit in the last
    place), as a table; elsewhere the table answers NaN. *)

Module LibmExample.
Import PrimFloat.
Import Binary64 PitchBinCodec.

Definition lookup (t : list (float64 * float64)) (x : float64) : float64 :=
  match List.find (fun p => same (fst p) x) t with
  | Some p => snd p
  | None => SpecFloat.S754_nan
  end.

Definition hz_50_1 : float64 :=                 (* 50.1 *)
  Eval vm_compute in FloatOps.Prim2SF 0x1.90ccccccccccdp+5%float.
Definition hz_440 : float64 :=
  Eval vm_compute in FloatOps.Prim2SF 440%float.
Definition hz_600 : float64 :=
  Eval vm_compute in FloatOps.Prim2SF 600%float.
Definition hz_100 : float64 :=
  Eval vm_compute in FloatOps.Prim2SF 100%float.

(** Decoded pitches. *)
Definition hz_of_bin_minus_1 : float64 :=       (* 49.68121708052404 *)
  Eval vm_compute in FloatOps.Prim2SF 0x1.8d7321f0d29e7p+5%float.
Definition hz_of_bin_359 : float64 :=           (* 496.8121708052408 *)
  Eval vm_compute in FloatOps.Prim2SF 0x1.f0cfea6d07467p+8%float.

(** [log2]: 50.0, 500.0, 499.99999999999994, 50.1, 50.320828411831435,
    50.64371544105965, 50.64371544105966, 440.0. *)
Definition log2_table : list (float64 * float64) :=
  Eval vm_compute in
  List.map (fun p => (FloatOps.Prim2SF (fst p), FloatOps.Prim2SF (snd p)))
   [ (0x1.9p+5, 0x1.6934f0979a371p+2);
     (0x1.f4p+8, 0x1.1ee7b471b3a95p+3);
     (0x1.f3fffffffffffp+8, 0x1.1ee7b471b3a95p+3);
     (0x1.90ccccccccccdp+5, 0x1.69642ab5928c4p+2);
     (0x1.92910e7c838c9p+5, 0x1.69cc1fdc14628p+2);
     (0x1.95265447fa405p+5, 0x1.6a634f208e8e0p+2);
     (0x1.95265447fa407p+5, 0x1.6a634f208e8e0p+2);
     (0x1.b8p+8, 0x1.1900e6160002dp+3) ]%float.

(** [pow(2, .)] at the logarithms of the lower edges of bins -1, 0, 2 and
    359. *)
Definition pow_table : list (float64 * float64) :=
  Eval vm_compute in
  List.map (fun p => (FloatOps.Prim2SF (fst p), FloatOps.Prim2SF (snd p)))
   [ (0x1.689dc153200bap+2, 0x1.8d7321f0d29e7p+5);
     (0x1.6934f0979a371p+2, 0x1.8fffffffffffep+5);
     (0x1.6a634f208e8e0p+2, 0x1.95265447fa407p+5);
     (0x1.1e9c1ccf7693ap+3, 0x1.f0cfea6d07467p+8) ]%float.

Definition libm_table : Libm :=
  {| np_log2 := lookup log2_table; power2 := lookup pow_table |}.

(** A C library that returns the values of the two tables at their
    arguments, whatever it returns elsewhere. *)
Definition agrees_with_table (libm : Libm) : Prop :=
  (forall x, lookup log2_table x <> SpecFloat.S754_nan ->
     np_log2 libm x = lookup log2_table x) /\
  (forall x, lookup pow_table x <> SpecFloat.S754_nan ->
     power2 libm x = lookup pow_table x).

End LibmExample.

Module DatasetExample.
Import TFLiteConverter TrainPitchModel LibmExample.
Local Open Scope R_scope.

(** Three rows: a usable one, one above the range, one without audio. *)
Definition rows : list LabelRow :=
  [ {| filename := ["a.wav"%string]; pitch_hz := Number hz_440 |};
    {| filename := ["b.wav"%string]; pitch_hz := Number hz_600 |};
    {| filename := ["missing.wav"%string]; pitch_hz := Number hz_100 |} ].

Definition read_csv (csv : bytes) : option (list LabelRow) := Some rows.



Definition noise (i : nat) : list R := [].


End DatasetExample.

(** * Properties *)

(** ** Logarithms *)

Section NumericFacts.
Import Numeric.
Local Open Scope R_scope.

Lemma ln2_pos : 0 < ln 2.
Proof. rewrite <- ln_1. apply ln_increasing; lra. Qed.

Lemma log2_increasing (x y : R) : 0 < x -> x < y -> log2 x < log2 y.
Proof.
  intros Hx Hxy. unfold log2.
  apply Rmult_lt_compat_r; [apply Rinv_0_lt_compat, ln2_pos|].
  now apply ln_increasing.
Qed.

Lemma log2_le (x y : R) : 0 < x -> x <= y -> log2 x <= log2 y.
Proof.
  intros Hx [Hlt | ->]; [left; now apply log2_increasing | right; reflexivity].
Qed.

Lemma log2_Rpower (y : R) : log2 (Rpower 2 y) = y.
Proof.
  unfold log2, Rpower. rewrite ln_exp. field.
  pose proof ln2_pos; lra.
Qed.

Lemma Rpower_log2 (x : R) : 0 < x -> Rpower 2 (log2 x) = x.
Proof.
  intros Hx. unfold log2, Rpower.
  replace (ln x / ln 2 * ln 2) with (ln x)
    by (field; pose proof ln2_pos; lra).
  now apply exp_ln.
Qed.

Lemma Rpower2_le (a b : R) : a <= b -> Rpower 2 a <= Rpower 2 b.
Proof. intros H. apply Rle_Rpower; lra. Qed.

Lemma Rpower2_lt (a b : R) : a < b -> Rpower 2 a < Rpower 2 b.
Proof. intros H. apply Rpower_lt; lra. Qed.

End NumericFacts.

(** ** Binary64 *)

Section Binary64Facts.
Import Python Binary64 SpecFloat.
Local Open Scope Z_scope.

Lemma fsub_diag (x : float64) :
  fsub x x = S754_zero false \/ fsub x x = S754_nan.
Proof.
  destruct x as [s|s| |s m e].
  - left. destruct s; reflexivity.
  - right. destruct s; reflexivity.
  - right. reflexivity.
  - left. unfold fsub, SFsub. rewrite Z.sub_diag. reflexivity.
Qed.



(** No float is below itself. *)
Lemma flt_irrefl (x : float64) : flt x x = false.
Proof.
  destruct x as [s|s| |s m e]; unfold flt, SFltb, SFcompare.
  - reflexivity.
  - destruct s; reflexivity.
  - reflexivity.
  - rewrite Z.compare_refl.
    assert (H : Pos.compare_cont Eq m m = Eq) by apply Pos.compare_refl.
    rewrite H. destruct s; reflexivity.
Qed.

(** [int] raises on NaN and on the infinities and on nothing else. *)
Lemma py_int_Raise (x : float64) (e : Exn) :
  py_int x = Raise e -> e = ValueError \/ e = OverflowError.
Proof. destruct x; cbn; intros H; inversion H; auto. Qed.

(** A product with an infinity is an infinity or NaN. *)
Lemma fmul_infinity (s : bool) (y : float64) :
  (exists s', fmul (S754_infinity s) y = S754_infinity s')
  \/ fmul (S754_infinity s) y = S754_nan.
Proof. destruct y; cbn; eauto. Qed.

(** A quotient by a zero is an infinity or NaN. *)
Lemma fdiv_zero (x : float64) (s : bool) :
  (exists s', fdiv x (S754_zero s) = S754_infinity s')
  \/ fdiv x (S754_zero s) = S754_nan.
Proof. destruct x; cbn; eauto. Qed.

Lemma py_int_fmul_infinity (s : bool) (y : float64) :
  py_int (fmul (S754_infinity s) y) = Raise ValueError \/
  py_int (fmul (S754_infinity s) y) = Raise OverflowError.
Proof.
  destruct (fmul_infinity s y) as [[s' ->] | ->]; cbn; auto.
Qed.




End Binary64Facts.

(** ** PitchBinCodec in binary64 *)

Section CodecFacts.
Import Python Binary64 SpecFloat PitchBinCodec.
Local Open Scope Z_scope.
Context (libm : Libm).

Lemma pitch_to_bin_out_of_range (hz mn mx : float64) (n : Z) :
  flt hz mn = true \/ flt mx hz = true ->
  pitch_to_bin libm hz mn mx n = Ok (-1).
Proof.
  intros H. unfold pitch_to_bin.
  destruct H as [-> | ->]; [reflexivity | rewrite orb_true_r; reflexivity].
Qed.

Lemma pitch_to_bin_in_range (hz mn mx : float64) (n : Z) :
  flt hz mn = false -> flt mx hz = false ->
  pitch_to_bin libm hz mn mx n =
    match bin_index libm hz mn mx n with
    | Ok bin_idx => Ok (Z.min bin_idx (n - 1))
    | Raise e => Raise e
    end.
Proof. intros H1 H2. unfold pitch_to_bin. rewrite H1, H2. reflexivity. Qed.

(** What a returned bin is: the sentinel of the guard, or a clamped index. *)
Lemma pitch_to_bin_Ok_inv (hz mn mx : float64) (n b : Z) :
  pitch_to_bin libm hz mn mx n = Ok b ->
  (b = -1 /\ (flt hz mn = true \/ flt mx hz = true)) \/
  (flt hz mn = false /\ flt mx hz = false /\
   exists idx, bin_index libm hz mn mx n = Ok idx /\ b = Z.min idx (n - 1)).
Proof.
  unfold pitch_to_bin.
  destruct (flt hz mn) eqn:E1; [intros [= <-]; left; auto|].
  destruct (flt mx hz) eqn:E2; [intros [= <-]; left; auto|].
  cbn [orb]. destruct (bin_index libm hz mn mx n) as [idx|e]; [|discriminate].
  intros [= <-]. right. eauto.
Qed.

Lemma pitch_to_bin_Raise_inv (hz mn mx : float64) (n : Z) (e : Exn) :
  pitch_to_bin libm hz mn mx n = Raise e ->
  flt hz mn = false /\ flt mx hz = false /\ bin_index libm hz mn mx n = Raise e.
Proof.
  unfold pitch_to_bin.
  destruct (flt hz mn) eqn:E1; [discriminate|].
  destruct (flt mx hz) eqn:E2; [discriminate|].
  cbn [orb]. destruct (bin_index libm hz mn mx n) as [idx|e']; [discriminate|].
  intros [= <-]. auto.
Qed.



End CodecFacts.

Section CodecClaims.
Import Numeric Python Binary64 SpecFloat PitchBinCodec LibmExample.
Local Open Scope Z_scope.














End CodecClaims.

(** ** Pitch-mode metrics *)

Section PitchMetricsFacts.
Import Numeric Evaluation.
Local Open Scope R_scope.

Lemma log2_1 : log2 1 = 0.
Proof. unfold log2. rewrite ln_1. pose proof ln2_pos. field. lra. Qed.

Lemma log2_2 : log2 2 = 1.
Proof. unfold log2. pose proof ln2_pos. field. lra. Qed.

Lemma cents_error_spec_unison : cents_error_spec 200 200 = 0.
Proof.
  unfold cents_error_spec. replace (200 / 200) with 1 by lra.
  rewrite log2_1, Rmult_0_r. apply Rabs_R0.
Qed.

Lemma cents_error_spec_octave : cents_error_spec 400 200 = 1200.
Proof.
  unfold cents_error_spec. replace (400 / 200) with 2 by lra.
  rewrite log2_2, Rmult_1_r. apply Rabs_pos_eq. lra.
Qed.

(** 210 Hz against 200 Hz is more than 50 cents off, since 1.05^24 > 2. *)
Lemma cents_error_spec_210_200 : 50 < cents_error_spec 210 200.
Proof.
  unfold cents_error_spec. replace (210 / 200) with 1.05 by lra.
  assert (H : 1 < 24 * log2 1.05).
  { rewrite <- log2_2. unfold log2. pose proof ln2_pos as H2.
    replace (24 * (ln 1.05 / ln 2)) with ((INR 24 * ln 1.05) / ln 2)
      by (simpl; field; lra).
    rewrite <- ln_pow by lra.
    apply Rmult_lt_compat_r; [now apply Rinv_0_lt_compat|].
    apply ln_increasing; [lra|]. simpl. lra. }
  rewrite Rabs_pos_eq; lra.
Qed.

Lemma sumR_app (l k : list R) : sumR (l ++ k) = sumR l + sumR k.
Proof. induction l as [|x l IH]; simpl; [lra | rewrite IH; lra]. Qed.

Lemma np_mean_Some (l : list R) :
  l <> [] -> np_mean l = Some (sumR l / INR (length l)).
Proof. destruct l; [congruence | reflexivity]. Qed.

Lemma length_cents_diff (ps : list Z) (ts : list R) :
  length ps = length ts -> length (cents_diff ps ts) = length ps.
Proof.
  intros H. unfold cents_diff. rewrite length_zip_with. lia.
Qed.

(** The sum of the zero-one array of a test is the number of array elements
    that pass it. *)
Lemma sumR_indicator (P : R -> Prop) (d : forall c, {P c} + {~ P c}) (l : list R) :
  sumR (map (fun c => indicator (P c) (d c)) l)
  = INR (length (List.filter (fun c => if d c then true else false) l)).
Proof.
  induction l as [|c l IH]; [reflexivity|].
  cbn [map sumR foldr List.filter]. fold (sumR (map (fun c => indicator (P c) (d c)) l)).
  rewrite IH. unfold indicator. destruct (d c).
  - cbn [length]. rewrite S_INR. lra.
  - lra.
Qed.

End PitchMetricsFacts.

Section PitchMetricsClaims.
Import Numeric Evaluation.
Local Open Scope R_scope.

(** On a non-empty pair of arrays of one length, [pitch_metrics] returns the
    three means taken over the whole of [cents_diff]. *)
Lemma pitch_metrics_Some (n : nat) (ps : list Z) (ts : list R) :
  length ps = length ts -> ps <> [] ->
  pitch_metrics n ps ts =
    Some {| test_samples := n;
            rpa_50_cents :=
              sumR (map (fun c => indicator (c < 50) (Rlt_dec c 50)) (cents_diff ps ts))
              / INR (length ps) * 100;
            gross_pitch_error :=
              sumR (map (fun c => indicator (c > 100) (Rgt_dec c 100)) (cents_diff ps ts))
              / INR (length ps) * 100;
            mae_cents := sumR (cents_diff ps ts) / INR (length ps) |}.
Proof.
  intros Hlen Hne. unfold pitch_metrics.
  rewrite decide_True by exact Hlen.
  pose proof (length_cents_diff ps ts Hlen) as Hc.
  rewrite <- Hc.
  destruct (cents_diff ps ts) as [|c cs] eqn:E.
  { destruct ps; [congruence | discriminate]. }
  cbn. rewrite !length_map. reflexivity.
Qed.

Lemma cents_diff_const (k s : nat) (p : Z) (t : R) :
  cents_diff (map (fun _ => p) (seq s k)) (map (fun _ => t) (seq s k))
  = replicate k (Rabs (IZR p - t)).
Proof.
  revert s. induction k as [|k IH]; intros s; [reflexivity|].
  cbn. f_equal. apply IH.
Qed.

Lemma sumR_map_replicate (f : R -> R) (k : nat) (c : R) :
  sumR (map f (replicate k c)) = INR k * f c.
Proof.
  induction k as [|k IH]; [simpl; lra|].
  cbn [replicate map sumR foldr]. fold (sumR (map f (replicate k c))).
  rewrite IH, S_INR. lra.
Qed.

Lemma sumR_replicate (k : nat) (c : R) : sumR (replicate k c) = INR k * c.
Proof.
  rewrite <- (map_id (replicate k c)). apply (sumR_map_replicate (fun x => x)).
Qed.

(** C1: the error [evaluate_pitch_model] aggregates is the plain difference
    between the predicted value and the true pitch, not a distance in cents.
    An octave (400 against 200) enters as 200 where the cents error is 1200;
    and when the model answers 210 for every one of the 100 samples and the
    true pitch is 200 Hz, the function reports an error of 10 and 100 % raw
    pitch accuracy, although 210 Hz is more than 50 cents from 200 Hz. *)
Theorem pitch_error_is_raw_difference :
  cents_diff [400%Z] [200] = [200] /\
  cents_error_spec 400 200 = 1200 /\
  (exists r,
     evaluate_pitch_model (fun _ => 210%Z) (fun _ => 200) = Some r /\
     rpa_50_cents r = 100 /\ gross_pitch_error r = 0 /\ mae_cents r = 10) /\
  50 < cents_error_spec 210 200.
Proof.
  split; [|split; [exact cents_error_spec_octave|split; [|exact cents_error_spec_210_200]]].
  - cbn. f_equal. rewrite Rabs_pos_eq; lra.
  - unfold evaluate_pitch_model. cbv zeta.
    rewrite pitch_metrics_Some; cycle 1.
    { rewrite !length_map. reflexivity. }
    { discriminate. }
    eexists. split; [reflexivity|]. cbn [rpa_50_cents gross_pitch_error mae_cents].
    rewrite cents_diff_const, !sumR_map_replicate, sumR_replicate.
    rewrite length_map, length_seq.
    replace (Rabs (210 - 200)) with 10 by (rewrite Rabs_pos_eq; lra).
    unfold indicator.
    destruct (Rlt_dec 10 50); [|lra]. destruct (Rgt_dec 10 100); [lra|].
    replace (INR 100) with 100 by (simpl; lra).
    repeat split; lra.
Qed.

(** C2, as stated, fails: a sample with a negative true frequency is not
    left out.  On predictions [300; 200] against true pitches [-5; 200] the
    source reports 50 % raw pitch accuracy and a mean error of 152.5, where
    the valid sample alone gives 100 % and 0. *)
Lemma invalid_sample_changes_pitch_metrics :
  exists r r',
    pitch_metrics 2 [300; 200]%Z [-5; 200] = Some r /\
    pitch_metrics_valid_only [300; 200]%Z [-5; 200] = Some r' /\
    rpa_50_cents r = 50 /\ rpa_50_cents r' = 100 /\
    gross_pitch_error r = 50 /\ gross_pitch_error r' = 0 /\
    mae_cents r = 152.5 /\ mae_cents r' = 0.
Proof.
  assert (Hv : filter valid_sample (zip [300; 200]%Z [-5; 200])
               = [(200%Z, 200)]).
  { cbn [zip zip_with].
    rewrite filter_cons_False by (unfold valid_sample; cbn; lra).
    rewrite filter_cons_True by (unfold valid_sample; cbn; split; [lia | lra]).
    reflexivity. }
  unfold pitch_metrics_valid_only. rewrite Hv. cbn [fmap list_fmap fst snd length].
  rewrite !pitch_metrics_Some by (reflexivity || discriminate).
  do 2 eexists. split; [reflexivity|]. split; [reflexivity|].
  cbn [rpa_50_cents gross_pitch_error mae_cents cents_diff zip_with map sumR
       foldr length].
  replace (Rabs (300 - -5)) with 305 by (rewrite Rabs_pos_eq; lra).
  replace (Rabs (200 - 200)) with 0 by (rewrite Rabs_pos_eq; lra).
  unfold indicator.
  destruct (Rlt_dec 305 50); [lra|]. destruct (Rlt_dec 0 50); [|lra].
  destruct (Rgt_dec 305 100); [|lra]. destruct (Rgt_dec 0 100); [lra|].
  simpl INR. repeat split; lra.
Qed.

(** C2, amended: every sample enters the aggregation, whatever the sign of
    its frequencies.  For non-empty arrays of one length the result exists,
    carries the sample count it was given, and its three metrics are taken
    over all samples: the two percentages count, among all [cents_diff]
    entries, those below 50 and those above 100, and the mean error sums all
    entries, each divided by the full number of samples. *)
Theorem pitch_metrics_aggregate_all_samples
    (n : nat) (predictions : list Z) (ground_truth : list R) :
  length predictions = length ground_truth -> predictions <> [] ->
  exists r,
    pitch_metrics n predictions ground_truth = Some r /\
    test_samples r = n /\
    length (cents_diff predictions ground_truth) = length predictions /\
    rpa_50_cents r * INR (length predictions) =
      100 * INR (length (List.filter (fun c => if Rlt_dec c 50 then true else false)
                           (cents_diff predictions ground_truth))) /\
    gross_pitch_error r * INR (length predictions) =
      100 * INR (length (List.filter (fun c => if Rgt_dec c 100 then true else false)
                           (cents_diff predictions ground_truth))) /\
    mae_cents r * INR (length predictions) =
      sumR (cents_diff predictions ground_truth).
Proof.
  intros Hlen Hne. rewrite pitch_metrics_Some by assumption.
  eexists. split; [reflexivity|]. split; [reflexivity|].
  split; [now apply length_cents_diff|].
  cbn [rpa_50_cents gross_pitch_error mae_cents].
  assert (Hn : INR (length predictions) <> 0).
  { apply not_0_INR. destruct predictions; [congruence | discriminate]. }
  rewrite (sumR_indicator (fun c => c < 50) (fun c => Rlt_dec c 50)).
  rewrite (sumR_indicator (fun c => c > 100) (fun c => Rgt_dec c 100)).
  repeat split; field; exact Hn.
Qed.

(** The amended C2 at predictions [300; 200] against true pitches [-5; 200],
    whose first sample has a negative true frequency. *)
Lemma pitch_metrics_aggregate_all_samples_witness :
  exists r,
    pitch_metrics 2 [300; 200]%Z [-5; 200] = Some r /\
    test_samples r = 2%nat /\
    length (cents_diff [300; 200]%Z [-5; 200]) = 2%nat /\
    rpa_50_cents r * INR 2 =
      100 * INR (length (List.filter (fun c => if Rlt_dec c 50 then true else false)
                           (cents_diff [300; 200]%Z [-5; 200]))) /\
    gross_pitch_error r * INR 2 =
      100 * INR (length (List.filter (fun c => if Rgt_dec c 100 then true else false)
                           (cents_diff [300; 200]%Z [-5; 200]))) /\
    mae_cents r * INR 2 = sumR (cents_diff [300; 200]%Z [-5; 200]).
Proof.
  apply (pitch_metrics_aggregate_all_samples 2 [300; 200]%Z [-5; 200]).
  - reflexivity.
  - discriminate.
Defined.

End PitchMetricsClaims.

(** ** Classification-mode metrics *)

Section SwarMetricsFacts.
Import Numeric Evaluation.
Local Open Scope nat_scope.

Lemma Sorted_le_seq (s k : nat) : Sorted Nat.le (seq s k).
Proof.
  revert s. induction k as [|k IH]; intros s; [constructor|].
  cbn. constructor; [apply IH|].
  destruct k; cbn; constructor. unfold Nat.le. lia.
Qed.

(** When the labels that occur are exactly 0 .. k-1, sorting the distinct
    ones lists them in order. *)
Lemma unique_labels_full (y_true y_pred : list nat) (k : nat) :
  (forall c, c ∈ y_true ++ y_pred <-> c < k) ->
  unique_labels y_true y_pred = seq 0 k.
Proof.
  intros H. unfold unique_labels.
  apply (Sorted_unique Nat.le).
  - apply Sorted_merge_sort. apply _.
  - apply Sorted_le_seq.
  - rewrite merge_sort_Permutation. apply NoDup_Permutation.
    + apply NoDup_remove_dups.
    + apply NoDup_seq.
    + intros x. rewrite elem_of_remove_dups, elem_of_seq, H. lia.
Qed.

Lemma NoDup_swar_classes : NoDup swar_classes.
Proof. apply (bool_decide_unpack _). vm_compute. reflexivity. Qed.

Lemma length_swar_classes : length swar_classes = 12.
Proof. reflexivity. Qed.

Lemma classification_report_full (y_true y_pred : list nat) :
  (forall c, c ∈ y_true ++ y_pred <-> c < 12) ->
  classification_report y_true y_pred swar_classes
  = Some (zip swar_classes (class_report y_true y_pred <$> seq 0 12)).
Proof.
  intros H. unfold classification_report.
  rewrite (unique_labels_full _ _ 12 H).
  rewrite decide_True by reflexivity. reflexivity.
Qed.

Lemma confusion_matrix_full (y_true y_pred : list nat) :
  (forall c, c ∈ y_true ++ y_pred <-> c < 12) ->
  confusion_matrix y_true y_pred
  = (fun t => (fun p => count_pair y_true y_pred t p) <$> seq 0 12) <$> seq 0 12.
Proof.
  intros H. unfold confusion_matrix.
  rewrite (unique_labels_full _ _ 12 H). reflexivity.
Qed.

(** Entry [t][p] of a grid built over [seq 0 k]. *)
Lemma grid_lookup {A} (f : nat -> nat -> A) (k t p : nat) :
  t < k -> p < k ->
  ((fun t => (fun p => f t p) <$> seq 0 k) <$> seq 0 k) !! t ≫= (.!! p)
  = Some (f t p).
Proof.
  intros Ht Hp. rewrite list_lookup_fmap.
  rewrite (proj2 (lookup_seq 0 k t t)) by lia. cbn.
  rewrite list_lookup_fmap.
  rewrite (proj2 (lookup_seq 0 k p p)) by lia. reflexivity.
Qed.

Lemma count_pair_diag_off (y : list nat) (t p : nat) :
  t <> p -> count_pair y y t p = 0.
Proof.
  intros Hne. unfold count_pair.
  induction y as [|a y IH]; [reflexivity|].
  cbn [zip zip_with]. rewrite filter_cons_False by congruence. exact IH.
Qed.

Lemma count_pair_diag (y : list nat) (c : nat) :
  count_pair y y c c = count_eq c y.
Proof.
  unfold count_pair, count_eq.
  induction y as [|a y IH]; [reflexivity|].
  cbn [zip zip_with]. destruct (decide (a = c)) as [->|Hne].
  - rewrite !filter_cons_True by reflexivity. cbn. f_equal. exact IH.
  - rewrite !filter_cons_False by congruence. exact IH.
Qed.

Lemma count_eq_pos (y : list nat) (c : nat) : c ∈ y -> 0 < count_eq c y.
Proof.
  intros Hin. unfold count_eq.
  induction Hin as [c y | c a y Hin IH].
  - rewrite filter_cons_True by reflexivity. cbn. lia.
  - destruct (decide (a = c)).
    + rewrite filter_cons_True by assumption. cbn. lia.
    + rewrite filter_cons_False by assumption. exact IH.
Qed.

End SwarMetricsFacts.

Section SwarMetricsClaims.
Import Numeric Evaluation.
Local Open Scope R_scope.

(** With every one of the 12 classes in the ground truth or among the
    predictions, [swar_metrics] returns, and returns this. *)
Lemma swar_metrics_full (n : nat) (predictions ground_truth : list nat) :
  length predictions = length ground_truth ->
  (forall c, c ∈ ground_truth ++ predictions <-> (c < 12)%nat) ->
  swar_metrics n predictions ground_truth =
    Some {| swar_test_samples := n;
            top1_accuracy :=
              sumR (zip_with (fun p t => indicator (p = t) (decide (p = t)))
                      predictions ground_truth)
              / INR (length predictions) * 100;
            report := zip swar_classes
                        (class_report ground_truth predictions <$> seq 0 12);
            confusion :=
              (fun t => (fun p => count_pair ground_truth predictions t p)
                          <$> seq 0 12) <$> seq 0 12 |}.
Proof.
  intros Hlen Hall. unfold swar_metrics.
  rewrite decide_True by exact Hlen.
  rewrite (classification_report_full _ _ Hall).
  rewrite (confusion_matrix_full _ _ Hall).
  assert (Hne : predictions <> []).
  { intros ->. destruct ground_truth; [|discriminate].
    pose proof (proj2 (Hall 0%nat) ltac:(lia)) as H0. inversion H0. }
  destruct predictions as [|p ps]; [congruence|].
  destruct ground_truth as [|t ts]; [discriminate|].
  cbn. rewrite length_zip_with.
  cbn in Hlen. replace (length ps `min` length ts)%nat with (length ps) by lia.
  reflexivity.
Qed.

Lemma sumR_all_equal (y : list nat) :
  sumR (zip_with (fun p t => indicator (p = t) (decide (p = t))) y y)
  = INR (length y).
Proof.
  induction y as [|a y IH]; [reflexivity|].
  cbn [zip_with sumR foldr].
  fold (sumR (zip_with (fun p t => indicator (p = t) (decide (p = t))) y y)).
  rewrite IH. unfold indicator. destruct (decide (a = a)); [|congruence].
  change (length (a :: y)) with (S (length y)). rewrite S_INR. lra.
Qed.

(** The row of a class every sample of which is predicted as itself. *)
Lemma f1_score_perfect (y : list nat) (c : nat) :
  c ∈ y -> f1_score (class_report y y c) = 1.
Proof.
  intros Hin. unfold class_report. cbn [f1_score].
  rewrite count_pair_diag.
  pose proof (count_eq_pos y c Hin) as Hpos.
  assert (Hp : prf_divide (count_eq c y) (count_eq c y) = 1).
  { unfold prf_divide. destruct (decide (count_eq c y = 0%nat)); [lia|].
    field. apply not_0_INR. assumption. }
  rewrite Hp. destruct (Req_dec_T (1 + 1) 0); lra.
Qed.

(** Looking a class up by its display name finds the row built for it. *)
Lemma f1_of_report (rows : nat -> ClassReport) (c : nat) :
  (c < 12)%nat ->
  f1_of (zip swar_classes (rows <$> seq 0 12)) c = Some (f1_score (rows c)).
Proof.
  intros Hc. unfold f1_of.
  destruct (lookup_lt_is_Some_2 swar_classes c) as [name Hname].
  { rewrite length_swar_classes. exact Hc. }
  rewrite Hname. cbn [mbind option_bind].
  assert (Hrow : (list_to_map (zip swar_classes (rows <$> seq 0 12))
                    : gmap string ClassReport) !! name = Some (rows c)).
  { apply elem_of_list_to_map_1.
    - rewrite fst_zip; [apply NoDup_swar_classes|].
      rewrite length_fmap, length_seq. reflexivity.
    - apply (list_elem_of_lookup_2 _ c).
      apply lookup_zip_with_Some. exists name, (rows c).
      split; [reflexivity|]. split; [exact Hname|].
      rewrite list_lookup_fmap.
      rewrite (proj2 (lookup_seq 0 12 c c)) by lia. reflexivity. }
  rewrite Hrow. reflexivity.
Qed.

(** Whenever each of the 12 classes occurs in the ground truth or among the
    predictions (a class may be absent from one of the two), [swar_metrics]
    returns a confusion matrix of 12 rows of 12 entries, and entry [t][p]
    counts the samples of true class [t] predicted as [p], the classes being
    in the order 0 .. 11 of the label list. *)
Lemma swar_metrics_confusion_12_by_12
    (n : nat) (predictions ground_truth : list nat) :
  length predictions = length ground_truth ->
  (forall c, c ∈ ground_truth ++ predictions -> (c < 12)%nat) ->
  (forall c, (c < 12)%nat -> c ∈ ground_truth ++ predictions) ->
  exists r,
    swar_metrics n predictions ground_truth = Some r /\
    length (confusion r) = 12%nat /\
    (forall row, row ∈ confusion r -> length row = 12%nat) /\
    (forall t p, (t < 12)%nat -> (p < 12)%nat ->
       confusion r !! t ≫= (.!! p)
       = Some (count_pair ground_truth predictions t p)).
Proof.
  intros Hlen Hlt Hall.
  rewrite swar_metrics_full; [|exact Hlen|intros c; split; auto].
  eexists. split; [reflexivity|]. cbn [confusion]. repeat split.
  - intros row Hrow. apply list_elem_of_fmap in Hrow as (t & -> & _).
    rewrite length_fmap. reflexivity.
  - intros t p Ht Hp.
    apply (grid_lookup (count_pair ground_truth predictions) 12 t p Ht Hp).
Qed.

(** The placeholder test set of [evaluate_swar_classifier] holds every class:
    whatever the model predicts within the 12 classes, the evaluation returns
    and its confusion matrix has 12 rows of 12 entries. *)
Lemma evaluate_swar_classifier_12_by_12 (predict : nat -> nat) :
  (forall i, (predict i < 12)%nat) ->
  exists r,
    evaluate_swar_classifier predict = Some r /\
    swar_test_samples r = 120%nat /\
    length (confusion r) = 12%nat /\
    (forall row, row ∈ confusion r -> length row = 12%nat).
Proof.
  intros Hp. unfold evaluate_swar_classifier. cbv zeta.
  rewrite swar_metrics_full.
  - eexists. split; [reflexivity|]. cbn [swar_test_samples confusion].
    repeat split.
    intros row Hrow. apply list_elem_of_fmap in Hrow as (t & -> & _).
    rewrite length_fmap. reflexivity.
  - rewrite !length_map. reflexivity.
  - intros c. split.
    + intros Hc. apply elem_of_app in Hc as [Hc|Hc].
      * apply list_elem_of_In, in_map_iff in Hc as (i & <- & _).
        apply Nat.mod_upper_bound. lia.
      * apply list_elem_of_In, in_map_iff in Hc as (i & <- & _). apply Hp.
    + intros Hc. apply elem_of_app. left.
      apply list_elem_of_In, in_map_iff. exists c. split.
      * apply Nat.mod_small. exact Hc.
      * apply in_seq. lia.
Qed.

(** If every predicted class equals the true class and each of the 12
    classes occurs in the ground truth, then [swar_metrics] returns, top-1
    accuracy is 100, every entry of the confusion matrix off the diagonal is
    0, and the F1 score reported under the name of every class is 1. *)
Lemma swar_metrics_perfect_predictions (n : nat) (ground_truth : list nat) :
  (forall c, c ∈ ground_truth -> (c < 12)%nat) ->
  (forall c, (c < 12)%nat -> c ∈ ground_truth) ->
  exists r,
    swar_metrics n ground_truth ground_truth = Some r /\
    top1_accuracy r = 100 /\
    (forall t p row x,
       confusion r !! t = Some row -> row !! p = Some x -> t <> p -> x = 0%nat) /\
    (forall c, (c < 12)%nat -> f1_of (report r) c = Some 1).
Proof.
  intros Hlt Hall.
  assert (Hne : INR (length ground_truth) <> 0).
  { apply not_0_INR. pose proof (Hall 0%nat ltac:(lia)) as H0.
    destruct ground_truth; [inversion H0 | discriminate]. }
  rewrite swar_metrics_full; [|reflexivity|]; cycle 1.
  { intros c. rewrite elem_of_app. split; [intros [H|H]; auto | auto]. }
  eexists. split; [reflexivity|].
  cbn [top1_accuracy confusion report]. repeat split.
  - rewrite sumR_all_equal. field. exact Hne.
  - intros t p row x Hrow Hx Hne'.
    apply list_lookup_fmap_Some in Hrow as (t' & -> & Ht').
    apply list_lookup_fmap_Some in Hx as (p' & -> & Hp').
    apply lookup_seq in Ht' as [-> _]. apply lookup_seq in Hp' as [-> _].
    apply count_pair_diag_off. cbn. exact Hne'.
  - intros c Hc. rewrite (f1_of_report _ c Hc).
    rewrite f1_score_perfect by (apply Hall; exact Hc). reflexivity.
Qed.

(** The ground truth of the placeholder test set holds the 12 classes and
    nothing else. *)
Lemma placeholder_classes (c : nat) :
  c ∈ map (fun i => i mod 12)%nat (seq 0 120) <-> (c < 12)%nat.
Proof.
  split.
  - intros Hc. apply list_elem_of_In, in_map_iff in Hc as (i & <- & _).
    apply Nat.mod_upper_bound. lia.
  - intros Hc. apply list_elem_of_In, in_map_iff. exists c. split.
    + apply Nat.mod_small. exact Hc.
    + apply in_seq. lia.
Qed.

(** C5: whatever class indices within the 12-class label set the model
    answers on the 120 samples, [evaluate_swar_classifier] returns a
    confusion matrix of 12 rows of 12 entries, and entry [t][p] counts the
    samples of true class [t] predicted as [p], the classes being in the
    order 0 .. 11 of the label list; classes may be absent from the
    predictions. *)
Theorem evaluate_swar_classifier_confusion_matrix (predict : nat -> nat) :
  (forall i, (i < 120)%nat -> (predict i < 12)%nat) ->
  exists r,
    evaluate_swar_classifier predict = Some r /\
    length (confusion r) = 12%nat /\
    (forall row, row ∈ confusion r -> length row = 12%nat) /\
    (forall t p, (t < 12)%nat -> (p < 12)%nat ->
       confusion r !! t ≫= (.!! p)
       = Some (count_pair (map (fun i => i mod 12)%nat (seq 0 120))
                 (map predict (seq 0 120)) t p)).
Proof.
  intros Hp. unfold evaluate_swar_classifier. cbv zeta.
  apply swar_metrics_confusion_12_by_12.
  - rewrite !length_map. reflexivity.
  - intros c Hc. apply elem_of_app in Hc as [Hc|Hc].
    + apply placeholder_classes. exact Hc.
    + apply list_elem_of_In, in_map_iff in Hc as (i & <- & Hi).
      apply in_seq in Hi. apply Hp. lia.
  - intros c Hc. apply elem_of_app. left. apply placeholder_classes. exact Hc.
Qed.

(** C5 for a model that answers class 0 on every sample: eleven classes are
    absent from the predictions. *)
Lemma evaluate_swar_classifier_confusion_matrix_witness :
  exists r,
    evaluate_swar_classifier (fun _ => 0%nat) = Some r /\
    length (confusion r) = 12%nat /\
    (forall row, row ∈ confusion r -> length row = 12%nat) /\
    (forall t p, (t < 12)%nat -> (p < 12)%nat ->
       confusion r !! t ≫= (.!! p)
       = Some (count_pair (map (fun i => i mod 12)%nat (seq 0 120))
                 (map (fun _ => 0%nat) (seq 0 120)) t p)).
Proof.
  apply (evaluate_swar_classifier_confusion_matrix (fun _ => 0%nat)).
  intros i _. lia.
Defined.

(** C9: if the model answers the true class on every one of the 120
    samples, [evaluate_swar_classifier] returns, top-1 accuracy is 100, every
    entry of the confusion matrix off the diagonal is 0, and the F1 score
    reported under the name of every class is 1. *)
Theorem evaluate_swar_classifier_perfect_predictions (predict : nat -> nat) :
  (forall i, (i < 120)%nat -> predict i = (i mod 12)%nat) ->
  exists r,
    evaluate_swar_classifier predict = Some r /\
    top1_accuracy r = 100 /\
    (forall t p row x,
       confusion r !! t = Some row -> row !! p = Some x -> t <> p -> x = 0%nat) /\
    (forall c, (c < 12)%nat -> f1_of (report r) c = Some 1).
Proof.
  intros Hp. unfold evaluate_swar_classifier. cbv zeta.
  replace (map predict (seq 0 120)) with (map (fun i => i mod 12)%nat (seq 0 120)).
  - apply swar_metrics_perfect_predictions; intros c Hc; apply placeholder_classes;
      exact Hc.
  - apply map_ext_in. intros i Hi. apply in_seq in Hi. symmetry. apply Hp. lia.
Qed.

(** C9 for the model that answers [i % 12] on sample [i]. *)
Lemma evaluate_swar_classifier_perfect_predictions_witness :
  exists r,
    evaluate_swar_classifier (fun i => i mod 12)%nat = Some r /\
    top1_accuracy r = 100 /\
    (forall t p row x,
       confusion r !! t = Some row -> row !! p = Some x -> t <> p -> x = 0%nat) /\
    (forall c, (c < 12)%nat -> f1_of (report r) c = Some 1).
Proof.
  apply (evaluate_swar_classifier_perfect_predictions (fun i => i mod 12)%nat).
  intros i _. reflexivity.
Defined.

End SwarMetricsClaims.

(** ** ArtifactConverter *)

Section ConverterFacts.
Import TFLiteConverter.
Local Open Scope R_scope.

Lemma compression_ratio_pos (original_bytes tflite_bytes : Z) :
  (0 < original_bytes)%Z ->
  compression_ratio original_bytes tflite_bytes
  = Some ((1 - IZR tflite_bytes / IZR original_bytes) * 100).
Proof.
  intros Hpos. apply IZR_lt in Hpos. unfold compression_ratio.
  destruct (Req_dec_T (IZR original_bytes / (1024 * 1024)) 0) as [E|_].
  - exfalso. apply Rmult_eq_compat_r with (r := 1024 * 1024) in E.
    unfold Rdiv in E. rewrite Rmult_assoc, Rinv_l, Rmult_1_r, Rmult_0_l in E; lra.
  - f_equal. field. lra.
Qed.

Lemma compression_ratio_Some (original_bytes tflite_bytes : Z) (x : R) :
  (0 <= original_bytes)%Z ->
  compression_ratio original_bytes tflite_bytes = Some x ->
  (0 < original_bytes)%Z /\ x = (1 - IZR tflite_bytes / IZR original_bytes) * 100.
Proof.
  intros Hnn H. destruct (Z.eq_dec original_bytes 0) as [->|Hne].
  - unfold compression_ratio in H.
    destruct (Req_dec_T (0 / (1024 * 1024)) 0) as [_|Hn]; [discriminate|].
    exfalso. apply Hn. lra.
  - assert (Hpos : (0 < original_bytes)%Z) by lia.
    rewrite (compression_ratio_pos _ _ Hpos) in H. split; congruence.
Qed.

(** Inversion of a bind that ends well. *)
Lemma bind_Ok_inv {A B} (m : M A) (f : A -> M B) (w w' : World) (b : B) :
  (m ≫= f) w = (w', Ok b) ->
  exists a w1, m w = (w1, Ok a) /\ f a w1 = (w', Ok b).
Proof.
  unfold mbind, M_bind. destruct (m w) as [w1 [a|e]]; intros H.
  - exists a, w1. split; [reflexivity | exact H].
  - discriminate.
Qed.

Lemma bind_inv {A B} (m : M A) (f : A -> M B) (w w' : World) (r : Outcome B) :
  (m ≫= f) w = (w', r) ->
  (exists e, m w = (w', Raise e) /\ r = Raise e) \/
  (exists a w1, m w = (w1, Ok a) /\ f a w1 = (w', r)).
Proof.
  unfold mbind, M_bind. destruct (m w) as [w1 [a|e]]; intros H.
  - right. exists a, w1. split; [reflexivity | exact H].
  - left. exists e. injection H as <- <-. split; reflexivity.
Qed.

Lemma lift_Ok_inv {A} (e : Exn) (o : option A) (w w' : World) (a : A) :
  lift e o w = (w', Ok a) -> o = Some a /\ w' = w.
Proof.
  destruct o; cbn; intros H; [|discriminate].
  injection H as <- <-. split; reflexivity.
Qed.

Lemma read_only_no_inference {A} (m : M A) : read_only m -> no_inference m.
Proof. intros H w w' r E. apply (H w w' r E). Qed.

Lemma read_only_ret {A} (a : A) : read_only (mret a : M A).
Proof. intros w w' r H. injection H as <- <-. auto. Qed.

Lemma read_only_raise {A} (e : Exn) : read_only (raise e : M A).
Proof. intros w w' r H. injection H as <- <-. auto. Qed.

Lemma read_only_lift {A} (e : Exn) (o : option A) : read_only (lift e o).
Proof. destruct o; [apply read_only_ret | apply read_only_raise]. Qed.

Lemma read_only_print (o : Output) : read_only (print o).
Proof. intros w w' r H. injection H as <- <-. auto. Qed.

Lemma read_only_read_bytes (p : path) : read_only (read_bytes p).
Proof.
  intros w w' r H. unfold read_bytes in H.
  destruct (files w !! p); injection H as <- <-; auto.
Qed.

Lemma read_only_stat_size (p : path) : read_only (stat_size p).
Proof.
  intros w w' r H. unfold stat_size in H.
  destruct (files w !! p); injection H as <- <-; auto.
Qed.

Lemma read_only_bind {A B} (m : M A) (f : A -> M B) :
  read_only m -> (forall a, read_only (f a)) -> read_only (m ≫= f).
Proof.
  intros Hm Hf w w' r H. apply bind_inv in H as [(e & H & ->) | (a & w1 & H1 & H2)].
  - apply (Hm _ _ _ H).
  - destruct (Hm _ _ _ H1) as (E1 & E2 & E3).
    destruct (Hf a _ _ _ H2) as (E4 & E5 & E6).
    repeat split; congruence.
Qed.

Lemma no_inference_bind {A B} (m : M A) (f : A -> M B) :
  no_inference m -> (forall a, no_inference (f a)) -> no_inference (m ≫= f).
Proof.
  intros Hm Hf w w' r H. apply bind_inv in H as [(e & H & ->) | (a & w1 & H1 & H2)].
  - apply (Hm _ _ _ H).
  - rewrite (Hf a _ _ _ H2). apply (Hm _ _ _ H1).
Qed.

Lemma no_inference_mkdir_parents (d : path) : no_inference (mkdir_parents d).
Proof.
  intros w w' r H. unfold mkdir_parents in H.
  destruct (decide _); injection H as <- <-; reflexivity.
Qed.

Lemma no_inference_write_bytes (p : path) (b : bytes) :
  no_inference (write_bytes p b).
Proof.
  intros w w' r H. unfold write_bytes in H.
  repeat destruct (decide _); injection H as <- <-; reflexivity.
Qed.

End ConverterFacts.

Section ConverterRun.
Import TFLiteConverter.
Local Open Scope R_scope.
Context {Model : Type} (tf : Libraries Model).

(** The settings of lines 30-43: [configure] always returns, touches
    neither files nor inferences, keeps the model, and under ['int8']
    restricts the operation set to the int8 builtins and asks for int8 input
    and output tensors; under any other mode it leaves both tensor types as
    they were. *)
Lemma configure_spec (optimize : bool) (quantize : option string)
    (c : Converter Model) (w w' : World) (r : Outcome (Converter Model)) :
  configure optimize quantize c w = (w', r) ->
  files w' = files w /\ dirs w' = dirs w /\ invocations w' = invocations w /\
  exists c', r = Ok c' /\ keras_model c' = keras_model c /\
    (quantize = Some "int8"%string ->
       supported_ops c' = [TFLITE_BUILTINS_INT8] /\
       inference_input_type c' = int8 /\ inference_output_type c' = int8) /\
    (quantize <> Some "int8"%string ->
       inference_input_type c' = inference_input_type c /\
       inference_output_type c' = inference_output_type c).
Proof.
  unfold configure. intros H.
  destruct optimize;
    (destruct (decide (quantize = Some "int8"%string)) as [Hq|Hq];
     [|destruct (decide (quantize = Some "float16"%string)) as [Hq'|Hq']]);
    cbn in H;
    try rewrite (decide_True (P := quantize = Some "int8"%string)) in H by exact Hq;
    try rewrite (decide_False (P := quantize = Some "int8"%string)) in H by exact Hq;
    try rewrite (decide_True (P := quantize = Some "float16"%string)) in H by exact Hq';
    try rewrite (decide_False (P := quantize = Some "float16"%string)) in H by exact Hq';
    cbn in H; injection H as <- <-; cbn;
    (repeat split; try reflexivity);
    (eexists; split; [reflexivity|]; cbn; repeat split; try reflexivity;
     intros; try contradiction; repeat split; reflexivity).
Qed.

Lemma read_only_configure (optimize : bool) (quantize : option string)
    (c : Converter Model) : read_only (configure optimize quantize c).
Proof.
  intros w w' r H. destruct (configure_spec _ _ _ _ _ _ H) as (E1 & E2 & E3 & _).
  auto.
Qed.

(** [convert_to_tflite] runs no inference, whether it returns or raises. *)
Lemma no_inference_convert_to_tflite (model_path output_path : path)
    (optimize : bool) (quantize : option string) :
  no_inference (convert_to_tflite tf model_path output_path optimize quantize).
Proof.
  unfold convert_to_tflite.
  repeat first
    [ apply read_only_no_inference, read_only_configure
    | apply read_only_no_inference, read_only_print
    | apply read_only_no_inference, read_only_read_bytes
    | apply read_only_no_inference, read_only_stat_size
    | apply read_only_no_inference, read_only_lift
    | apply read_only_no_inference, read_only_ret
    | apply no_inference_mkdir_parents
    | apply no_inference_write_bytes
    | apply no_inference_bind; [|intros ?] ].
Qed.

(** What a conversion that returns has done: it read the model file,
    configured the converter as [configure] does, got the artifact from the
    library's [convert], stored it under the output path, and printed a
    compression figure computed from the byte length of the model file (as it
    is after the artifact was written) and that of the artifact. *)
Lemma convert_to_tflite_Ok_inv (model_path output_path : path)
    (optimize : bool) (quantize : option string) (w w' : World) (art : bytes) :
  convert_to_tflite tf model_path output_path optimize quantize w = (w', Ok art) ->
  exists h5 m c h5',
    files w !! model_path = Some h5 /\ load_model tf h5 = Some m /\
    keras_model c = keras_model (from_keras_model tf m) /\
    (quantize = Some "int8"%string ->
       supported_ops c = [TFLITE_BUILTINS_INT8] /\
       inference_input_type c = int8 /\ inference_output_type c = int8) /\
    (quantize <> Some "int8"%string ->
       inference_input_type c = inference_input_type (from_keras_model tf m) /\
       inference_output_type c = inference_output_type (from_keras_model tf m)) /\
    convert tf c = Some art /\
    files w' = <[output_path := art]> (files w) /\
    files w' !! model_path = Some h5' /\
    (0 < Z.of_nat (length h5'))%Z /\
    LineNum "  Compression (%): "
      ((1 - IZR (Z.of_nat (length art)) / IZR (Z.of_nat (length h5'))) * 100)
    ∈ stdout w'.
Proof.
  unfold convert_to_tflite. intros H.
  apply bind_Ok_inv in H as (? & w1 & H1 & H). injection H1 as <- _.
  cbn [files dirs stdout invocations] in H.
  apply bind_Ok_inv in H as (h5 & w2 & H2 & H).
  unfold read_bytes in H2. cbn [files] in H2.
  destruct (files w !! model_path) as [h5_|] eqn:Hfile; [|discriminate].
  injection H2 as <- <-.
  apply bind_Ok_inv in H as (m & w3 & H3 & H).
  apply lift_Ok_inv in H3 as [Hload ->].
  apply bind_Ok_inv in H as (c & w4 & H4 & H).
  apply configure_spec in H4 as (F4 & D4 & I4 & c' & Hc & Hk & Hint8 & Hother).
  injection Hc as <-. cbn [files dirs] in F4, D4.
  apply bind_Ok_inv in H as (? & w5 & H5 & H). injection H5 as <- _.
  cbn [files dirs stdout invocations] in H.
  apply bind_Ok_inv in H as (art' & w6 & H6 & H).
  apply lift_Ok_inv in H6 as [Hconv ->].
  apply bind_Ok_inv in H as (? & w7 & H7 & H).
  unfold mkdir_parents in H7. destruct (decide _) in H7; [discriminate|].
  injection H7 as <- _.
  apply bind_Ok_inv in H as (? & w8 & H8 & H).
  unfold write_bytes in H8. cbn [files dirs] in H8.
  destruct (decide _) in H8; [discriminate|].
  destruct (decide _) in H8; [|discriminate].
  injection H8 as <- _.
  apply bind_Ok_inv in H as (sz & w9 & H9 & H).
  unfold stat_size in H9. cbn [files] in H9.
  destruct (<[output_path:=art']> (files w4) !! model_path) as [h5'|] eqn:Hfile';
    [|discriminate].
  injection H9 as <- <-.
  apply bind_Ok_inv in H as (ratio & w10 & H10 & H).
  apply lift_Ok_inv in H10 as [Hratio ->].
  apply compression_ratio_Some in Hratio as [Hpos ->]; [|lia].
  apply bind_Ok_inv in H as (? & w11 & H11 & H). injection H11 as <- _.
  cbn [files dirs stdout invocations] in H.
  apply bind_Ok_inv in H as (? & w12 & H12 & H). injection H12 as <- _.
  cbn [files dirs stdout invocations] in H.
  apply bind_Ok_inv in H as (? & w13 & H13 & H). injection H13 as <- _.
  cbn [files dirs stdout invocations] in H.
  apply bind_Ok_inv in H as (? & w14 & H14 & H). injection H14 as <- _.
  cbn [files dirs stdout invocations] in H.
  apply bind_Ok_inv in H as (? & w15 & H15 & H). injection H15 as <- _.
  cbn [files dirs stdout invocations] in H.
  injection H as <- <-. cbn [files stdout].
  exists h5_, m, c, h5'. rewrite F4 in *.
  repeat split; try assumption.
  - apply Hint8; assumption.
  - apply Hint8; assumption.
  - apply Hint8; assumption.
  - apply Hother; assumption.
  - apply Hother; assumption.
  - rewrite !elem_of_app. left. right. apply list_elem_of_singleton. reflexivity.
Qed.

(** When the library's converter raises, so does [convert_to_tflite], and
    files and directories are as they were. *)
Lemma convert_to_tflite_converter_raises (model_path output_path : path)
    (optimize : bool) (quantize : option string) (w w' : World)
    (r : Outcome bytes) :
  (forall c : Converter Model,
     (quantize = Some "int8"%string ->
        supported_ops c = [TFLITE_BUILTINS_INT8] /\
        inference_input_type c = int8 /\ inference_output_type c = int8) ->
     convert tf c = None) ->
  convert_to_tflite tf model_path output_path optimize quantize w = (w', r) ->
  (exists e, r = Raise e) /\ files w' = files w /\ dirs w' = dirs w.
Proof.
  intros Hfail. unfold convert_to_tflite. intros H.
  apply bind_inv in H as [(e & H & ->) | (? & w1 & H1 & H)]; [discriminate|].
  injection H1 as <- _.
  cbn [files dirs stdout invocations] in H.
  apply bind_inv in H as [(e & H & ->) | (h5 & w2 & H2 & H)].
  { apply read_only_read_bytes in H as (F & D & _). eauto. }
  apply read_only_read_bytes in H2 as (F2 & D2 & _). cbn [files dirs] in F2, D2.
  apply bind_inv in H as [(e & H & ->) | (m & w3 & H3 & H)].
  { apply read_only_lift in H as (F & D & _). split; [eauto|]. split; congruence. }
  apply read_only_lift in H3 as (F3 & D3 & _).
  apply bind_inv in H as [(e & H & ->) | (c & w4 & H4 & H)].
  { apply configure_spec in H as (_ & _ & _ & c' & Hc & _). discriminate. }
  apply configure_spec in H4 as (F4 & D4 & _ & c' & Hc & _ & Hint8 & _).
  injection Hc as <-.
  apply bind_inv in H as [(e & H & ->) | (? & w5 & H5 & H)]; [discriminate|].
  injection H5 as <- _.
  cbn [files dirs stdout invocations] in H.
  rewrite (Hfail c Hint8) in H. cbn in H. injection H as <- <-. cbn [files dirs].
  split; [eauto|]. split; congruence.
Qed.

End ConverterRun.

Section ConverterForward.
Import TFLiteConverter.
Local Open Scope R_scope.
Context {Model : Type} (tf : Libraries Model).

Lemma bind_Ok_run {A B} (m : M A) (f : A -> M B) (w w1 : World) (a : A) :
  m w = (w1, Ok a) -> (m ≫= f) w = f a w1.
Proof. intros H. unfold mbind, M_bind. rewrite H. reflexivity. Qed.

Lemma self_in_prefixes (d : path) : d ∈ prefixes d.
Proof.
  unfold prefixes. apply list_elem_of_In, in_map_iff.
  exists (length d). split; [apply firstn_all | apply in_seq; lia].
Qed.

Lemma prefixes_shorter (d q : path) : q ∈ prefixes d -> (length q <= length d)%nat.
Proof.
  unfold prefixes. intros H. apply list_elem_of_In, in_map_iff in H as (n & <- & _).
  rewrite length_take. lia.
Qed.

Lemma not_in_prefixes_parent (p : path) : p <> [] -> p ∉ prefixes (parent p).
Proof.
  intros Hne Hin. apply prefixes_shorter in Hin.
  unfold parent in Hin. rewrite length_take in Hin.
  destruct p; [congruence | cbn in Hin; lia].
Qed.

(** A conversion returns the artifact whenever the model file is there and
    non-empty, the library loads and converts it, and nothing is in the way
    of the output file. *)
Lemma convert_to_tflite_returns (model_path output_path : path)
    (optimize : bool) (quantize : option string) (w : World)
    (h5 : bytes) (m : Model) (art : bytes) :
  files w !! model_path = Some h5 -> load_model tf h5 = Some m ->
  (forall c, keras_model c = keras_model (from_keras_model tf m) ->
             (quantize = Some "int8"%string ->
                supported_ops c = [TFLITE_BUILTINS_INT8] /\
                inference_input_type c = int8 /\ inference_output_type c = int8) ->
             convert tf c = Some art) ->
  Forall (fun d => files w !! d = None) (prefixes (parent output_path)) ->
  output_path <> [] -> output_path ∉ dirs w ->
  model_path <> output_path -> h5 <> [] ->
  exists w', convert_to_tflite tf model_path output_path optimize quantize w
             = (w', Ok art).
Proof.
  intros Hfile Hload Hconv Hfree Hne Hnd Hdiff Hsize.
  unfold convert_to_tflite.
  erewrite bind_Ok_run by reflexivity. cbn [files dirs stdout invocations].
  erewrite bind_Ok_run by (unfold read_bytes; cbn [files]; rewrite Hfile; reflexivity).
  erewrite bind_Ok_run by (rewrite Hload; reflexivity).
  match goal with
  | |- context [configure ?o ?q ?c] =>
      match goal with
      | |- context [mbind _ (configure o q c) ?w1] =>
          destruct (configure o q c w1) as [w2 r2] eqn:Econf
      end
  end.
  pose proof (configure_spec _ _ _ _ _ _ Econf)
    as (F2 & D2 & _ & c' & -> & Hk & Hint8 & _).
  cbn [files dirs] in F2, D2.
  erewrite bind_Ok_run by exact Econf.
  erewrite bind_Ok_run by reflexivity. cbn [files dirs stdout invocations].
  erewrite bind_Ok_run by (rewrite (Hconv c' Hk Hint8); reflexivity).
  erewrite bind_Ok_run; cycle 1.
  { unfold mkdir_parents. cbn [files dirs stdout invocations].
    rewrite decide_False; [reflexivity|].
    rewrite Exists_exists. intros (d & Hd & [x Hx]).
    rewrite Forall_forall in Hfree. rewrite F2, (Hfree d Hd) in Hx. discriminate. }
  erewrite bind_Ok_run; cycle 1.
  { unfold write_bytes. cbn [files dirs stdout invocations].
    rewrite decide_False; cycle 1.
    { intros [E | Hin]; [contradiction|].
      apply elem_of_union in Hin as [Hin | Hin].
      - rewrite D2 in Hin. contradiction.
      - apply elem_of_list_to_set in Hin.
        exact (not_in_prefixes_parent output_path Hne Hin). }
    rewrite decide_True; [reflexivity|].
    apply elem_of_union. right. apply elem_of_list_to_set, self_in_prefixes. }
  erewrite bind_Ok_run; cycle 1.
  { unfold stat_size. cbn [files].
    rewrite lookup_insert_ne by congruence. rewrite F2, Hfile. reflexivity. }
  erewrite bind_Ok_run; cycle 1.
  { rewrite compression_ratio_pos; [reflexivity|]. destruct h5; [congruence | cbn; lia]. }
  do 5 (erewrite bind_Ok_run by reflexivity; cbn [files dirs stdout invocations]).
  eexists. reflexivity.
Qed.

(** With the model file in place and loadable, a converter that raises makes
    the conversion raise [ConverterError]. *)
Lemma convert_to_tflite_ConverterError (model_path output_path : path)
    (optimize : bool) (quantize : option string) (w : World)
    (h5 : bytes) (m : Model) :
  files w !! model_path = Some h5 -> load_model tf h5 = Some m ->
  (forall c, keras_model c = keras_model (from_keras_model tf m) ->
             (quantize = Some "int8"%string ->
                supported_ops c = [TFLITE_BUILTINS_INT8] /\
                inference_input_type c = int8 /\ inference_output_type c = int8) ->
             convert tf c = None) ->
  exists w', convert_to_tflite tf model_path output_path optimize quantize w
             = (w', Raise ConverterError).
Proof.
  intros Hfile Hload Hconv.
  unfold convert_to_tflite.
  erewrite bind_Ok_run by reflexivity. cbn [files dirs stdout invocations].
  erewrite bind_Ok_run by (unfold read_bytes; cbn [files]; rewrite Hfile; reflexivity).
  erewrite bind_Ok_run by (rewrite Hload; reflexivity).
  match goal with
  | |- context [mbind _ (configure ?o ?q ?c) ?w1] =>
      destruct (configure o q c w1) as [w2 r2] eqn:Econf
  end.
  pose proof (configure_spec _ _ _ _ _ _ Econf)
    as (_ & _ & _ & c' & -> & Hk & Hint8 & _).
  erewrite bind_Ok_run by exact Econf.
  erewrite bind_Ok_run by reflexivity. cbn [files dirs stdout invocations].
  unfold mbind, M_bind. rewrite (Hconv c' Hk Hint8). eexists. reflexivity.
Qed.

End ConverterForward.

Section InferenceTest.
Import TFLiteConverter.
Local Open Scope R_scope.
Context {Model : Type} (tf : Libraries Model).

(** The synthetic input of [test_tflite_model]: random data of the declared
    input shape, as [float32]. *)
Lemma test_tflite_model_Ok_inv (tflite_path : path) (w w' : World) (out : NDArray) :
  test_tflite_model tf tflite_path None w = (w', Ok out) ->
  exists art interp in0 out0 x,
    files w !! tflite_path = Some art /\ Interpreter tf art = Some interp /\
    head (input_details interp) = Some in0 /\
    head (output_details interp) = Some out0 /\
    x = {| arr_shape := shape in0; arr_dtype := float32;
           arr_data := randn tf (shape in0) |} /\
    dtype in0 = float32 /\
    run interp x = Some out /\
    invocations w' = invocations w ++ [(art, x)] /\
    files w' = files w /\ dirs w' = dirs w /\
    LineShape "  Output shape: " (shape out0) ∈ stdout w' /\
    LineShape "  Output shape: " (arr_shape out) ∈ stdout w'.
Proof.
  unfold test_tflite_model. intros H.
  apply bind_Ok_inv in H as (? & w1 & H1 & H). injection H1 as <- _.
  cbn [files dirs stdout invocations] in H.
  apply bind_Ok_inv in H as (art & w2 & H2 & H).
  unfold read_bytes in H2. cbn [files] in H2.
  destruct (files w !! tflite_path) as [art_|] eqn:Hfile; [|discriminate].
  injection H2 as <- <-.
  apply bind_Ok_inv in H as (interp & w3 & H3 & H).
  apply lift_Ok_inv in H3 as [Hinterp ->].
  apply bind_Ok_inv in H as (? & w4 & H4 & H). injection H4 as <- _.
  cbn [files dirs stdout invocations] in H.
  apply bind_Ok_inv in H as (in0 & w5 & H5 & H).
  apply lift_Ok_inv in H5 as [Hin ->].
  apply bind_Ok_inv in H as (? & w6 & H6 & H). injection H6 as <- _.
  cbn [files dirs stdout invocations] in H.
  apply bind_Ok_inv in H as (? & w7 & H7 & H). injection H7 as <- _.
  cbn [files dirs stdout invocations] in H.
  apply bind_Ok_inv in H as (out0 & w8 & H8 & H).
  apply lift_Ok_inv in H8 as [Hout ->].
  apply bind_Ok_inv in H as (? & w9 & H9 & H). injection H9 as <- _.
  cbn [files dirs stdout invocations] in H.
  apply bind_Ok_inv in H as (? & w10 & H10 & H). injection H10 as <- _.
  cbn [files dirs stdout invocations] in H.
  apply bind_Ok_inv in H as (? & w11 & H11 & H).
  unfold set_tensor in H11. cbn [arr_dtype arr_shape] in H11.
  destruct (decide _) as [[Hdt _]|] in H11; [|discriminate].
  injection H11 as <- _.
  apply bind_Ok_inv in H as (? & w12 & H12 & H). injection H12 as <- _.
  cbn [files dirs stdout invocations] in H.
  apply bind_Ok_inv in H as (output & w13 & H13 & H).
  apply lift_Ok_inv in H13 as [Hrun ->].
  apply bind_Ok_inv in H as (? & w14 & H14 & H). injection H14 as <- _.
  cbn [files dirs stdout invocations] in H.
  apply bind_Ok_inv in H as (? & w15 & H15 & H). injection H15 as <- _.
  cbn [files dirs stdout invocations] in H.
  destruct (arr_shape output) as [|[|k] [|n rest]] eqn:Hshape; try discriminate.
  apply bind_Ok_inv in H as (? & w16 & H16 & H). injection H16 as <- _.
  cbn [files dirs stdout invocations] in H.
  injection H as <- <-. cbn [files dirs stdout invocations].
  exists art_, interp, in0, out0. eexists.
  repeat split; try eassumption; try reflexivity.
  - congruence.
  - rewrite !elem_of_app. do 4 left. right. apply list_elem_of_singleton. reflexivity.
  - rewrite !elem_of_app. left. right. apply list_elem_of_singleton.
    rewrite Hshape. reflexivity.
Qed.

Lemma test_tflite_model_returns (tflite_path : path) (w : World)
    (art : bytes) (interp : Interp) (in0 out0 : TensorDetails) (out : NDArray)
    (k n : nat) (rest : list nat) :
  files w !! tflite_path = Some art -> Interpreter tf art = Some interp ->
  head (input_details interp) = Some in0 ->
  head (output_details interp) = Some out0 ->
  dtype in0 = float32 ->
  run interp {| arr_shape := shape in0; arr_dtype := float32;
                arr_data := randn tf (shape in0) |} = Some out ->
  arr_shape out = S k :: n :: rest ->
  exists w', test_tflite_model tf tflite_path None w = (w', Ok out).
Proof.
  intros Hfile Hinterp Hin Hout Hdt Hrun Hshape.
  unfold test_tflite_model.
  erewrite bind_Ok_run by reflexivity. cbn [files dirs stdout invocations].
  erewrite bind_Ok_run by (unfold read_bytes; cbn [files]; rewrite Hfile; reflexivity).
  erewrite bind_Ok_run by (rewrite Hinterp; reflexivity).
  erewrite bind_Ok_run by reflexivity. cbn [files dirs stdout invocations].
  erewrite bind_Ok_run by (unfold index0; rewrite Hin; reflexivity).
  do 2 (erewrite bind_Ok_run by reflexivity; cbn [files dirs stdout invocations]).
  erewrite bind_Ok_run by (unfold index0; rewrite Hout; reflexivity).
  do 2 (erewrite bind_Ok_run by reflexivity; cbn [files dirs stdout invocations]).
  erewrite bind_Ok_run; cycle 1.
  { unfold set_tensor. cbn [arr_dtype arr_shape].
    rewrite decide_True by (split; [symmetry; exact Hdt | reflexivity]).
    reflexivity. }
  erewrite bind_Ok_run by reflexivity. cbn [files dirs stdout invocations].
  erewrite bind_Ok_run by (rewrite Hrun; reflexivity).
  do 2 (erewrite bind_Ok_run by reflexivity; cbn [files dirs stdout invocations]).
  rewrite Hshape.
  erewrite bind_Ok_run by reflexivity. cbn [files dirs stdout invocations].
  eexists. reflexivity.
Qed.

(** Without [--test], [main] runs no inference. *)
Lemma no_inference_main_without_test (args : Args) :
  test args = false -> no_inference (main tf args).
Proof.
  intros Ht. unfold main. rewrite Ht.
  repeat first
    [ apply no_inference_convert_to_tflite
    | apply read_only_no_inference, read_only_print
    | apply read_only_no_inference, read_only_ret
    | apply no_inference_bind; [|intros ?] ].
Qed.

(** With [--test], a [main] that returns has converted and then tested the
    stored artifact once. *)
Lemma main_with_test_Ok_inv (args : Args) (w w' : World) :
  test args = true ->
  main tf args w = (w', Ok ()) ->
  exists w1 art w2 out,
    convert_to_tflite tf (model args) (output args) (optimize args)
      (quantize args) w = (w1, Ok art) /\
    test_tflite_model tf (output args) None w1 = (w2, Ok out) /\
    files w' = files w2 /\ invocations w' = invocations w2 /\
    forall o, o ∈ stdout w2 -> o ∈ stdout w'.
Proof.
  intros Ht. unfold main. rewrite Ht. intros H.
  apply bind_Ok_inv in H as (art & w1 & H1 & H).
  apply bind_Ok_inv in H as (? & w2 & H2 & H).
  apply bind_Ok_inv in H2 as (out & w2' & H2 & H2').
  injection H2' as <- _.
  apply bind_Ok_inv in H as (? & w3 & H3 & H). injection H3 as <- _.
  cbn [files dirs stdout invocations] in H.
  apply bind_Ok_inv in H as (? & w4 & H4 & H). injection H4 as <- _.
  cbn [files dirs stdout invocations] in H.
  apply bind_Ok_inv in H as (? & w5 & H5 & H). injection H5 as <- _.
  cbn [files dirs stdout invocations] in H.
  injection H as <-. cbn [files invocations stdout].
  exists w1, art, w2', out. repeat split; try assumption.
  intros o Ho. rewrite !elem_of_app. auto.
Qed.

End InferenceTest.

Section ConverterClaims.
Import TFLiteConverter ConverterExample.
Local Open Scope R_scope.

(** In the example world the model file is the only file and the working
    directory the only directory, so a conversion into [out/model.tflite]
    returns as soon as the library loads and converts. *)
Lemma w0_conversion_returns (tf : Libraries unit) (optimize : bool)
    (quantize : option string) (art : bytes) :
  load_model tf h5_file = Some () ->
  (forall c, keras_model c = keras_model (from_keras_model tf ()) ->
             (quantize = Some "int8"%string ->
                supported_ops c = [TFLITE_BUILTINS_INT8] /\
                inference_input_type c = int8 /\ inference_output_type c = int8) ->
             convert tf c = Some art) ->
  exists w', convert_to_tflite tf ["model.h5"%string]
               ["out"%string; "model.tflite"%string] optimize quantize w0
             = (w', Ok art).
Proof.
  intros Hload Hconv.
  apply (convert_to_tflite_returns tf _ _ _ _ w0 h5_file () art).
  - apply lookup_singleton_eq.
  - exact Hload.
  - exact Hconv.
  - cbn. repeat constructor; apply lookup_singleton_ne; discriminate.
  - discriminate.
  - cbn. rewrite elem_of_singleton. discriminate.
  - discriminate.
  - discriminate.
Qed.

Lemma compression_ratio_10MB : compression_ratio 10485760 2621440 = Some 75.
Proof. rewrite compression_ratio_pos by lia. f_equal. lra. Qed.

(** C3, as stated, fails: for an original of 10 MB and an artifact of 2.5 MB
    the figure the conversion computes is 75, a percentage, not 0.75. *)
Lemma compression_ratio_10MB_is_not_0_75 :
  compression_ratio 10485760 2621440 = Some 75 /\
  compression_ratio 10485760 2621440 <> Some 0.75.
Proof.
  rewrite compression_ratio_10MB. split; [reflexivity|].
  intros H. injection H as H. lra.
Qed.

(** C3, amended: the compression figure is [(1 - packaged / original) * 100],
    a percentage, for every positive original size; it is 75 for 10 MB against
    2.5 MB; and the figure a conversion prints is that of the byte length of
    the file at the model path and of the artifact it has just stored at the
    output path. *)
Theorem compression_ratio_is_percentage_of_byte_sizes :
  (forall original_bytes tflite_bytes : Z, (0 < original_bytes)%Z ->
     compression_ratio original_bytes tflite_bytes
     = Some ((1 - IZR tflite_bytes / IZR original_bytes) * 100)) /\
  compression_ratio 10485760 2621440 = Some 75 /\
  (forall (Model : Type) (tf : Libraries Model) model_path output_path
          optimize quantize w w' art,
     convert_to_tflite tf model_path output_path optimize quantize w
       = (w', Ok art) ->
     exists h5 : bytes,
       files w' !! model_path = Some h5 /\
       files w' !! output_path = Some art /\
       (0 < Z.of_nat (length h5))%Z /\
       LineNum "  Compression (%): "
         ((1 - IZR (Z.of_nat (length art)) / IZR (Z.of_nat (length h5))) * 100)
       ∈ stdout w').
Proof.
  split; [exact compression_ratio_pos|].
  split; [exact compression_ratio_10MB|].
  intros Model tf mp op opt q w w' art H.
  apply convert_to_tflite_Ok_inv in H
    as (h5 & m & c & h5' & _ & _ & _ & _ & _ & _ & Hfiles & Hmp & Hpos & Hline).
  exists h5'. repeat split; try assumption.
  rewrite Hfiles. apply lookup_insert_eq.
Qed.

(** When ['int8'] is requested, the artifact a conversion returns and
    stores was produced by the library's converter restricted to the int8
    builtin operations and asked for int8 input and output tensors, so that
    with a library that gives the artifact the tensor types it was asked for
    both declared types are int8; and when the converter raises under that
    restriction (the network holds an operation unsupported in pure-integer
    inference), the conversion raises too, without a second attempt in
    another mode, and leaves files and directories as they were: no output
    file is written. *)
Lemma int8_conversion_is_all_or_nothing :
  forall (Model : Type) (tf : Libraries Model) model_path output_path optimize w,
    let run_int8 :=
      convert_to_tflite tf model_path output_path optimize (Some "int8"%string) w in
    (forall art, run_int8.2 = Ok art ->
       files run_int8.1 !! output_path = Some art /\
       exists c : Converter Model,
         convert tf c = Some art /\
         supported_ops c = [TFLITE_BUILTINS_INT8] /\
         inference_input_type c = int8 /\ inference_output_type c = int8) /\
    ((forall (c : Converter Model) art, convert tf c = Some art ->
        exists interp in0 out0,
          Interpreter tf art = Some interp /\
          head (input_details interp) = Some in0 /\
          head (output_details interp) = Some out0 /\
          dtype in0 = inference_input_type c /\
          dtype out0 = inference_output_type c) ->
     forall art, run_int8.2 = Ok art ->
       exists interp in0 out0,
         Interpreter tf art = Some interp /\
         head (input_details interp) = Some in0 /\
         head (output_details interp) = Some out0 /\
         dtype in0 = int8 /\ dtype out0 = int8) /\
    ((forall c : Converter Model,
        supported_ops c = [TFLITE_BUILTINS_INT8] ->
        inference_input_type c = int8 -> inference_output_type c = int8 ->
        convert tf c = None) ->
     (exists e, run_int8.2 = Raise e) /\
     files run_int8.1 = files w /\ dirs run_int8.1 = dirs w /\
     files run_int8.1 !! output_path = files w !! output_path).
Proof.
  intros Model tf mp op opt w run_int8.
  destruct run_int8 as [w' r] eqn:Erun. subst run_int8. cbn [fst snd].
  assert (Hok : forall art, r = Ok art ->
            files w' !! op = Some art /\
            exists c : Converter Model,
              convert tf c = Some art /\
              supported_ops c = [TFLITE_BUILTINS_INT8] /\
              inference_input_type c = int8 /\ inference_output_type c = int8).
  { intros art ->.
    apply convert_to_tflite_Ok_inv in Erun
      as (h5 & m & c & h5' & _ & _ & _ & Hint8 & _ & Hconv & Hfiles & _).
    destruct (Hint8 eq_refl) as (Hops & Hin & Hout).
    split; [rewrite Hfiles; apply lookup_insert_eq|].
    exists c. auto. }
  split; [exact Hok|]. split.
  - intros Hhonour art Hr.
    destruct (Hok art Hr) as (_ & c & Hconv & _ & Hin & Hout).
    destruct (Hhonour c art Hconv) as (interp & in0 & out0 & Hi & Hh1 & Hh2 & E1 & E2).
    exists interp, in0, out0. repeat split; congruence.
  - intros Hfail.
    apply convert_to_tflite_converter_raises in Erun as (He & Hf & Hd).
    + repeat split; [exact He | exact Hf | exact Hd | now rewrite Hf].
    + intros c Hq. destruct (Hq eq_refl) as (Hops & Hin & Hout).
      apply Hfail; assumption.
Qed.

(** Under ['int8'] the settings of lines 35-39 are made and announced, and
    nothing else changes: the representative dataset stays as it was. *)
Lemma configure_int8 {Model : Type} (optimize : bool) (c : Converter Model)
    (w : World) :
  exists w' c',
    configure optimize (Some "int8"%string) c w = (w', Ok c') /\
    files w' = files w /\ dirs w' = dirs w /\
    Line "INT8 quantization enabled" ∈ stdout w' /\
    keras_model c' = keras_model c /\
    supported_ops c' = [TFLITE_BUILTINS_INT8] /\
    inference_input_type c' = int8 /\ inference_output_type c' = int8 /\
    representative_dataset c' = representative_dataset c.
Proof.
  unfold configure. destruct optimize; cbn;
    try rewrite (decide_True (P := Some "int8"%string = Some "int8"%string))
      by reflexivity;
    cbn; (do 2 eexists; split; [reflexivity|]); cbn;
    repeat split; rewrite ?elem_of_app, ?list_elem_of_singleton; auto.
Qed.

(** C8: the settings of an ['int8'] request are made, but the calibration
    samples that integer quantisation of a float model needs are never
    supplied.  With a library that, like TensorFlow, starts a converter
    without a representative dataset and refuses the int8 builtins as target
    for this model without one, every ['int8'] conversion of a model that
    loads announces "INT8 quantization enabled" and then raises out of the
    converter: it returns no artifact, with int8 tensors or others, and
    leaves every file as it was. *)
Theorem int8_request_raises_without_representative_dataset
    {Model : Type} (tf : Libraries Model) (model_path output_path : path)
    (optimize : bool) (w : World) (h5 : bytes) (m : Model) :
  files w !! model_path = Some h5 -> load_model tf h5 = Some m ->
  representative_dataset (from_keras_model tf m) = None ->
  (forall c, keras_model c = keras_model (from_keras_model tf m) ->
     supported_ops c = [TFLITE_BUILTINS_INT8] ->
     representative_dataset c = None -> convert tf c = None) ->
  exists w',
    convert_to_tflite tf model_path output_path optimize (Some "int8"%string) w
      = (w', Raise ConverterError) /\
    files w' = files w /\ dirs w' = dirs w /\
    Line "INT8 quantization enabled" ∈ stdout w'.
Proof.
  intros Hfile Hload Hfresh Hrule.
  unfold convert_to_tflite.
  erewrite bind_Ok_run by reflexivity. cbn [files dirs stdout invocations].
  erewrite bind_Ok_run by (unfold read_bytes; cbn [files]; rewrite Hfile; reflexivity).
  erewrite bind_Ok_run by (rewrite Hload; reflexivity).
  match goal with
  | |- context [mbind _ (configure ?o ?q ?c) ?w1] =>
      destruct (configure_int8 o c w1)
        as (w2 & c' & Econf & F2 & D2 & Hout & Hk & Hops & _ & _ & Hrep)
  end.
  cbn [files dirs] in F2, D2.
  erewrite bind_Ok_run by exact Econf.
  erewrite bind_Ok_run by reflexivity. cbn [files dirs stdout invocations].
  unfold mbind, M_bind.
  rewrite (Hrule c' Hk Hops (eq_trans Hrep Hfresh)).
  eexists. split; [reflexivity|]. cbn [files dirs stdout].
  split; [exact F2|]. split; [exact D2|].
  apply elem_of_app. left. exact Hout.
Qed.

(** C8 on the example model file, with [--optimize]. *)
Lemma int8_request_raises_without_representative_dataset_witness :
  exists w',
    convert_to_tflite tf_calibrating ["model.h5"%string]
      ["out"%string; "model.tflite"%string] true (Some "int8"%string) w0
      = (w', Raise ConverterError) /\
    files w' = files w0 /\ dirs w' = dirs w0 /\
    Line "INT8 quantization enabled" ∈ stdout w'.
Proof.
  apply (int8_request_raises_without_representative_dataset tf_calibrating
           ["model.h5"%string] ["out"%string; "model.tflite"%string] true
           w0 h5_file ()).
  - apply lookup_singleton_eq.
  - reflexivity.
  - reflexivity.
  - intros c _ Hops Hrep. cbn. rewrite Hrep, Hops. reflexivity.
Defined.

(** C4, as stated, fails.  In the example world a conversion returns and
    stores the artifact without any inference; [main] without [--test]
    likewise; and [main] with [--test] runs the artifact, whose interpreter
    declares an output of shape [[1; 12]] and computes one of shape
    [[1; 11]], prints both shapes and returns normally with the artifact in
    place. *)
Lemma conversion_accepts_shape_mismatch :
  let out_path := ["out"%string; "model.tflite"%string] in
  (exists w1,
     convert_to_tflite tf0 ["model.h5"%string] out_path true None w0
       = (w1, Ok artifact) /\
     files w1 !! out_path = Some artifact /\ invocations w1 = []) /\
  (exists w2,
     main tf0 (args0 false) w0 = (w2, Ok ()) /\
     files w2 !! out_path = Some artifact /\ invocations w2 = []) /\
  (exists w3,
     main tf0 (args0 true) w0 = (w3, Ok ()) /\
     files w3 !! out_path = Some artifact /\
     invocations w3 = [(artifact, input0)] /\
     (shape <$> head (output_details mismatching)) = Some [1; 12]%nat /\
     (arr_shape <$> run mismatching input0) = Some [1; 11]%nat /\
     LineShape "  Output shape: " [1; 12]%nat ∈ stdout w3 /\
     LineShape "  Output shape: " [1; 11]%nat ∈ stdout w3).
Proof.
  intros out_path.
  destruct (w0_conversion_returns tf0 true None artifact) as [w1 Hconv];
    [reflexivity | intros; reflexivity |].
  pose proof (no_inference_convert_to_tflite tf0 _ _ _ _ _ _ _ Hconv) as Hinv1.
  cbn [invocations w0] in Hinv1.
  pose proof Hconv as Hfiles1.
  apply convert_to_tflite_Ok_inv in Hfiles1
    as (_ & _ & _ & _ & _ & _ & _ & _ & _ & _ & Hfiles1 & _).
  assert (Hout1 : files w1 !! out_path = Some artifact).
  { rewrite Hfiles1. apply lookup_insert_eq. }
  split; [|split].
  - exists w1. auto.
  - unfold main. cbn [args0 model output optimize quantize test].
    erewrite bind_Ok_run by exact Hconv.
    do 4 (erewrite bind_Ok_run by reflexivity; cbn [files dirs stdout invocations]).
    eexists. split; [reflexivity|]. cbn [files invocations]. auto.
  - destruct (test_tflite_model_returns tf0 out_path w1 artifact mismatching
                {| shape := [1; 4]%nat; dtype := float32 |}
                {| shape := [1; 12]%nat; dtype := float32 |}
                {| arr_shape := [1; 11]%nat; arr_dtype := float32; arr_data := [] |}
                0%nat 11%nat [])
      as [w2 Htest]; try reflexivity; [exact Hout1|].
    pose proof Htest as Hinv.
    apply test_tflite_model_Ok_inv in Hinv
      as (art & interp & in0 & out0 & x & Hf & Hi & Hin & Hout & -> & _ & _ &
          Hinv2 & Hfiles2 & _ & Hdecl & Hact).
    rewrite Hout1 in Hf. injection Hf as <-.
    cbn in Hi. injection Hi as <-.
    cbn in Hin. injection Hin as <-. cbn in Hout. injection Hout as <-.
    cbn [shape] in Hinv2, Hdecl.
    unfold main. cbn [args0 model output optimize quantize test].
    erewrite bind_Ok_run by exact Hconv.
    erewrite bind_Ok_run
      by (erewrite bind_Ok_run by exact Htest; reflexivity).
    do 3 (erewrite bind_Ok_run by reflexivity; cbn [files dirs stdout invocations]).
    eexists. split; [reflexivity|]. cbn [files invocations stdout].
    split; [congruence|].
    split; [rewrite Hinv2, Hinv1; reflexivity|].
    split; [reflexivity|]. split; [reflexivity|].
    split; rewrite !elem_of_app; do 4 left; [exact Hdecl | exact Hact].
Qed.

(** C4, amended: a conversion runs no inference by itself, and [main]
    without [--test] runs none either.  Only with [--test], and after a
    conversion that returned, [main] runs the stored artifact exactly once,
    on a synthetic input that has the declared input shape and element type
    [float32] (so the declared input type must be [float32] for it to
    return), and prints the shape of the output it got. *)
Theorem verification_inference_only_with_test_flag :
  forall (Model : Type) (tf : Libraries Model),
    (forall model_path output_path optimize quantize w w' r,
       convert_to_tflite tf model_path output_path optimize quantize w = (w', r) ->
       invocations w' = invocations w) /\
    (forall args w w' r,
       test args = false -> main tf args w = (w', r) ->
       invocations w' = invocations w) /\
    (forall args w w',
       test args = true -> main tf args w = (w', Ok ()) ->
       exists art interp in0 x out,
         files w' !! output args = Some art /\
         Interpreter tf art = Some interp /\
         head (input_details interp) = Some in0 /\
         arr_shape x = shape in0 /\ arr_dtype x = float32 /\
         dtype in0 = float32 /\
         run interp x = Some out /\
         invocations w' = invocations w ++ [(art, x)] /\
         LineShape "  Output shape: " (arr_shape out) ∈ stdout w').
Proof.
  intros Model tf. split; [|split].
  - intros mp op opt q w w' r H.
    exact (no_inference_convert_to_tflite tf mp op opt q w w' r H).
  - intros args w w' r Ht H.
    exact (no_inference_main_without_test tf args Ht w w' r H).
  - intros args w w' Ht H.
    apply main_with_test_Ok_inv in H
      as (w1 & art & w2 & out & Hconv & Htest & Hfiles & Hinv & Hstd);
      [|exact Ht].
    pose proof (no_inference_convert_to_tflite tf _ _ _ _ _ _ _ Hconv) as Hinv1.
    apply convert_to_tflite_Ok_inv in Hconv
      as (_ & _ & _ & _ & _ & _ & _ & _ & _ & _ & Hfiles1 & _).
    apply test_tflite_model_Ok_inv in Htest
      as (art' & interp & in0 & out0 & x & Hf & Hi & Hin & _ & Hx & Hdt & Hrun &
          Hinv2 & Hfiles2 & _ & _ & Hact).
    rewrite Hfiles1, lookup_insert_eq in Hf. injection Hf as <-.
    exists art, interp, in0, x, out. subst x. cbn [arr_shape arr_dtype].
    repeat split; try assumption; try reflexivity.
    + rewrite Hfiles, Hfiles2, Hfiles1. apply lookup_insert_eq.
    + rewrite Hinv, Hinv2, Hinv1. reflexivity.
    + apply Hstd. exact Hact.
Qed.

End ConverterClaims.

(** * Further properties *)

(** ** Further properties of the pitch codec *)

Section CodecExtras.
Import Numeric Python Binary64 SpecFloat PitchBinCodec LibmExample.
Local Open Scope Z_scope.

Lemma fdiv_nan_r (x : float64) : fdiv x S754_nan = S754_nan.
Proof. destruct x; reflexivity. Qed.

(** X1: for every C library and all parameters, [pitch_to_bin] answers -1
    to a pitch below [min_pitch] or above [max_pitch]; a bin it returns is
    -1 or at most [num_bins - 1]; the only exceptions it raises are the
    [ValueError] and the [OverflowError] of [int]; and a NaN pitch, which
    passes the range guard, raises [ValueError] when the library's logarithm
    of NaN is NaN. *)
Theorem pitch_to_bin_result_range (libm : Libm) (hz mn mx : float64) (n : Z) :
  (flt hz mn = true \/ flt mx hz = true ->
   pitch_to_bin libm hz mn mx n = Ok (-1)) /\
  (forall b, pitch_to_bin libm hz mn mx n = Ok b -> b = -1 \/ b <= n - 1) /\
  (forall e, pitch_to_bin libm hz mn mx n = Raise e ->
     e = ValueError \/ e = OverflowError) /\
  (np_log2 libm S754_nan = S754_nan ->
   pitch_to_bin libm S754_nan mn mx n = Raise ValueError).
Proof.
  split; [apply pitch_to_bin_out_of_range|]. split; [|split].
  - intros b Hb.
    apply pitch_to_bin_Ok_inv in Hb as [[-> _] | (_ & _ & idx & _ & ->)]; lia.
  - intros e He. apply pitch_to_bin_Raise_inv in He as (_ & _ & He).
    unfold bin_index in He. eapply py_int_Raise. exact He.
  - intros Hnan. rewrite pitch_to_bin_in_range.
    + unfold bin_index, bin_position. rewrite Hnan. reflexivity.
    + reflexivity.
    + destruct mx; reflexivity.
Qed.

(** X24: when the logarithms of the two bounds are one double, equal bounds
    first of all, the divisor is zero or NaN and [pitch_to_bin] returns no
    bin: it answers -1 or raises. *)
Theorem pitch_to_bin_equal_logarithms (libm : Libm) (hz mn mx : float64) (n : Z) :
  np_log2 libm mn = np_log2 libm mx ->
  pitch_to_bin libm hz mn mx n = Ok (-1) \/
  pitch_to_bin libm hz mn mx n = Raise ValueError \/
  pitch_to_bin libm hz mn mx n = Raise OverflowError.
Proof.
  intros Heq.
  destruct (flt hz mn) eqn:E1;
    [left; apply pitch_to_bin_out_of_range; auto|].
  destruct (flt mx hz) eqn:E2;
    [left; apply pitch_to_bin_out_of_range; auto|].
  right. rewrite pitch_to_bin_in_range by assumption.
  unfold bin_index, bin_position. rewrite Heq.
  set (num := fsub (np_log2 libm hz) (np_log2 libm mx)).
  assert (H : py_int (fmul (fdiv num (fsub (np_log2 libm mx) (np_log2 libm mx)))
                           (of_int n)) = Raise ValueError \/
              py_int (fmul (fdiv num (fsub (np_log2 libm mx) (np_log2 libm mx)))
                           (of_int n)) = Raise OverflowError).
  { destruct (fsub_diag (np_log2 libm mx)) as [-> | ->].
    - destruct (fdiv_zero num false) as [[s' ->] | ->].
      + apply py_int_fmul_infinity.
      + left. reflexivity.
    - rewrite fdiv_nan_r. left. reflexivity. }
  destruct H as [-> | ->]; auto.
Qed.

(** X24 at [min_pitch = max_pitch = pitch_hz = 50.0]. *)
Lemma pitch_to_bin_equal_logarithms_witness :
  pitch_to_bin libm_table min_pitch_default min_pitch_default min_pitch_default 360
    = Ok (-1) \/
  pitch_to_bin libm_table min_pitch_default min_pitch_default min_pitch_default 360
    = Raise ValueError \/
  pitch_to_bin libm_table min_pitch_default min_pitch_default min_pitch_default 360
    = Raise OverflowError.
Proof.
  apply (pitch_to_bin_equal_logarithms libm_table). reflexivity.
Defined.

(** X4: with the default parameters and the values of the C library, the
    sentinel is decoded like any bin: the pitch decoded from bin -1 is a
    frequency strictly between 0 and 50 Hz (49.68121708052404) that is itself
    out of range, and it is the round trip of every pitch below 50 Hz and of
    every pitch above 500 Hz. *)
Theorem roundtrip_of_out_of_range_pitch (libm : Libm) :
  agrees_with_table libm ->
  exists d : float64,
    decode libm OUT_OF_RANGE = Ok d /\
    flt (S754_zero false) d = true /\ flt d min_pitch_default = true /\
    encode libm d = Ok OUT_OF_RANGE /\
    forall hz,
      flt hz min_pitch_default = true \/ flt max_pitch_default hz = true ->
      roundtrip libm hz = Ok d.
Proof.
  intros [Hlog Hpow]. exists hz_of_bin_minus_1.
  assert (Hd : decode libm OUT_OF_RANGE = Ok hz_of_bin_minus_1).
  { unfold decode, bin_to_pitch, num_bins_default, OUT_OF_RANGE.
    destruct (decide (360 = 0)); [discriminate|].
    rewrite (Hlog min_pitch_default), (Hlog max_pitch_default)
      by (vm_compute; discriminate).
    match goal with
    | |- context [power2 libm ?x] =>
        let v := eval vm_compute in x in change x with v
    end.
    rewrite Hpow by (vm_compute; discriminate).
    vm_compute. reflexivity. }
  split; [exact Hd|]. split; [reflexivity|]. split; [reflexivity|]. split.
  - apply pitch_to_bin_out_of_range. left. reflexivity.
  - intros hz H. unfold roundtrip, encode.
    rewrite (pitch_to_bin_out_of_range libm _ _ _ _ H). exact Hd.
Qed.

(** X4 on the table itself. *)
Lemma roundtrip_of_out_of_range_pitch_witness :
  exists d : float64,
    decode libm_table OUT_OF_RANGE = Ok d /\
    flt (S754_zero false) d = true /\ flt d min_pitch_default = true /\
    encode libm_table d = Ok OUT_OF_RANGE /\
    forall hz,
      flt hz min_pitch_default = true \/ flt max_pitch_default hz = true ->
      roundtrip libm_table hz = Ok d.
Proof.
  apply (roundtrip_of_out_of_range_pitch libm_table).
  split; intros x _; reflexivity.
Defined.

End CodecExtras.

(** ** Dataset loading for the pitch model *)

Section PitchDataset.
Import Numeric Python Binary64 PitchBinCodec TFLiteConverter TrainPitchModel.
Local Open Scope R_scope.
Context (libm : Libm).






End PitchDataset.

Section PitchDatasetWitness.
Import Numeric Python Binary64 PitchBinCodec TFLiteConverter TrainPitchModel.
Import LibmExample DatasetExample.
Local Open Scope R_scope.



End PitchDatasetWitness.

(** ** Dataset loading for the swar classifier *)

Section SwarDataset.
Import TFLiteConverter TrainSwarClassifier.
Local Open Scope nat_scope.
Context (glob_npy : World -> path -> list path)
        (np_load : bytes -> option MelSpec)
        (randn : nat -> list R).

Lemma StronglySorted_le_snoc (l : list nat) (c : nat) :
  StronglySorted Nat.le l -> Forall (fun x => x <= c) l ->
  StronglySorted Nat.le (l ++ [c]).
Proof.
  induction 1 as [|a l Hl IH Ha]; intros Hc; cbn.
  - repeat constructor.
  - apply Forall_cons in Hc as [Hac Hc]. constructor; [apply IH, Hc|].
    apply Forall_app. split; [exact Ha | repeat constructor; exact Hac].
Qed.

Lemma well_formed_weaken (b b' : nat) (acc : list MelSpec * list nat) :
  b <= b' -> well_formed b acc -> well_formed b' acc.
Proof.
  intros Hb (H1 & H2 & H3 & H4). repeat split; try assumption.
  eapply Forall_impl; [exact H4|]. cbn. intros; lia.
Qed.

Lemma same_files_refl (w : World) : same_files w w.
Proof. split; reflexivity. Qed.

Lemma same_files_trans (w1 w2 w3 : World) :
  same_files w1 w2 -> same_files w2 w3 -> same_files w1 w3.
Proof. intros [F1 D1] [F2 D2]. split; congruence. Qed.

(** One file: it is appended with the class index, or skipped; never an
    exception, never a change to the files. *)
Lemma load_file_run (c : nat) (acc : list MelSpec * list nat) (f : path) (w : World) :
  well_formed c acc ->
  exists w' acc',
    load_file np_load c acc f w = (w', Ok acc') /\
    well_formed c acc' /\ same_files w w'.
Proof.
  intros Hwf. unfold load_file.
  destruct (files w !! f ≫= np_load) as [spec|].
  - destruct (decide (spec_shape spec = [128; 128])) as [Hs|Hs].
    + exists w. eexists. split; [reflexivity|]. split; [|apply same_files_refl].
      destruct Hwf as (H1 & H2 & H3 & H4). repeat split; cbn [fst snd].
      * rewrite !length_app, H1. reflexivity.
      * apply Forall_app. split; [exact H2 | repeat constructor; exact Hs].
      * apply StronglySorted_le_snoc; assumption.
      * apply Forall_app. split; [exact H4 | repeat constructor].
    + exists w, acc. split; [reflexivity|]. split; [exact Hwf | apply same_files_refl].
  - eexists. exists acc. split; [reflexivity|]. split; [exact Hwf|].
    split; reflexivity.
Qed.

(** A loop whose body keeps a property of the accumulator and the files
    keeps both. *)
Lemma for_each_run {A S} (body : S -> A -> M S) (P : S -> Prop) (l : list A) :
  (forall s a w, P s -> In a l ->
     exists w' s', body s a w = (w', Ok s') /\ P s' /\ same_files w w') ->
  forall s w, P s ->
    exists w' s', for_each body l s w = (w', Ok s') /\ P s' /\ same_files w w'.
Proof.
  induction l as [|a l IH]; intros Hbody s w Hs.
  - exists w, s. split; [reflexivity|]. split; [exact Hs | apply same_files_refl].
  - destruct (Hbody s a w Hs (or_introl eq_refl)) as (w1 & s1 & E1 & Hs1 & F1).
    destruct (IH (fun s a w H Hin => Hbody s a w H (or_intror Hin)) s1 w1 Hs1)
      as (w2 & s2 & E2 & Hs2 & F2).
    exists w2, s2. split; [|split; [exact Hs2 | exact (same_files_trans _ _ _ F1 F2)]].
    cbn [for_each]. erewrite bind_Ok_run by exact E1. exact E2.
Qed.

Lemma load_class_run (data_path : path) (acc : list MelSpec * list nat)
    (entry : nat * string) (w : World) :
  well_formed entry.1 acc ->
  exists w' acc',
    load_class glob_npy np_load data_path acc entry w = (w', Ok acc') /\
    well_formed entry.1 acc' /\ same_files w w'.
Proof.
  intros Hwf. unfold load_class.
  destruct (TrainPitchModel.path_exists w (data_path ++ [entry.2])).
  - apply (for_each_run (load_file np_load entry.1) (well_formed entry.1));
      [|exact Hwf].
    intros s a w0 Hs _. apply load_file_run. exact Hs.
  - eexists. exists acc. split; [reflexivity|]. split; [exact Hwf|].
    split; reflexivity.
Qed.

(** The outer loop over classes listed by increasing index. *)
Lemma load_classes_run (data_path : path) (entries : list (nat * string)) :
  forall (b : nat) (acc : list MelSpec * list nat) (w : World),
  b < 12 -> well_formed b acc ->
  StronglySorted (fun e1 e2 : nat * string => e1.1 <= e2.1) entries ->
  Forall (fun e : nat * string => b <= e.1 < 12) entries ->
  exists w' acc',
    for_each (load_class glob_npy np_load data_path) entries acc w = (w', Ok acc') /\
    (exists b', b' < 12 /\ well_formed b' acc') /\ same_files w w'.
Proof.
  induction entries as [|e rest IH]; intros b acc w Hb12 Hwf Hsorted Hb.
  - exists w, acc. split; [reflexivity|]. split; [eauto | apply same_files_refl].
  - apply Forall_cons in Hb as [[Hbe He12] Hb].
    apply StronglySorted_inv in Hsorted as [Hsorted Hrest].
    destruct (load_class_run data_path acc e w (well_formed_weaken _ _ _ Hbe Hwf))
      as (w1 & acc1 & E1 & Hwf1 & F1).
    destruct (IH e.1 acc1 w1 He12 Hwf1 Hsorted) as (w2 & acc2 & E2 & Hwf2 & F2).
    { apply Forall_forall. intros e' He'.
      rewrite Forall_forall in Hrest, Hb.
      split; [apply Hrest, He' | apply Hb, He']. }
    exists w2, acc2. split; [|split; [exact Hwf2 | exact (same_files_trans _ _ _ F1 F2)]].
    cbn [for_each]. erewrite bind_Ok_run by exact E1. exact E2.
Qed.

Lemma enumerate_swar_classes_sorted :
  StronglySorted (fun e1 e2 : nat * string => e1.1 <= e2.1) (imap pair swar_classes) /\
  Forall (fun e : nat * string => 0 <= e.1 < 12) (imap pair swar_classes).
Proof.
  cbn. split.
  - repeat (constructor; [|repeat (constructor; [cbn; lia|]); constructor]).
    constructor.
  - repeat (constructor; [cbn; lia|]). constructor.
Qed.

Lemma dummy_dataset_spec :
  length (dummy_dataset randn).1 = 1000 /\
  length (dummy_dataset randn).2 = 1000 /\
  Forall (fun s => spec_shape s = [128; 128]) (dummy_dataset randn).1 /\
  Forall (fun c => c < 12) (dummy_dataset randn).2.
Proof.
  unfold dummy_dataset. cbn [fst snd]. rewrite !length_fmap, length_seq.
  repeat split.
  - apply Forall_fmap, Forall_forall. intros i _. reflexivity.
  - apply Forall_fmap, Forall_forall. intros i _.
    change (i mod 12 < 12). apply Nat.mod_upper_bound. lia.
Qed.

(** X8: [load_dataset] of the swar classifier never raises and never returns
    an empty dataset, whatever the directory holds: it returns as many
    spectrograms as labels and at least one, every spectrogram has shape
    (128, 128), every label is a class index below 12, and files and
    directories are left as they were. *)
Theorem swar_load_dataset_never_empty (data_dir : path) (w : World) :
  exists w' X y,
    load_dataset glob_npy np_load randn data_dir w = (w', Ok (X, y)) /\
    files w' = files w /\ dirs w' = dirs w /\
    length X = length y /\ 0 < length y /\
    Forall (fun s => spec_shape s = [128; 128]) X /\
    Forall (fun c => c < 12) y.
Proof.
  destruct enumerate_swar_classes_sorted as [Hsorted Hidx].
  destruct (load_classes_run data_dir (imap pair swar_classes) 0 ([], []) w)
    as (w1 & [X y] & E & (b & Hb & Hlen & Hshape & _ & Hle) & [F D]);
    [lia | repeat split; constructor | exact Hsorted | exact Hidx |].
  cbn [fst snd] in *.
  unfold load_dataset. erewrite bind_Ok_run by exact E. cbn [fst snd].
  destruct (decide (length X = 0)) as [H0|H0].
  - destruct (dummy_dataset_spec) as (D1 & D2 & D3 & D4).
    eexists. exists (X ++ (dummy_dataset randn).1), (y ++ (dummy_dataset randn).2).
    split; [reflexivity|]. cbn [files dirs].
    assert (HX : X = []) by (destruct X; [reflexivity | discriminate]).
    assert (Hy : y = []) by (destruct y; [reflexivity | subst X; discriminate]).
    subst X y. cbn [app].
    repeat split; try assumption; try lia.
  - exists w1, X, y. split; [reflexivity|].
    repeat split; try assumption; try lia.
    eapply Forall_impl; [exact Hle|]. cbn. intros; lia.
Qed.

(** X9: the labels the loops collect from the files come class by class,
    in non-decreasing order; [load_dataset] returns what the loops collected
    when that is not empty, and exactly when it is empty it returns the dummy
    dataset instead: 1000 random spectrograms with labels [i % 12]. *)
Theorem swar_load_dataset_sorted_or_dummy (data_dir : path) (w : World) :
  exists w1 X0 y0,
    for_each (load_class glob_npy np_load data_dir) (imap pair swar_classes)
      ([], []) w = (w1, Ok (X0, y0)) /\
    StronglySorted Nat.le y0 /\
    ((X0 <> [] /\
      load_dataset glob_npy np_load randn data_dir w = (w1, Ok (X0, y0))) \/
     (X0 = [] /\ y0 = [] /\
      exists w', load_dataset glob_npy np_load randn data_dir w
                 = (w', Ok (dummy_dataset randn)) /\
                 length (dummy_dataset randn).2 = 1000 /\
                 (dummy_dataset randn).2 = (fun i => i mod 12) <$> seq 0 1000)).
Proof.
  destruct enumerate_swar_classes_sorted as [Hsorted Hidx].
  destruct (load_classes_run data_dir (imap pair swar_classes) 0 ([], []) w)
    as (w1 & [X y] & E & (b & Hb & Hlen & _ & Hss & _) & _);
    [lia | repeat split; constructor | exact Hsorted | exact Hidx |].
  cbn [fst snd] in *.
  exists w1, X, y. split; [exact E|]. split; [exact Hss|].
  unfold load_dataset. erewrite bind_Ok_run by exact E. cbn [fst snd].
  destruct (decide (length X = 0)) as [H0|H0].
  - right.
    assert (HX : X = []) by (destruct X; [reflexivity | discriminate]).
    assert (Hy : y = []) by (destruct y; [reflexivity | subst X; discriminate]).
    subst X y. repeat split. eexists. split; [reflexivity|].
    split; [apply dummy_dataset_spec | reflexivity].
  - left. split; [|reflexivity]. intros ->. apply H0. reflexivity.
Qed.

End SwarDataset.

(** ** Placeholder models *)

Section Placeholders.
Import TFLiteConverter PlaceholderModels.
Local Open Scope R_scope.

Lemma create_minimal_tflite_model_Ok_inv (output_path : path)
    (input_shape output_shape : list nat) (model_name : string)
    (w w' : World) (n : Z) :
  create_minimal_tflite_model output_path input_shape output_shape model_name w
    = (w', Ok n) ->
  n = 1028%Z /\
  files w' = <[output_path := header ++ replicate 1024 Byte.x00]> (files w) /\
  invocations w' = invocations w.
Proof.
  unfold create_minimal_tflite_model. cbv zeta. intros H.
  apply bind_Ok_inv in H as (? & w1 & H1 & H).
  unfold makedirs in H1. destruct (decide (parent output_path = [])); [discriminate|].
  unfold mkdir_parents in H1. destruct (decide _) in H1; [discriminate|].
  injection H1 as <- _.
  apply bind_Ok_inv in H as (? & w2 & H2 & H).
  unfold write_bytes in H2. cbn [files dirs] in H2.
  destruct (decide _) in H2; [discriminate|].
  destruct (decide _) in H2; [|discriminate].
  injection H2 as <- _.
  apply bind_Ok_inv in H as (? & w3 & H3 & H). injection H3 as <- _.
  cbn [files dirs stdout invocations] in H.
  injection H as <- <-. cbn [files invocations].
  split; [reflexivity|]. split; reflexivity.
Qed.

(** X10: the file [create_minimal_tflite_model] writes does not depend on the
    shapes and the name it is given: whenever it returns, the result is 1028
    and the output path holds ['TFL3'] followed by 1024 zero bytes, all other
    files being as before; and it does return when the output path has a
    directory part, nothing on the way to that directory is a regular file,
    and the output path is no directory. *)
Theorem placeholder_model_is_fixed_bytes :
  (forall output_path input_shape output_shape model_name w w' n,
     create_minimal_tflite_model output_path input_shape output_shape model_name w
       = (w', Ok n) ->
     n = 1028%Z /\
     Z.of_nat (length (header ++ replicate 1024 Byte.x00)) = 1028%Z /\
     files w' = <[output_path := header ++ replicate 1024 Byte.x00]> (files w)) /\
  (forall output_path input_shape output_shape model_name w,
     parent output_path <> [] ->
     Forall (fun d => files w !! d = None) (prefixes (parent output_path)) ->
     output_path ∉ dirs w ->
     exists w',
       create_minimal_tflite_model output_path input_shape output_shape
         model_name w = (w', Ok 1028%Z)).
Proof.
  split.
  - intros op ishape oshape name w w' n H.
    apply create_minimal_tflite_model_Ok_inv in H as (Hn & Hf & _).
    split; [exact Hn|]. split; [reflexivity | exact Hf].
  - intros op ishape oshape name w Hparent Hfree Hnd.
    assert (Hne : op <> []) by (intros ->; apply Hparent; reflexivity).
    unfold create_minimal_tflite_model. cbv zeta.
    erewrite bind_Ok_run; cycle 1.
    { unfold makedirs. rewrite decide_False by exact Hparent.
      unfold mkdir_parents. rewrite decide_False; [reflexivity|].
      rewrite Exists_exists. intros (d & Hd & [x Hx]).
      rewrite Forall_forall in Hfree. rewrite (Hfree d Hd) in Hx. discriminate. }
    erewrite bind_Ok_run; cycle 1.
    { unfold write_bytes. cbn [files dirs stdout invocations].
      rewrite decide_False; cycle 1.
      { intros [E | Hin]; [contradiction|].
        apply elem_of_union in Hin as [Hin | Hin]; [contradiction|].
        apply elem_of_list_to_set in Hin.
        exact (not_in_prefixes_parent op Hne Hin). }
      rewrite decide_True; [reflexivity|].
      apply elem_of_union. right. apply elem_of_list_to_set, self_in_prefixes. }
    erewrite bind_Ok_run by reflexivity.
    eexists. reflexivity.
Qed.

(** X11: when [create_minimal_tflite_model] raises, no file has been written
    or changed; and given a bare file name, whose [dirname] is the empty
    string, it always raises [FileNotFoundError] out of [os.makedirs], with
    the world untouched. *)
Theorem placeholder_model_raises_without_writing :
  (forall output_path input_shape output_shape model_name w w' e,
     create_minimal_tflite_model output_path input_shape output_shape model_name w
       = (w', Raise e) ->
     files w' = files w /\ stdout w' = stdout w) /\
  (forall (name : string) input_shape output_shape model_name w,
     create_minimal_tflite_model [name] input_shape output_shape model_name w
     = (w, Raise FileNotFoundError)).
Proof.
  split; [|reflexivity].
  intros op ishape oshape name w w' e.
  unfold create_minimal_tflite_model. cbv zeta. intros H.
  apply bind_inv in H as [(e' & H & _) | (? & w1 & H1 & H)].
  { unfold makedirs in H. destruct (decide (parent op = [])).
    - injection H as <- _. auto.
    - unfold mkdir_parents in H. destruct (decide _) in H; [|discriminate].
      injection H as <- _. auto. }
  unfold makedirs in H1. destruct (decide (parent op = [])); [discriminate|].
  unfold mkdir_parents in H1. destruct (decide _) in H1; [discriminate|].
  injection H1 as <- _.
  apply bind_inv in H as [(e' & H & _) | (? & w2 & H2 & H)].
  { unfold write_bytes in H. cbn [files dirs] in H.
    destruct (decide _) in H; [injection H as <- _; auto|].
    destruct (decide _) in H; [discriminate|]. injection H as <- _. auto. }
  apply bind_inv in H as [(e' & H & _) | (? & w3 & H3 & H)]; [discriminate|].
  discriminate.
Qed.

(** X12: when [main] of the placeholder script returns, the pitch model and
    the swar classifier it has stored are the same 1028 bytes. *)
Theorem placeholder_main_writes_identical_files (w w' : World) :
  PlaceholderModels.main w = (w', Ok ()) ->
  exists data : bytes,
    files w' !! (assets_dir ++ ["pitch_model.tflite"%string]) = Some data /\
    files w' !! (assets_dir ++ ["swar_classifier.tflite"%string]) = Some data /\
    length data = 1028%nat.
Proof.
  unfold PlaceholderModels.main. intros H.
  apply bind_Ok_inv in H as (? & w1 & H1 & H). injection H1 as <- _.
  apply bind_Ok_inv in H as (n1 & w2 & H2 & H).
  apply create_minimal_tflite_model_Ok_inv in H2 as (_ & F2 & _).
  apply bind_Ok_inv in H as (n2 & w3 & H3 & H).
  apply create_minimal_tflite_model_Ok_inv in H3 as (_ & F3 & _).
  apply bind_Ok_inv in H as (? & w4 & H4 & H). injection H4 as <- _.
  injection H as <-. cbn [files] in *.
  exists (header ++ replicate 1024 Byte.x00). rewrite F3, F2.
  split; [|split; [apply lookup_insert_eq | reflexivity]].
  rewrite lookup_insert_ne by discriminate. apply lookup_insert_eq.
Qed.

End Placeholders.

(** ** Ranges of the pitch metrics *)

Section PitchMetricsRanges.
Import Numeric Evaluation.
Local Open Scope R_scope.

Lemma filter_disjoint_length {A} (f g : A -> bool) (l : list A) :
  (forall x, f x = true -> g x = true -> False) ->
  (length (List.filter f l) + length (List.filter g l) <= length l)%nat.
Proof.
  intros Hfg. induction l as [|x l IH]; [reflexivity|].
  cbn. destruct (f x) eqn:Ef, (g x) eqn:Eg; cbn; try lia.
  exfalso. exact (Hfg x Ef Eg).
Qed.

Lemma ratio_in_unit (k n : nat) :
  (k <= n)%nat -> (0 < n)%nat -> 0 <= INR k / INR n <= 1.
Proof.
  intros Hk Hn. apply le_INR in Hk. apply lt_INR in Hn. cbn in Hn.
  pose proof (pos_INR k). split.
  - apply Rmult_le_pos; [lra | left; now apply Rinv_0_lt_compat].
  - apply Rmult_le_reg_r with (INR n); [exact Hn|].
    unfold Rdiv. rewrite Rmult_assoc, Rinv_l by lra. lra.
Qed.

Lemma sumR_cents_diff_nonneg (ps : list Z) (ts : list R) :
  0 <= sumR (cents_diff ps ts).
Proof.
  unfold cents_diff. revert ts. induction ps as [|p ps IH]; intros [|t ts];
    cbn; try lra.
  pose proof (Rabs_pos (IZR p - t)). specialize (IH ts). unfold sumR in IH. lra.
Qed.

(** The metrics of any non-empty sample set are percentages that exclude
    each other, and a non-negative mean. *)
Lemma pitch_metrics_ranges (n : nat) (ps : list Z) (ts : list R) :
  length ps = length ts -> ps <> [] ->
  exists r,
    pitch_metrics n ps ts = Some r /\ test_samples r = n /\
    0 <= rpa_50_cents r <= 100 /\ 0 <= gross_pitch_error r <= 100 /\
    rpa_50_cents r + gross_pitch_error r <= 100 /\ 0 <= mae_cents r.
Proof.
  intros Hlen Hne. rewrite pitch_metrics_Some by assumption.
  eexists. split; [reflexivity|]. split; [reflexivity|].
  cbn [rpa_50_cents gross_pitch_error mae_cents].
  rewrite (sumR_indicator (fun c => c < 50) (fun c => Rlt_dec c 50)).
  rewrite (sumR_indicator (fun c => c > 100) (fun c => Rgt_dec c 100)).
  set (cs := cents_diff ps ts).
  set (k1 := length (List.filter (fun c => if Rlt_dec c 50 then true else false) cs)).
  set (k2 := length (List.filter (fun c => if Rgt_dec c 100 then true else false) cs)).
  assert (Hcs : length cs = length ps) by (apply length_cents_diff; exact Hlen).
  assert (Hpos : (0 < length ps)%nat) by (destruct ps; [congruence | cbn; lia]).
  assert (H12 : (k1 + k2 <= length ps)%nat).
  { rewrite <- Hcs. apply filter_disjoint_length. intros c H1 H2.
    destruct (Rlt_dec c 50); [|discriminate].
    destruct (Rgt_dec c 100); [lra | discriminate]. }
  pose proof (ratio_in_unit k1 (length ps) ltac:(lia) Hpos) as [A1 B1].
  pose proof (ratio_in_unit k2 (length ps) ltac:(lia) Hpos) as [A2 B2].
  pose proof (ratio_in_unit (k1 + k2) (length ps) H12 Hpos) as [_ B3].
  rewrite plus_INR in B3.
  assert (B3' : INR k1 / INR (length ps) + INR k2 / INR (length ps) <= 1).
  { unfold Rdiv in *. lra. }
  repeat split; try lra.
  apply Rmult_le_pos; [apply sumR_cents_diff_nonneg|].
  left. apply Rinv_0_lt_compat. apply lt_INR in Hpos. exact Hpos.
Qed.

(** X13: [evaluate_pitch_model] returns for every model and every true
    pitches, over 100 samples; the raw pitch accuracy and the gross pitch
    error it reports are percentages in [[0, 100]] whose sum is at most 100
    (no sample counts for both), and the mean error is not negative. *)
Theorem evaluate_pitch_model_ranges (predict : nat -> Z) (true_pitch : nat -> R) :
  exists r,
    evaluate_pitch_model predict true_pitch = Some r /\
    test_samples r = 100%nat /\
    0 <= rpa_50_cents r <= 100 /\ 0 <= gross_pitch_error r <= 100 /\
    rpa_50_cents r + gross_pitch_error r <= 100 /\ 0 <= mae_cents r.
Proof.
  unfold evaluate_pitch_model. cbv zeta.
  apply pitch_metrics_ranges.
  - rewrite !length_map. reflexivity.
  - discriminate.
Qed.

End PitchMetricsRanges.

(** ** Sums over the confusion matrix *)

Section ConfusionSums.
Import Numeric Evaluation.
Local Open Scope nat_scope.

Lemma sum_list_fmap_add {A} (f g : A -> nat) (l : list A) :
  sum_list ((fun x => f x + g x) <$> l) = sum_list (f <$> l) + sum_list (g <$> l).
Proof. induction l as [|x l IH]; cbn; [reflexivity | rewrite IH; lia]. Qed.

Lemma sum_list_zero {A} (l : list A) : sum_list ((fun _ => 0) <$> l) = 0.
Proof. induction l as [|x l IH]; [reflexivity | exact IH]. Qed.

(** A sum over [s .. s+k-1] that is non-zero at one index at most. *)
Lemma sum_list_single (f : nat -> nat) (b s k : nat) :
  sum_list ((fun c => if decide (c = b) then f c else 0) <$> seq s k)
  = if decide (s <= b < s + k) then f b else 0.
Proof.
  revert s. induction k as [|k IH]; intros s.
  - cbn. destruct (decide (s <= b < s + 0)); [lia | reflexivity].
  - cbn [seq]. rewrite fmap_cons. cbn [sum_list_with]. rewrite (IH (S s)).
    unfold Datatypes.id.
    destruct (decide (s = b)) as [->|Hne].
    + destruct (decide (S b <= b < S b + k)); [lia|].
      destruct (decide (b <= b < b + S k)); [lia | lia].
    + destruct (decide (S s <= b < S s + k)), (decide (s <= b < s + S k)); lia.
Qed.

Lemma count_pair_cons (a b : nat) (yt yp : list nat) (t p : nat) :
  count_pair (a :: yt) (b :: yp) t p
  = (if decide (p = b) then (if decide (a = t) then 1 else 0) else 0)
    + count_pair yt yp t p.
Proof.
  unfold count_pair. cbn [zip zip_with].
  destruct (decide (p = b)) as [->|Hp].
  - destruct (decide (a = t)) as [->|Ha].
    + rewrite filter_cons_True by reflexivity. reflexivity.
    + rewrite filter_cons_False by congruence. reflexivity.
  - rewrite filter_cons_False by congruence. reflexivity.
Qed.

Lemma count_eq_cons (a : nat) (y : list nat) (c : nat) :
  count_eq c (a :: y) = (if decide (c = a) then 1 else 0) + count_eq c y.
Proof.
  unfold count_eq. destruct (decide (c = a)) as [->|Hne].
  - rewrite filter_cons_True by reflexivity. reflexivity.
  - rewrite filter_cons_False by congruence. reflexivity.
Qed.

(** A row of the matrix sums to the number of samples of its true class. *)
Lemma row_sum (k t : nat) (yt yp : list nat) :
  length yt = length yp -> Forall (fun c => c < k) yp ->
  sum_list (count_pair yt yp t <$> seq 0 k) = count_eq t yt.
Proof.
  revert yp. induction yt as [|a yt IH]; intros [|b yp] Hlen Hk; try discriminate.
  - unfold count_pair, count_eq. cbn [zip zip_with]. apply sum_list_zero.
  - apply Forall_cons in Hk as [Hb Hk]. injection Hlen as Hlen.
    rewrite (list_fmap_ext _ _ _ (fun _ p _ => count_pair_cons a b yt yp t p)).
    rewrite sum_list_fmap_add, (IH yp Hlen Hk), count_eq_cons.
    rewrite (sum_list_single (fun _ => if decide (a = t) then 1 else 0) b 0 k).
    destruct (decide (0 <= b < 0 + k)); [|lia].
    destruct (decide (a = t)), (decide (t = a)); congruence || reflexivity.
Qed.

(** The supports of the classes add up to the number of samples. *)
Lemma support_sum (k : nat) (y : list nat) :
  Forall (fun c => c < k) y ->
  sum_list ((fun t => count_eq t y) <$> seq 0 k) = length y.
Proof.
  induction y as [|a y IH]; intros Hk.
  - unfold count_eq. cbn. apply sum_list_zero.
  - apply Forall_cons in Hk as [Ha Hk].
    rewrite (list_fmap_ext _ _ _ (fun _ t _ => count_eq_cons a y t)).
    rewrite sum_list_fmap_add, (IH Hk).
    rewrite (sum_list_single (fun _ => 1) a 0 k).
    destruct (decide (0 <= a < 0 + k)); [reflexivity | lia].
Qed.

(** The diagonal adds up to the number of samples predicted as they are. *)
Lemma diagonal_sum (k : nat) (yt yp : list nat) :
  Forall (fun c => c < k) yt ->
  sum_list ((fun c => count_pair yt yp c c) <$> seq 0 k)
  = length (filter (fun tp : nat * nat => tp.1 = tp.2) (zip yt yp)).
Proof.
  revert yp. induction yt as [|a yt IH]; intros yp Hk.
  - unfold count_pair. cbn. apply sum_list_zero.
  - apply Forall_cons in Hk as [Ha Hk]. destruct yp as [|b yp].
    + unfold count_pair. cbn. apply sum_list_zero.
    + rewrite (list_fmap_ext _ _ _ (fun _ c _ => count_pair_cons a b yt yp c c)).
      rewrite sum_list_fmap_add, (IH yp Hk). cbn [zip zip_with].
      rewrite (list_fmap_ext
                 (fun c => if decide (c = b) then if decide (a = c) then 1 else 0 else 0)
                 (fun c => if decide (c = a) then if decide (a = b) then 1 else 0 else 0)
                 (seq 0 k)).
      2:{ intros _ c _. destruct (decide (c = b)), (decide (a = c)), (decide (c = a)),
            (decide (a = b)); congruence || reflexivity. }
      rewrite (sum_list_single (fun _ => if decide (a = b) then 1 else 0) a 0 k).
      destruct (decide (0 <= a < 0 + k)); [|lia].
      destruct (decide (a = b)) as [->|Hne].
      * rewrite filter_cons_True by reflexivity. reflexivity.
      * rewrite filter_cons_False by (cbn; congruence). reflexivity.
Qed.

End ConfusionSums.

Section SwarMetricsExtras.
Import Numeric Evaluation.
Local Open Scope R_scope.

Lemma count_pair_le (yt yp : list nat) (c : nat) :
  (count_pair yt yp c c <= count_eq c yt)%nat /\
  (count_pair yt yp c c <= count_eq c yp)%nat.
Proof.
  revert yp. induction yt as [|a yt IH]; intros [|b yp];
    try (unfold count_pair; cbn; split; lia).
  rewrite count_pair_cons, !count_eq_cons. destruct (IH yp) as [H1 H2].
  destruct (decide (c = b)), (decide (a = c)), (decide (c = a)); try congruence; lia.
Qed.

Lemma count_eq_absent (y : list nat) (c : nat) : c ∉ y -> count_eq c y = 0%nat.
Proof.
  intros Hc. unfold count_eq. induction y as [|a y IH]; [reflexivity|].
  apply not_elem_of_cons in Hc as [Hne Hc].
  rewrite filter_cons_False by congruence. apply IH, Hc.
Qed.

Lemma prf_divide_unit (a b : nat) : (a <= b)%nat -> 0 <= prf_divide a b <= 1.
Proof.
  intros Hab. unfold prf_divide. destruct (decide (b = 0%nat)); [lra|].
  apply ratio_in_unit; lia.
Qed.

(** The scores of one class lie in [[0, 1]], and [zero_division=0] makes the
    scores of a class that was never predicted, or never true, zero. *)
Lemma class_report_ranges (yt yp : list nat) (c : nat) :
  let rep := class_report yt yp c in
  0 <= precision rep <= 1 /\ 0 <= recall rep <= 1 /\ 0 <= f1_score rep <= 1 /\
  support rep = count_eq c yt /\
  (c ∉ yp -> precision rep = 0 /\ f1_score rep = 0) /\
  (c ∉ yt -> recall rep = 0 /\ f1_score rep = 0 /\ support rep = 0%nat).
Proof.
  cbv zeta. unfold class_report. cbn [precision recall f1_score support].
  destruct (count_pair_le yt yp c) as [Ht Hp].
  pose proof (prf_divide_unit _ _ Hp) as [P0 P1].
  pose proof (prf_divide_unit _ _ Ht) as [R0 R1].
  set (p := prf_divide (count_pair yt yp c c) (count_eq c yp)) in *.
  set (r := prf_divide (count_pair yt yp c c) (count_eq c yt)) in *.
  assert (F : 0 <= (if Req_dec_T (p + r) 0 then 0 else 2 * p * r / (p + r)) <= 1).
  { destruct (Req_dec_T (p + r) 0) as [E|E]; [lra|].
    assert (Hs : 0 < p + r) by lra. split.
    - apply Rmult_le_pos; [nra | left; now apply Rinv_0_lt_compat].
    - apply Rmult_le_reg_r with (p + r); [exact Hs|].
      unfold Rdiv. rewrite Rmult_assoc, Rinv_l by lra. nra. }
  repeat split; try lra; try reflexivity.
  - subst p. rewrite (count_eq_absent yp c H). unfold prf_divide.
    rewrite decide_True by reflexivity. reflexivity.
  - assert (E : p = 0).
    { subst p. rewrite (count_eq_absent yp c H). unfold prf_divide.
      rewrite decide_True by reflexivity. reflexivity. }
    rewrite E. destruct (Req_dec_T (0 + r) 0); [reflexivity|]. field. lra.
  - subst r. rewrite (count_eq_absent yt c H). unfold prf_divide.
    rewrite decide_True by reflexivity. reflexivity.
  - assert (E : r = 0).
    { subst r. rewrite (count_eq_absent yt c H). unfold prf_divide.
      rewrite decide_True by reflexivity. reflexivity. }
    rewrite E. destruct (Req_dec_T (p + 0) 0); [reflexivity|]. field. lra.
  - apply count_eq_absent. exact H.
Qed.

Lemma sumR_matches (ps ts : list nat) :
  sumR (zip_with (fun p t => indicator (p = t) (decide (p = t))) ps ts)
  = INR (length (filter (fun tp : nat * nat => tp.1 = tp.2) (zip ts ps))).
Proof.
  revert ts. induction ps as [|p ps IH]; intros [|t ts]; try reflexivity.
  cbn [zip_with zip sumR foldr].
  fold (sumR (zip_with (fun p t => indicator (p = t) (decide (p = t))) ps ts)).
  rewrite IH. unfold indicator. destruct (decide (p = t)) as [->|Hne].
  - rewrite filter_cons_True by reflexivity. cbn [length]. rewrite S_INR. lra.
  - rewrite filter_cons_False by (cbn; congruence). lra.
Qed.

Lemma trace_grid (f : nat -> nat -> nat) (k : nat) :
  trace ((fun t => (fun p => f t p) <$> seq 0 k) <$> seq 0 k)
  = sum_list ((fun c => f c c) <$> seq 0 k).
Proof.
  unfold trace. rewrite length_fmap, length_seq. f_equal.
  apply list_fmap_ext. intros i c Hc. apply lookup_seq in Hc as [-> Hlt].
  cbn [Nat.add]. rewrite (grid_lookup f k _ _ Hlt Hlt). reflexivity.
Qed.

(** X14: when the evaluation returns, every row of the confusion matrix sums
    to the number of samples of its true class, which is the support the
    report gives under the class's name; all entries sum to the number of
    samples; and top-1 accuracy is the share of the diagonal: accuracy times
    the number of samples is 100 times the trace. *)
Theorem confusion_matrix_sums (n : nat) (predictions ground_truth : list nat) :
  length predictions = length ground_truth ->
  (forall c, c ∈ ground_truth ++ predictions -> (c < 12)%nat) ->
  (forall c, (c < 12)%nat -> c ∈ ground_truth ++ predictions) ->
  exists r,
    swar_metrics n predictions ground_truth = Some r /\
    (forall t row, confusion r !! t = Some row ->
       sum_list row = count_eq t ground_truth) /\
    (forall t row name, confusion r !! t = Some row ->
       swar_classes !! t = Some name ->
       exists rep, (name, rep) ∈ report r /\ support rep = sum_list row) /\
    sum_list (sum_list <$> confusion r) = length ground_truth /\
    top1_accuracy r * INR (length ground_truth) = 100 * INR (trace (confusion r)).
Proof.
  intros Hlen Hlt Hall.
  assert (Hp12 : Forall (fun c => (c < 12)%nat) predictions).
  { apply Forall_forall. intros c Hc. apply Hlt, elem_of_app. auto. }
  assert (Hg12 : Forall (fun c => (c < 12)%nat) ground_truth).
  { apply Forall_forall. intros c Hc. apply Hlt, elem_of_app. auto. }
  assert (Hrow : forall t row,
            ((fun t => (fun p => count_pair ground_truth predictions t p)
                         <$> seq 0 12) <$> seq 0 12) !! t = Some row ->
            sum_list row = count_eq t ground_truth).
  { intros t row H. apply list_lookup_fmap_Some in H as (t' & -> & Ht').
    apply lookup_seq in Ht' as [-> _].
    apply (row_sum 12 t ground_truth predictions); [congruence | exact Hp12]. }
  assert (Hne : INR (length ground_truth) <> 0).
  { apply not_0_INR. pose proof (Hall 0%nat ltac:(lia)) as H0.
    destruct ground_truth; [|discriminate].
    destruct predictions; [inversion H0 | discriminate]. }
  rewrite swar_metrics_full; [|exact Hlen|intros c; split; auto].
  eexists. split; [reflexivity|]. cbn [confusion report top1_accuracy].
  split; [exact Hrow|]. split; [|split].
  - intros t row name Hr Hname. exists (class_report ground_truth predictions t).
    assert (Ht : (t < 12)%nat).
    { apply lookup_lt_Some in Hname. exact Hname. }
    split.
    + apply (list_elem_of_lookup_2 _ t). apply lookup_zip_with_Some.
      exists name, (class_report ground_truth predictions t).
      split; [reflexivity|]. split; [exact Hname|].
      rewrite list_lookup_fmap, (proj2 (lookup_seq 0 12 t t)) by lia. reflexivity.
    + rewrite (Hrow t row Hr). reflexivity.
  - rewrite <- list_fmap_compose.
    rewrite (list_fmap_ext _ (fun t => count_eq t ground_truth) (seq 0 12)).
    + apply support_sum. exact Hg12.
    + intros i t Ht. apply lookup_seq in Ht as [E Ht]. cbn in E. subst t.
      cbn [compose].
      apply (row_sum 12 i ground_truth predictions); [congruence | exact Hp12].
  - rewrite (trace_grid (count_pair ground_truth predictions) 12).
    rewrite (diagonal_sum 12 ground_truth predictions Hg12).
    rewrite sumR_matches, Hlen. field. exact Hne.
Qed.

(** X14 on true classes 0 .. 11 all predicted as class 0. *)
Lemma confusion_matrix_sums_witness :
  exists r,
    swar_metrics 12 (replicate 12 0%nat) (seq 0 12) = Some r /\
    (forall t row, confusion r !! t = Some row ->
       sum_list row = count_eq t (seq 0 12)) /\
    (forall t row name, confusion r !! t = Some row ->
       swar_classes !! t = Some name ->
       exists rep, (name, rep) ∈ report r /\ support rep = sum_list row) /\
    sum_list (sum_list <$> confusion r) = length (seq 0 12) /\
    top1_accuracy r * INR (length (seq 0 12)) = 100 * INR (trace (confusion r)).
Proof.
  apply (confusion_matrix_sums 12 (replicate 12 0%nat) (seq 0 12)).
  - reflexivity.
  - assert (H : Forall (fun c => (c < 12)%nat) (seq 0 12 ++ replicate 12 0%nat)).
    { apply (bool_decide_unpack _). vm_compute. reflexivity. }
    intros c Hc. rewrite Forall_forall in H. apply H. exact Hc.
  - intros c Hc. apply elem_of_app. left. apply elem_of_seq. lia.
Defined.

End SwarMetricsExtras.

Section SwarReportExtras.
Import Numeric Evaluation.
Local Open Scope R_scope.

(** X15: in the report of an evaluation that returns, every class has a row
    under its name whose precision, recall and F1 score lie in [[0, 1]];
    a class that is never predicted has precision 0 and F1 score 0, and a
    class that never occurs in the ground truth has recall 0, F1 score 0 and
    support 0: the division by zero is answered by 0, not by an error. *)
Theorem report_scores_in_unit_interval
    (n : nat) (predictions ground_truth : list nat) :
  length predictions = length ground_truth ->
  (forall c, c ∈ ground_truth ++ predictions -> (c < 12)%nat) ->
  (forall c, (c < 12)%nat -> c ∈ ground_truth ++ predictions) ->
  exists r,
    swar_metrics n predictions ground_truth = Some r /\
    forall c name, swar_classes !! c = Some name ->
      exists rep,
        (name, rep) ∈ report r /\
        f1_of (report r) c = Some (f1_score rep) /\
        0 <= precision rep <= 1 /\ 0 <= recall rep <= 1 /\
        0 <= f1_score rep <= 1 /\
        (c ∉ predictions -> precision rep = 0 /\ f1_score rep = 0) /\
        (c ∉ ground_truth ->
           recall rep = 0 /\ f1_score rep = 0 /\ support rep = 0%nat).
Proof.
  intros Hlen Hlt Hall.
  rewrite swar_metrics_full; [|exact Hlen|intros c; split; auto].
  eexists. split; [reflexivity|]. cbn [report].
  intros c name Hname.
  assert (Hc : (c < 12)%nat) by (apply lookup_lt_Some in Hname; exact Hname).
  exists (class_report ground_truth predictions c).
  pose proof (class_report_ranges ground_truth predictions c)
    as (P & R & F & _ & Zp & Zt).
  split; [|split; [apply (f1_of_report _ c Hc)|]].
  - apply (list_elem_of_lookup_2 _ c). apply lookup_zip_with_Some.
    exists name, (class_report ground_truth predictions c).
    split; [reflexivity|]. split; [exact Hname|].
    rewrite list_lookup_fmap, (proj2 (lookup_seq 0 12 c c)) by lia. reflexivity.
  - repeat split; try apply P; try apply R; try apply F;
      try (apply Zp; assumption); try (apply Zt; assumption).
Qed.

(** X15 on true classes 0 .. 11 all predicted as class 0. *)
Lemma report_scores_in_unit_interval_witness :
  exists r,
    swar_metrics 12 (replicate 12 0%nat) (seq 0 12) = Some r /\
    forall c name, swar_classes !! c = Some name ->
      exists rep,
        (name, rep) ∈ report r /\
        f1_of (report r) c = Some (f1_score rep) /\
        0 <= precision rep <= 1 /\ 0 <= recall rep <= 1 /\
        0 <= f1_score rep <= 1 /\
        (c ∉ replicate 12 0%nat -> precision rep = 0 /\ f1_score rep = 0) /\
        (c ∉ seq 0 12 ->
           recall rep = 0 /\ f1_score rep = 0 /\ support rep = 0%nat).
Proof.
  apply (report_scores_in_unit_interval 12 (replicate 12 0%nat) (seq 0 12)).
  - reflexivity.
  - assert (H : Forall (fun c => (c < 12)%nat) (seq 0 12 ++ replicate 12 0%nat)).
    { apply (bool_decide_unpack _). vm_compute. reflexivity. }
    intros c Hc. rewrite Forall_forall in H. apply H. exact Hc.
  - intros c Hc. apply elem_of_app. left. apply elem_of_seq. lia.
Defined.

Lemma placeholder_ground_truth :
  (forall c, c ∈ (fun i => i mod 12)%nat <$> seq 0 120 <-> (c < 12)%nat) /\
  (forall c, (c < 12)%nat ->
     count_eq c (map (fun i => i mod 12)%nat (seq 0 120)) = 10%nat).
Proof.
  split.
  - intros c. rewrite list_elem_of_fmap. split.
    + intros (i & -> & _). apply Nat.mod_upper_bound. lia.
    + intros Hc. exists c. split; [symmetry; apply Nat.mod_small; exact Hc|].
      apply elem_of_seq. lia.
  - intros c Hc.
    do 12 (destruct c as [|c]; [vm_compute; reflexivity|]). lia.
Qed.

(** X16: the placeholder test set of [evaluate_swar_classifier] is balanced.
    Whatever the model predicts within the 12 classes, the evaluation
    returns over 120 samples, every row of the confusion matrix sums to 10,
    and top-1 accuracy lies in [[0, 100]]. *)
Theorem evaluate_swar_classifier_balanced (predict : nat -> nat) :
  (forall i, (predict i < 12)%nat) ->
  exists r,
    evaluate_swar_classifier predict = Some r /\
    swar_test_samples r = 120%nat /\
    length (confusion r) = 12%nat /\
    (forall row, row ∈ confusion r -> length row = 12%nat /\ sum_list row = 10%nat) /\
    0 <= top1_accuracy r <= 100.
Proof.
  intros Hp. destruct placeholder_ground_truth as [Hgt H10].
  unfold evaluate_swar_classifier. cbv zeta.
  set (preds := map predict (seq 0 120)).
  set (gt := map (fun i => i mod 12)%nat (seq 0 120)).
  assert (Hlen : length preds = length gt).
  { unfold preds, gt. rewrite !length_map. reflexivity. }
  assert (Hp12 : Forall (fun c => (c < 12)%nat) preds).
  { apply Forall_forall. intros c Hc.
    apply list_elem_of_In, in_map_iff in Hc as (i & <- & _). apply Hp. }
  assert (Hall : forall c, c ∈ gt ++ preds <-> (c < 12)%nat).
  { intros c. rewrite elem_of_app. split.
    - intros [Hc|Hc]; [apply Hgt; exact Hc|].
      rewrite Forall_forall in Hp12. apply Hp12, Hc.
    - intros Hc. left. apply Hgt. exact Hc. }
  rewrite swar_metrics_full by assumption.
  eexists. split; [reflexivity|].
  cbn [swar_test_samples confusion top1_accuracy].
  split; [reflexivity|]. split; [rewrite length_fmap; reflexivity|]. split.
  - intros row Hrow. apply list_elem_of_fmap in Hrow as (t & -> & Ht).
    apply elem_of_seq in Ht. split; [rewrite length_fmap; reflexivity|].
    etransitivity; [|apply (H10 t); lia].
    apply (row_sum 12 t gt preds); [congruence | exact Hp12].
  - rewrite sumR_matches.
    assert (Hk : (length (filter (fun tp : nat * nat => tp.1 = tp.2) (zip gt preds))
                  <= length preds)%nat).
    { etransitivity; [apply length_filter|]. rewrite length_zip_with. lia. }
    assert (Hpos : (0 < length preds)%nat).
    { unfold preds. rewrite length_map. cbn. lia. }
    pose proof (ratio_in_unit _ _ Hk Hpos). lra.
Qed.

Lemma evaluate_swar_classifier_balanced_witness :
  exists r,
    evaluate_swar_classifier (fun i => i mod 3)%nat = Some r /\
    swar_test_samples r = 120%nat /\
    length (confusion r) = 12%nat /\
    (forall row, row ∈ confusion r -> length row = 12%nat /\ sum_list row = 10%nat) /\
    0 <= top1_accuracy r <= 100.
Proof.
  apply (evaluate_swar_classifier_balanced (fun i => i mod 3)%nat).
  intros i. pose proof (Nat.mod_upper_bound i 3). lia.
Defined.

(** More classes than target names: the report raises. *)
Lemma swar_metrics_thirteen_classes (n : nat) (predictions ground_truth : list nat)
    (x : nat) :
  length predictions = length ground_truth ->
  (forall c, (c < 12)%nat -> c ∈ ground_truth) ->
  x ∈ predictions -> (12 <= x)%nat ->
  swar_metrics n predictions ground_truth = None.
Proof.
  intros Hlen Hgt Hx Hbig. unfold swar_metrics.
  rewrite decide_True by exact Hlen.
  destruct (np_mean _); [|reflexivity]. cbn [mbind option_bind].
  assert (Hrep : classification_report ground_truth predictions swar_classes = None).
  { unfold classification_report.
    rewrite decide_False; [reflexivity|].
    rewrite length_swar_classes. unfold unique_labels.
    rewrite (Permutation_length (merge_sort_Permutation _ _)).
    assert (Hsub : seq 0 12 ++ [x] ⊆+ remove_dups (ground_truth ++ predictions)).
    { apply NoDup_submseteq.
      - apply NoDup_app. split; [apply NoDup_seq|]. split; [|apply NoDup_singleton].
        intros y Hy Hy'. apply elem_of_seq in Hy.
        apply list_elem_of_singleton in Hy'. lia.
      - intros y Hy. apply elem_of_remove_dups, elem_of_app.
        apply elem_of_app in Hy as [Hy | Hy].
        + left. apply Hgt. apply elem_of_seq in Hy. lia.
        + right. apply list_elem_of_singleton in Hy as ->. exact Hx. }
    apply submseteq_length in Hsub.
    rewrite length_app, length_seq in Hsub. cbn [length] in Hsub. lia. }
  rewrite Hrep. reflexivity.
Qed.

(** X17: a model that answers a class index of 12 or more on any of the 120
    samples makes [evaluate_swar_classifier] raise: 13 classes do not match
    the 12 target names. *)
Theorem evaluate_swar_classifier_rejects_thirteenth_class (predict : nat -> nat) :
  (exists i, (i < 120)%nat /\ (12 <= predict i)%nat) ->
  evaluate_swar_classifier predict = None.
Proof.
  intros (i & Hi & Hbig). destruct placeholder_ground_truth as [Hgt _].
  unfold evaluate_swar_classifier. cbv zeta.
  apply (swar_metrics_thirteen_classes _ _ _ (predict i)).
  - rewrite !length_map. reflexivity.
  - intros c Hc. apply Hgt. exact Hc.
  - apply list_elem_of_In, in_map, in_seq. lia.
  - exact Hbig.
Qed.

Lemma evaluate_swar_classifier_rejects_thirteenth_class_witness :
  evaluate_swar_classifier (fun _ => 12%nat) = None.
Proof.
  apply (evaluate_swar_classifier_rejects_thirteenth_class (fun _ => 12%nat)).
  exists 0%nat. split; lia.
Defined.

End SwarReportExtras.

(** ** Further properties of the converter *)

Section ConverterExtras.
Import TFLiteConverter ConverterExample.
Local Open Scope R_scope.
Context {Model : Type} (tf : Libraries Model).

Lemma bind_ext {A B} (m : M A) (f g : A -> M B) (w : World) :
  (forall a w1, f a w1 = g a w1) -> (m ≫= f) w = (m ≫= g) w.
Proof.
  intros H. unfold mbind, M_bind. destruct (m w) as [w1 [a|e]]; [apply H | reflexivity].
Qed.

Lemma configure_unknown_mode (optimize : bool) (s : string)
    (c : Converter Model) (w : World) :
  s <> "int8"%string -> s <> "float16"%string ->
  configure optimize (Some s) c w = configure optimize None c w.
Proof.
  intros H8 H16. unfold configure.
  apply bind_ext. intros c' w1.
  rewrite !decide_False by congruence. reflexivity.
Qed.

(** X18: a quantization mode other than ['int8'] and ['float16'] is ignored
    without a word: the conversion does exactly what it does with no
    quantization.  The comparison is by string equality, so ['INT8'] is such
    a mode. *)
Theorem unknown_quantization_is_ignored (model_path output_path : path)
    (optimize : bool) (s : string) (w : World) :
  s <> "int8"%string -> s <> "float16"%string ->
  convert_to_tflite tf model_path output_path optimize (Some s) w
  = convert_to_tflite tf model_path output_path optimize None w.
Proof.
  intros H8 H16. unfold convert_to_tflite.
  apply bind_ext. intros _ w1. apply bind_ext. intros h5 w2.
  apply bind_ext. intros m w3.
  unfold mbind at 1 3, M_bind at 1 3.
  rewrite (configure_unknown_mode optimize s _ w3 H8 H16). reflexivity.
Qed.

(** The converter a returning conversion has handed to the library. *)
Lemma convert_to_tflite_converter_used (model_path output_path : path)
    (optimize : bool) (quantize : option string) (w w' : World) (art : bytes) :
  convert_to_tflite tf model_path output_path optimize quantize w = (w', Ok art) ->
  exists h5 m c w1 w2,
    files w !! model_path = Some h5 /\ load_model tf h5 = Some m /\
    configure optimize quantize (from_keras_model tf m) w1 = (w2, Ok c) /\
    convert tf c = Some art.
Proof.
  unfold convert_to_tflite. intros H.
  apply bind_Ok_inv in H as (? & w1 & H1 & H). injection H1 as <- _.
  cbn [files dirs stdout invocations] in H.
  apply bind_Ok_inv in H as (h5 & w2 & H2 & H).
  unfold read_bytes in H2. cbn [files] in H2.
  destruct (files w !! model_path) as [h5_|] eqn:Hfile; [|discriminate].
  injection H2 as <- <-.
  apply bind_Ok_inv in H as (m & w3 & H3 & H).
  apply lift_Ok_inv in H3 as [Hload ->].
  apply bind_Ok_inv in H as (c & w4 & H4 & H).
  apply bind_Ok_inv in H as (? & w5 & H5 & H). injection H5 as <- _.
  apply bind_Ok_inv in H as (art' & w6 & H6 & H).
  apply lift_Ok_inv in H6 as [Hconv ->].
  assert (art' = art) as ->.
  { apply bind_Ok_inv in H as (? & w7 & _ & H).
    apply bind_Ok_inv in H as (? & w8 & _ & H).
    apply bind_Ok_inv in H as (? & w9 & _ & H).
    apply bind_Ok_inv in H as (? & w10 & _ & H).
    apply bind_Ok_inv in H as (? & w11 & _ & H).
    apply bind_Ok_inv in H as (? & w12 & _ & H).
    apply bind_Ok_inv in H as (? & w13 & _ & H).
    apply bind_Ok_inv in H as (? & w14 & _ & H).
    apply bind_Ok_inv in H as (? & w15 & _ & H).
    injection H as _ ->. reflexivity. }
  eauto 10.
Qed.

(** X19: under ['float16'] the artifact of a returning conversion comes from
    a converter whose supported types are [[float16]] and whose supported
    operations and input and output tensor types are those the library's
    converter started with; the optimizations are [[DEFAULT]] when [optimize]
    is set and untouched otherwise. *)
Theorem float16_narrows_supported_types_only (model_path output_path : path)
    (optimize : bool) (w : World) :
  let run := convert_to_tflite tf model_path output_path optimize
               (Some "float16"%string) w in
  forall art, run.2 = Ok art ->
    exists m c,
      convert tf c = Some art /\
      supported_types c = [float16] /\
      supported_ops c = supported_ops (from_keras_model tf m) /\
      inference_input_type c = inference_input_type (from_keras_model tf m) /\
      inference_output_type c = inference_output_type (from_keras_model tf m) /\
      optimizations c = (if optimize then [DEFAULT]
                         else optimizations (from_keras_model tf m)).
Proof.
  intros run art Hr. destruct run as [w' r] eqn:E. subst run. cbn in Hr. subst r.
  apply convert_to_tflite_converter_used in E
    as (h5 & m & c & w1 & w2 & _ & _ & Hconf & Hconv).
  exists m, c. split; [exact Hconv|].
  destruct optimize; cbn in Hconf; injection Hconf as _ <-; repeat split.
Qed.

(** X20: a conversion that returns has changed one file only, the one at
    the output path, which now holds the returned artifact.  When the output
    path is the model path the model file itself is replaced before its size
    is read, and the compression figure printed is 0. *)
Theorem conversion_writes_output_path_only (model_path output_path : path)
    (optimize : bool) (quantize : option string) (w : World) :
  let run := convert_to_tflite tf model_path output_path optimize quantize w in
  forall art, run.2 = Ok art ->
    files run.1 !! output_path = Some art /\
    (forall p, p <> output_path -> files run.1 !! p = files w !! p) /\
    dirs w ⊆ dirs run.1 /\
    (model_path = output_path ->
       LineNum "  Compression (%): " 0 ∈ stdout run.1).
Proof.
  intros run art Hr. destruct run as [w' r] eqn:E. subst run. cbn in Hr. subst r.
  cbn [fst].
  assert (Hdirs : dirs w ⊆ dirs w').
  { clear -E. unfold convert_to_tflite in E.
    apply bind_Ok_inv in E as (? & w1 & H1 & H). injection H1 as <- _.
    cbn [files dirs stdout invocations] in H.
    apply bind_Ok_inv in H as (h5 & w2 & H2 & H).
    apply read_only_read_bytes in H2 as (_ & D2 & _). cbn [dirs] in D2.
    apply bind_Ok_inv in H as (m & w3 & H3 & H).
    apply lift_Ok_inv in H3 as [_ ->].
    apply bind_Ok_inv in H as (c & w4 & H4 & H).
    apply configure_spec in H4 as (_ & D4 & _).
    apply bind_Ok_inv in H as (? & w5 & H5 & H). injection H5 as <- _.
    cbn [files dirs stdout invocations] in H.
    apply bind_Ok_inv in H as (art' & w6 & H6 & H).
    apply lift_Ok_inv in H6 as [_ ->].
    apply bind_Ok_inv in H as (? & w7 & H7 & H).
    unfold mkdir_parents in H7. destruct (decide _) in H7; [discriminate|].
    injection H7 as <- _. cbn [files dirs stdout invocations] in H.
    apply bind_Ok_inv in H as (? & w8 & H8 & H).
    unfold write_bytes in H8. cbn [files dirs] in H8.
    destruct (decide _) in H8; [discriminate|].
    destruct (decide _) in H8; [|discriminate].
    injection H8 as <- _.
    apply bind_Ok_inv in H as (sz & w9 & H9 & H).
    apply read_only_stat_size in H9 as (_ & D9 & _). cbn [dirs] in D9.
    apply bind_Ok_inv in H as (ratio & w10 & H10 & H).
    apply lift_Ok_inv in H10 as [_ ->].
    apply bind_Ok_inv in H as (? & w11 & H11 & H). injection H11 as <- _.
    apply bind_Ok_inv in H as (? & w12 & H12 & H). injection H12 as <- _.
    apply bind_Ok_inv in H as (? & w13 & H13 & H). injection H13 as <- _.
    apply bind_Ok_inv in H as (? & w14 & H14 & H). injection H14 as <- _.
    apply bind_Ok_inv in H as (? & w15 & H15 & H). injection H15 as <- _.
    injection H as <- _. cbn [dirs]. rewrite D9. cbn [dirs].
    rewrite D4, D2. apply union_subseteq_l. }
  apply convert_to_tflite_Ok_inv in E
    as (h5 & m & c & h5' & _ & _ & _ & _ & _ & _ & Hfiles & Hmp & Hpos & Hline).
  split; [rewrite Hfiles; apply lookup_insert_eq|].
  split; [intros p Hp; rewrite Hfiles; apply lookup_insert_ne; congruence|].
  split; [exact Hdirs|].
  intros ->. rewrite Hfiles, lookup_insert_eq in Hmp. injection Hmp as <-.
  replace 0 with ((1 - IZR (Z.of_nat (length art)) / IZR (Z.of_nat (length art))) * 100);
    [exact Hline|].
  apply IZR_lt in Hpos. field. lra.
Qed.

(** X21: a conversion that raises has left every file as it was, with one
    exception: the division by an original size of zero comes after the
    artifact was stored, so that [ZeroDivisionError] leaves the artifact at
    the output path. *)
Theorem conversion_failure_leaves_files_or_divides_by_zero
    (model_path output_path : path) (optimize : bool) (quantize : option string)
    (w : World) :
  let run := convert_to_tflite tf model_path output_path optimize quantize w in
  forall e, run.2 = Raise e ->
    (files run.1 = files w /\ e <> ZeroDivisionError) \/
    (e = ZeroDivisionError /\
     exists art, files run.1 = <[output_path := art]> (files w) /\
                 exists h5, files run.1 !! model_path = Some h5 /\ h5 = []).
Proof.
  intros run e Hr. destruct run as [w' r] eqn:E. subst run. cbn in Hr. subst r.
  cbn [fst]. unfold convert_to_tflite in E.
  apply bind_inv in E as [(e' & H & _) | (? & w1 & H1 & H)]; [discriminate|].
  injection H1 as <- _. cbn [files dirs stdout invocations] in H.
  apply bind_inv in H as [(e' & H & He) | (h5 & w2 & H2 & H)].
  { injection He as <-. unfold read_bytes in H. cbn [files dirs] in H.
    destruct (files w !! model_path); [discriminate|].
    injection H as <- <-. left. split; [reflexivity|]. destruct (decide _); discriminate. }
  unfold read_bytes in H2. cbn [files] in H2.
  destruct (files w !! model_path) as [h5_|] eqn:Hfile; [|discriminate].
  injection H2 as <- <-.
  apply bind_inv in H as [(e' & H & He) | (m & w3 & H3 & H)].
  { injection He as <-. destruct (load_model tf h5_); [discriminate|].
    injection H as <- <-. left. split; [reflexivity | discriminate]. }
  apply lift_Ok_inv in H3 as [_ ->].
  apply bind_inv in H as [(e' & H & _) | (c & w4 & H4 & H)].
  { apply configure_spec in H as (_ & _ & _ & c' & Hc & _). discriminate. }
  apply configure_spec in H4 as (F4 & _ & _). cbn [files] in F4.
  apply bind_inv in H as [(e' & H & _) | (? & w5 & H5 & H)]; [discriminate|].
  injection H5 as <- _. cbn [files dirs stdout invocations] in H.
  apply bind_inv in H as [(e' & H & He) | (art & w6 & H6 & H)].
  { injection He as <-. destruct (convert tf c); [discriminate|].
    injection H as <- <-. left. split; [exact F4 | discriminate]. }
  apply lift_Ok_inv in H6 as [_ ->].
  apply bind_inv in H as [(e' & H & He) | (? & w7 & H7 & H)].
  { injection He as <-. unfold mkdir_parents in H.
    destruct (decide _) in H; [|discriminate].
    injection H as <- <-. left. split; [exact F4 | discriminate]. }
  unfold mkdir_parents in H7. destruct (decide _) in H7; [discriminate|].
  injection H7 as <- _. cbn [files dirs stdout invocations] in H.
  apply bind_inv in H as [(e' & H & He) | (? & w8 & H8 & H)].
  { injection He as <-. unfold write_bytes in H. cbn [files dirs] in H.
    destruct (decide _) in H.
    - injection H as <- <-. left. split; [exact F4 | discriminate].
    - destruct (decide _) in H; [discriminate|].
      injection H as <- <-. left. split; [exact F4 | discriminate]. }
  unfold write_bytes in H8. cbn [files dirs] in H8.
  destruct (decide _) in H8; [discriminate|].
  destruct (decide _) in H8; [|discriminate].
  injection H8 as <- _. cbn [files dirs stdout invocations] in H.
  assert (Hstat : exists h5', <[output_path:=art]> (files w4) !! model_path = Some h5').
  { destruct (decide (output_path = model_path)) as [->|Hne].
    - rewrite lookup_insert_eq. eauto.
    - rewrite lookup_insert_ne by exact Hne. rewrite F4, Hfile. eauto. }
  destruct Hstat as [h5' Hstat].
  apply bind_inv in H as [(e' & H & He) | (sz & w9 & H9 & H)].
  { unfold stat_size in H. cbn [files] in H. rewrite Hstat in H. discriminate. }
  unfold stat_size in H9. cbn [files] in H9. rewrite Hstat in H9.
  injection H9 as <- <-.
  apply bind_inv in H as [(e' & H & He) | (ratio & w10 & H10 & H)].
  { injection He as <-.
    destruct (compression_ratio (Z.of_nat (length h5')) (Z.of_nat (length art)))
      as [ratio0|] eqn:Hratio; [discriminate|].
    injection H as <- <-. cbn [files]. right. split; [reflexivity|].
    exists art. rewrite F4. split; [reflexivity|].
    exists h5'. rewrite <- F4. split; [exact Hstat|].
    destruct h5' as [|b h5']; [reflexivity|].
    rewrite compression_ratio_pos in Hratio by (cbn [length]; lia). discriminate. }
  apply bind_inv in H as [(e' & H & _) | (? & w11 & H11 & H)]; [discriminate|].
  injection H11 as <- _.
  apply bind_inv in H as [(e' & H & _) | (? & w12 & H12 & H)]; [discriminate|].
  injection H12 as <- _.
  apply bind_inv in H as [(e' & H & _) | (? & w13 & H13 & H)]; [discriminate|].
  injection H13 as <- _.
  apply bind_inv in H as [(e' & H & _) | (? & w14 & H14 & H)]; [discriminate|].
  injection H14 as <- _.
  apply bind_inv in H as [(e' & H & _) | (? & w15 & H15 & H)]; [discriminate|].
  discriminate.
Qed.

End ConverterExtras.

Section ConverterExtrasWitnesses.
Import TFLiteConverter ConverterExample.
Local Open Scope R_scope.

(** X18 at the mode ['INT8'] on the example library and world. *)
Lemma unknown_quantization_is_ignored_witness :
  convert_to_tflite tf0 ["model.h5"%string] ["out"%string; "model.tflite"%string]
    true (Some "INT8"%string) w0
  = convert_to_tflite tf0 ["model.h5"%string] ["out"%string; "model.tflite"%string]
      true None w0.
Proof.
  apply (unknown_quantization_is_ignored tf0); discriminate.
Defined.

End ConverterExtrasWitnesses.

Section InferenceTestExtras.
Import TFLiteConverter ConverterExample.
Local Open Scope R_scope.

Lemma keeps_files_read_only {A} (m : M A) : read_only m -> keeps_files m.
Proof. intros H w w' r E. destruct (H w w' r E) as (F & D & _). auto. Qed.

Lemma keeps_files_log_invoke (art : bytes) (x : NDArray) :
  keeps_files (log_invoke art x).
Proof. intros w w' r H. injection H as <- _. auto. Qed.

Lemma keeps_files_bind {A B} (m : M A) (f : A -> M B) :
  keeps_files m -> (forall a, keeps_files (f a)) -> keeps_files (m ≫= f).
Proof.
  intros Hm Hf w w' r H. apply bind_inv in H as [(e & H & ->) | (a & w1 & H1 & H2)].
  - apply (Hm _ _ _ H).
  - destruct (Hm _ _ _ H1) as (E1 & E2). destruct (Hf a _ _ _ H2) as (E3 & E4).
    split; congruence.
Qed.

Lemma logs_at_most_read_only {A} (m : M A) : read_only m -> logs_at_most 0 m.
Proof.
  intros H w w' r E. destruct (H w w' r E) as (_ & _ & I).
  exists []. rewrite app_nil_r. auto.
Qed.

Lemma logs_at_most_log_invoke (art : bytes) (x : NDArray) :
  logs_at_most 1 (log_invoke art x).
Proof. intros w w' r H. injection H as <- _. exists [(art, x)]. auto. Qed.

Lemma logs_at_most_bind {A B} (j k : nat) (m : M A) (f : A -> M B) :
  logs_at_most j m -> (forall a, logs_at_most k (f a)) ->
  logs_at_most (j + k) (m ≫= f).
Proof.
  intros Hm Hf w w' r H. apply bind_inv in H as [(e & H & ->) | (a & w1 & H1 & H2)].
  - destruct (Hm _ _ _ H) as (ex & E & L). exists ex. split; [exact E | lia].
  - destruct (Hm _ _ _ H1) as (ex1 & E1 & L1).
    destruct (Hf a _ _ _ H2) as (ex2 & E2 & L2).
    exists (ex1 ++ ex2). rewrite length_app, E2, E1, app_assoc. split; [reflexivity | lia].
Qed.

Lemma read_only_set_tensor (d : TensorDetails) (x : NDArray) :
  read_only (set_tensor d x).
Proof.
  unfold set_tensor. destruct (decide _); [apply read_only_ret | apply read_only_raise].
Qed.

Lemma read_only_index0 {A} (xs : list A) : read_only (index0 xs).
Proof. apply read_only_lift. Qed.

Ltac read_only_step :=
  first [ apply read_only_print | apply read_only_read_bytes | apply read_only_lift
        | apply read_only_index0 | apply read_only_set_tensor
        | apply read_only_ret | apply read_only_raise ].

(** X22: [test_tflite_model] leaves files and directories as they are and
    runs at most one inference, whether it returns or raises and whether a
    test input is supplied or not. *)
Theorem test_tflite_model_reads_only {Model : Type} (tf : Libraries Model)
    (tflite_path : path) (test_input : option NDArray) (w : World) :
  let run := test_tflite_model tf tflite_path test_input w in
  files run.1 = files w /\ dirs run.1 = dirs w /\
  exists extra,
    invocations run.1 = invocations w ++ extra /\ (length extra <= 1)%nat.
Proof.
  intros run. destruct run as [w' r] eqn:H. subst run. cbn [fst].
  assert (Hk : keeps_files (test_tflite_model tf tflite_path test_input)).
  { unfold test_tflite_model.
    repeat first
      [ apply keeps_files_read_only; read_only_step
      | apply keeps_files_log_invoke
      | apply keeps_files_bind; [|intros ?]
      | match goal with
        | |- keeps_files (match ?x with _ => _ end) => destruct x
        end ]. }
  assert (Hl : logs_at_most 1 (test_tflite_model tf tflite_path test_input)).
  { unfold test_tflite_model.
    do 11 (apply (logs_at_most_bind 0 1);
           [apply logs_at_most_read_only; read_only_step | intros ?]).
    apply (logs_at_most_bind 1 0); [apply logs_at_most_log_invoke | intros ?].
    repeat first
      [ apply logs_at_most_read_only; read_only_step
      | apply (logs_at_most_bind 0 0); [|intros ?]
      | match goal with
        | |- logs_at_most _ (match ?x with _ => _ end) => destruct x
        end ]. }
  destruct (Hk _ _ _ H) as [F D]. destruct (Hl _ _ _ H) as (extra & E & L).
  split; [exact F|]. split; [exact D|]. exists extra. auto.
Qed.



End InferenceTestExtras.

Section MoreWitnesses.
Import TFLiteConverter ConverterExample.
Local Open Scope R_scope.

(** X19 on the example library and world. *)
Lemma float16_narrows_supported_types_only_witness :
  exists w',
    convert_to_tflite tf0 ["model.h5"%string] ["out"%string; "model.tflite"%string]
      true (Some "float16"%string) w0 = (w', Ok artifact) /\
    exists (m : unit) c,
      convert tf0 c = Some artifact /\
      supported_types c = [float16] /\
      supported_ops c = supported_ops (from_keras_model tf0 m) /\
      inference_input_type c = inference_input_type (from_keras_model tf0 m) /\
      inference_output_type c = inference_output_type (from_keras_model tf0 m) /\
      optimizations c = [DEFAULT].
Proof.
  destruct (w0_conversion_returns tf0 true (Some "float16"%string) artifact)
    as [w' Hrun]; [reflexivity | intros; reflexivity |].
  exists w'. split; [exact Hrun|].
  pose proof (float16_narrows_supported_types_only tf0 ["model.h5"%string]
                ["out"%string; "model.tflite"%string] true w0) as T.
  cbv zeta in T. rewrite Hrun in T. exact (T artifact eq_refl).
Defined.

(** X20 on the example library and world. *)
Lemma conversion_writes_output_path_only_witness :
  exists w',
    convert_to_tflite tf0 ["model.h5"%string] ["out"%string; "model.tflite"%string]
      true None w0 = (w', Ok artifact) /\
    files w' !! ["out"%string; "model.tflite"%string] = Some artifact /\
    (forall p, p <> ["out"%string; "model.tflite"%string] ->
               files w' !! p = files w0 !! p) /\
    dirs w0 ⊆ dirs w' /\
    (["model.h5"%string] = ["out"%string; "model.tflite"%string] ->
       LineNum "  Compression (%): " 0 ∈ stdout w').
Proof.
  destruct (w0_conversion_returns tf0 true None artifact)
    as [w' Hrun]; [reflexivity | intros; reflexivity |].
  exists w'. split; [exact Hrun|].
  pose proof (conversion_writes_output_path_only tf0 ["model.h5"%string]
                ["out"%string; "model.tflite"%string] true None w0) as T.
  cbv zeta in T. rewrite Hrun in T. exact (T artifact eq_refl).
Defined.

(** X21 on the example library whose converter raises under int8. *)
Lemma conversion_failure_leaves_files_or_divides_by_zero_witness :
  exists w',
    convert_to_tflite tf_unsupported ["model.h5"%string]
      ["out"%string; "model.tflite"%string] true (Some "int8"%string) w0
      = (w', Raise ConverterError) /\
    ((files w' = files w0 /\ ConverterError <> ZeroDivisionError) \/
     (ConverterError = ZeroDivisionError /\
      exists art,
        files w' = <[ ["out"%string; "model.tflite"%string] := art ]> (files w0) /\
        exists h5, files w' !! ["model.h5"%string] = Some h5 /\ h5 = [])).
Proof.
  destruct (convert_to_tflite_ConverterError tf_unsupported
              ["model.h5"%string] ["out"%string; "model.tflite"%string]
              true (Some "int8"%string) w0 h5_file ()) as [w' Hrun].
  - apply lookup_singleton_eq.
  - reflexivity.
  - intros c _ Hq. destruct (Hq eq_refl) as (Hops & _).
    cbn. rewrite Hops. reflexivity.
  - exists w'. split; [exact Hrun|].
    pose proof (conversion_failure_leaves_files_or_divides_by_zero tf_unsupported
                  ["model.h5"%string] ["out"%string; "model.tflite"%string]
                  true (Some "int8"%string) w0) as T.
    cbv zeta in T. rewrite Hrun in T. exact (T ConverterError eq_refl).
Defined.

End MoreWitnesses.

Section PlaceholderWitness.
Import TFLiteConverter ConverterExample PlaceholderModels.
Local Open Scope R_scope.

(** A run of [create_minimal_tflite_model] that nothing blocks, with the
    files and directories it leaves. *)
Lemma create_minimal_tflite_model_run (output_path : path)
    (input_shape output_shape : list nat) (model_name : string) (w : World) :
  parent output_path <> [] ->
  Forall (fun d => files w !! d = None) (prefixes (parent output_path)) ->
  output_path ∉ dirs w ->
  exists w',
    create_minimal_tflite_model output_path input_shape output_shape model_name w
      = (w', Ok 1028%Z) /\
    files w' = <[output_path := header ++ replicate 1024 Byte.x00]> (files w) /\
    dirs w' = dirs w ∪ list_to_set (prefixes (parent output_path)).
Proof.
  intros Hparent Hfree Hnd.
  assert (Hne : output_path <> []) by (intros ->; apply Hparent; reflexivity).
  unfold create_minimal_tflite_model. cbv zeta.
  erewrite bind_Ok_run; cycle 1.
  { unfold makedirs. rewrite decide_False by exact Hparent.
    unfold mkdir_parents. rewrite decide_False; [reflexivity|].
    rewrite Exists_exists. intros (d & Hd & [x Hx]).
    rewrite Forall_forall in Hfree. rewrite (Hfree d Hd) in Hx. discriminate. }
  erewrite bind_Ok_run; cycle 1.
  { unfold write_bytes. cbn [files dirs stdout invocations].
    rewrite decide_False; cycle 1.
    { intros [E | Hin]; [contradiction|].
      apply elem_of_union in Hin as [Hin | Hin]; [contradiction|].
      apply elem_of_list_to_set in Hin.
      exact (not_in_prefixes_parent output_path Hne Hin). }
    rewrite decide_True; [reflexivity|].
    apply elem_of_union. right. apply elem_of_list_to_set, self_in_prefixes. }
  erewrite bind_Ok_run by reflexivity.
  eexists. split; [reflexivity|]. split; reflexivity.
Qed.

Lemma placeholder_main_returns : exists w', PlaceholderModels.main w0 = (w', Ok ()).
Proof.
  unfold PlaceholderModels.main.
  erewrite bind_Ok_run by reflexivity. cbn [files dirs stdout invocations].
  match goal with
  | |- context [mbind _ (create_minimal_tflite_model ?p ?i ?o ?n) ?w] =>
      destruct (create_minimal_tflite_model_run p i o n w) as (w1 & E1 & F1 & D1)
  end.
  { discriminate. }
  { unfold w0. cbn. repeat constructor; apply lookup_singleton_ne; discriminate. }
  { unfold w0. cbn [dirs]. rewrite elem_of_singleton. discriminate. }
  erewrite bind_Ok_run by exact E1.
  unfold w0 in F1, D1. cbn [files dirs] in F1, D1.
  match goal with
  | |- context [mbind _ (create_minimal_tflite_model ?p ?i ?o ?n) ?w] =>
      destruct (create_minimal_tflite_model_run p i o n w) as (w2 & E2 & F2 & D2)
  end.
  { discriminate. }
  { rewrite F1. cbn.
    repeat constructor;
      (rewrite lookup_insert_ne by discriminate; apply lookup_singleton_ne;
       discriminate). }
  { rewrite D1. intros Hin. apply elem_of_union in Hin as [Hin | Hin].
    - apply elem_of_singleton in Hin. discriminate.
    - apply elem_of_list_to_set, prefixes_shorter in Hin. cbn in Hin. lia. }
  erewrite bind_Ok_run by exact E2.
  erewrite bind_Ok_run by reflexivity.
  eexists. reflexivity.
Qed.

(** X12 in the example world. *)
Lemma placeholder_main_writes_identical_files_witness :
  exists w' (data : bytes),
    PlaceholderModels.main w0 = (w', Ok ()) /\
    files w' !! (assets_dir ++ ["pitch_model.tflite"%string]) = Some data /\
    files w' !! (assets_dir ++ ["swar_classifier.tflite"%string]) = Some data /\
    length data = 1028%nat.
Proof.
  destruct placeholder_main_returns as [w' Hrun].
  destruct (placeholder_main_writes_identical_files w0 w' Hrun)
    as (data & H1 & H2 & H3).
  exists w', data. auto.
Defined.

End PlaceholderWitness.
